(** * OpenNMT-tf checkpoint converter (ctranslate2/converters/opennmt_tf.py)

    A shallow embedding of the converter that populates a CTranslate2
    transformer specification tree from the variables of an OpenNMT-tf
    checkpoint, and the properties of its name resolution, layout
    normalisation and error behaviour. *)

From Stdlib Require Import ZArith List String Ascii Bool Lia DecimalString.
From stdpp Require Import base option gmap strings list.

Local Open Scope string_scope.

(** ** NumPy arrays

    An array is a shape together with its elements in row-major (C) order.
    The tensors of a checkpoint that the converter reads are the float32
    weights of the model: an element is an IEEE 754 binary32 value, kept as
    its 32 bits.  Only the three array operations the converter calls are
    modelled: [squeeze], [transpose] without arguments, and
    [np.array_equal]. *)

Record ndarray : Type := NdArray { shape : list nat; data : list Z }.

(** A float32 is a NaN when its exponent bits are all ones and its fraction
    is not zero; it is a zero when every bit but the sign is zero. *)
Definition float32_is_nan (x : Z) : bool :=
  (Z.land x 0x7f800000 =? 0x7f800000)%Z && negb (Z.land x 0x007fffff =? 0)%Z.

Definition float32_is_zero (x : Z) : bool := (Z.land x 0x7fffffff =? 0)%Z.

(** [x == y] on two float32 values: a NaN equals nothing, itself included;
    the two zeros are equal; any other two values are equal when they have
    the same bits. *)
Definition float32_eqb (x y : Z) : bool :=
  negb (float32_is_nan x) && negb (float32_is_nan y) &&
  ((x =? y)%Z || (float32_is_zero x && float32_is_zero y)).

(** [(a == b).all()] on the elements of two arrays of the same shape. *)
Fixpoint all_equal (xs ys : list Z) : bool :=
  match xs, ys with
  | [], [] => true
  | x :: xs', y :: ys' => float32_eqb x y && all_equal xs' ys'
  | _, _ => false
  end.

(** [np.array_equal(a, b)]: [False] when the shapes differ, otherwise
    [bool((a == b).all())]. *)
Definition array_equal (a b : ndarray) : bool :=
  bool_decide (shape a = shape b) && all_equal (data a) (data b).

Definition numel (dims : list nat) : nat := foldr Nat.mul 1 dims.

(** [ndarray.squeeze()]: every axis of length one is removed, the elements
    are untouched. *)
Definition squeeze (a : ndarray) : ndarray :=
  {| shape := List.filter (fun d => negb (Nat.eqb d 1)) (shape a);
     data := data a |}.

(** Flat offset of a multi-index, outermost axis first. *)
Definition ravel (dims idx : list nat) : nat :=
  fold_left (fun acc di => acc * fst di + snd di) (combine dims idx) 0.

(** Multi-index of a flat offset, outermost axis first. *)
Fixpoint unravel (dims : list nat) (k : nat) : list nat :=
  match dims with
  | [] => []
  | _ :: ds => (k / numel ds) :: unravel ds (k mod numel ds)
  end.

(** [ndarray.transpose()]: the axes are reversed; the element at multi-index
    [idx] of the result is the element at [rev idx] of the argument. *)
Definition transpose (a : ndarray) : ndarray :=
  let dims' := rev (shape a) in
  {| shape := dims';
     data := List.map
               (fun k => nth (ravel (shape a) (rev (unravel dims' k))) (data a) 0%Z)
               (seq 0 (numel dims')) |}.

(** [np.array_equal] applied to attributes that may still be [None]. *)
Definition py_array_equal (a b : option ndarray) : bool :=
  match a, b with
  | Some x, Some y => array_equal x y
  | None, None => true
  | _, _ => false
  end.

(** ** Exceptions and the effect of a setter

    A setter mutates the specification node it is given and may raise.  The
    node is owned by the caller, so whatever was written before an
    exception stays written: a computation maps the node to an outcome
    together with the node as the caller sees it afterwards. *)

Inductive exn : Type :=
| KeyError (key : string)
| IndexError
| ValueError (msg : string)
| TypeError (msg : string)
| RuntimeError (msg : string)
| NotImplementedError
| OpError (msg : string).

Definition M (S A : Type) : Type := S -> (exn + A) * S.

Module Eff.

Definition ret {S A} (a : A) : M S A := fun s => (inr a, s).

Definition raise {S A} (e : exn) : M S A := fun s => (inl e, s).

Definition bind {S A B} (m : M S A) (k : A -> M S B) : M S B :=
  fun s =>
    match m s with
    | (inr a, s') => k a s'
    | (inl e, s') => (inl e, s')
    end.

(** Attribute assignment. *)
Definition modify {S} (f : S -> S) : M S unit := fun s => (inr tt, f s).

(** Attribute read. *)
Definition gets {S A} (f : S -> A) : M S A := fun s => (inr (f s), s).

(** Run a setter on the child node stored in an attribute. *)
Definition zoom {S T A} (get : S -> T) (put : T -> S -> S) (m : M T A) : M S A :=
  fun s => let '(r, t) := m (get s) in (r, put t s).

(** [try: m / except KeyError: h].  The handler starts from the node as the
    failed body left it. *)
Definition try_except_KeyError {S A} (m : M S A) (h : M S A) : M S A :=
  fun s =>
    match m s with
    | (inl (KeyError _), s') => h s'
    | r => r
    end.

(** Run a setter on a freshly constructed object that only the current
    function refers to; the object is handed back on success. *)
Definition on_fresh {S T A} (init : T) (m : M T A) : M S T :=
  fun s =>
    match m init with
    | (inr _, t) => (inr t, s)
    | (inl e, _) => (inl e, s)
    end.

(** Position addressed by a Python list index, negative indices counting
    from the end. *)
Definition py_index (len : nat) (i : Z) : option nat :=
  if (0 <=? i)%Z then
    if (i <? Z.of_nat len)%Z then Some (Z.to_nat i) else None
  else
    if (- Z.of_nat len <=? i)%Z then Some (Z.to_nat (Z.of_nat len + i)) else None.

(** Run a setter on [l[i]]. *)
Definition zoom_item {T A} (i : Z) (m : M T A) : M (list T) A :=
  fun l =>
    match py_index (length l) i with
    | Some n =>
        match l !! n with
        | Some x => let '(r, x') := m x in (r, <[n := x']> l)
        | None => (inl IndexError, l)
        end
    | None => (inl IndexError, l)
    end.

(** [for i, x in enumerate(l): f(x, i)], counting from [i]. *)
Fixpoint for_enumerate {T} (f : nat -> M T unit) (i : nat) (l : list T)
  : (exn + unit) * list T :=
  match l with
  | [] => (inr tt, [])
  | x :: xs =>
      match f i x with
      | (inr _, x') =>
          let '(r, xs') := for_enumerate f (S i) xs in (r, x' :: xs')
      | (inl e, x') => (inl e, x' :: xs)
      end
  end.

End Eff.

Notation "'let!' x ':=' m 'in' k" := (Eff.bind m (fun x => k))
  (at level 10, x name, m at level 100, k at level 200, only parsing).
Notation "m >> k" := (Eff.bind m (fun _ => k))
  (at level 100, k at level 200, right associativity, only parsing).

(** The variables of a checkpoint: a dict from variable name to array. *)
Abbreviation variables_t := (gmap string ndarray).

(** [variables[name]] *)
Definition getitem {S} (variables : variables_t) (name : string) : M S ndarray :=
  match variables !! name with
  | Some v => Eff.ret v
  | None => Eff.raise (KeyError name)
  end.

(** ["%d" % i] *)
Definition fmt_d (i : nat) : string := NilZero.string_of_uint (Nat.to_uint i).

(** ** Specification nodes (ctranslate2.specs)

    The classes of ctranslate2.specs are imported by the converter and
    declared in other modules.  Each record below has the attributes the
    converter reads and writes, under the names it uses; [empty] is the node
    as its constructor leaves it, and an array attribute that has not been
    assigned yet is [None]. *)

(** Modelled from the spec: [common_spec.LayerNormSpec], declared outside
    the converter; [LayerNormSpec { gamma, beta }]. *)
Module LayerNormSpec.
Record t : Type := mk { gamma : option ndarray; beta : option ndarray }.
Definition empty : t := mk None None.
Definition set_gamma (v : ndarray) (s : t) : t := mk (Some v) (beta s).
Definition set_beta (v : ndarray) (s : t) : t := mk (gamma s) (Some v).
End LayerNormSpec.

(** Modelled from the spec: [common_spec.LinearSpec], declared outside the
    converter; [LinearSpec { weight, bias: optional }]. *)
Module LinearSpec.
Record t : Type := mk { weight : option ndarray; bias : option ndarray }.
(** [common_spec.LinearSpec()] *)
Definition empty : t := mk None None.
Definition set_weight (v : option ndarray) (s : t) : t := mk v (bias s).
Definition set_bias (v : option ndarray) (s : t) : t := mk (weight s) v.
End LinearSpec.

(** Modelled from the spec: [common_spec.EmbeddingsSpec], declared outside
    the converter; [EmbeddingsSpec { weight, scale_by_sqrt_depth }], the flag
    under the attribute name the converter assigns. *)
Module EmbeddingsSpec.
Record t : Type := mk { weight : option ndarray; multiply_by_sqrt_depth : bool }.
Definition empty : t := mk None false.
Definition set_weight (v : ndarray) (s : t) : t := mk (Some v) (multiply_by_sqrt_depth s).
Definition set_multiply_by_sqrt_depth (b : bool) (s : t) : t := mk (weight s) b.
End EmbeddingsSpec.

(** Modelled from the spec: [transformer_spec.MultiHeadAttentionSpec],
    declared outside the converter; [AttentionSpec { layer_norm, linear,
    relative_position_keys/values }], with two linear entries for
    self-attention and three for cross-attention. *)
Module MultiHeadAttentionSpec.
Record t : Type := mk {
  layer_norm : LayerNormSpec.t;
  linear : list LinearSpec.t;
  relative_position_keys : option ndarray;
  relative_position_values : option ndarray }.
(** [MultiHeadAttentionSpec(self_attention=...)] *)
Definition empty (self_attention : bool) : t :=
  mk LayerNormSpec.empty
     (repeat LinearSpec.empty (if self_attention then 2 else 3)) None None.
Definition set_layer_norm v s :=
  mk v (linear s) (relative_position_keys s) (relative_position_values s).
Definition set_linear v s :=
  mk (layer_norm s) v (relative_position_keys s) (relative_position_values s).
Definition set_relative_position_keys v s :=
  mk (layer_norm s) (linear s) (Some v) (relative_position_values s).
Definition set_relative_position_values v s :=
  mk (layer_norm s) (linear s) (relative_position_keys s) (Some v).
End MultiHeadAttentionSpec.

(** Modelled from the spec: [transformer_spec.FeedForwardSpec], declared
    outside the converter; [FeedForwardSpec { layer_norm, linear_in,
    linear_out }] under the attribute names the converter uses. *)
Module FeedForwardSpec.
Record t : Type := mk {
  layer_norm : LayerNormSpec.t;
  linear_0 : LinearSpec.t;
  linear_1 : LinearSpec.t }.
Definition empty : t := mk LayerNormSpec.empty LinearSpec.empty LinearSpec.empty.
Definition set_layer_norm v s := mk v (linear_0 s) (linear_1 s).
Definition set_linear_0 v s := mk (layer_norm s) v (linear_1 s).
Definition set_linear_1 v s := mk (layer_norm s) (linear_0 s) v.
End FeedForwardSpec.

(** Modelled from the spec: [transformer_spec.TransformerEncoderLayerSpec],
    declared outside the converter; [EncoderLayerSpec { self_attention,
    ffn }]. *)
Module TransformerEncoderLayerSpec.
Record t : Type := mk {
  self_attention : MultiHeadAttentionSpec.t;
  ffn : FeedForwardSpec.t }.
Definition empty : t := mk (MultiHeadAttentionSpec.empty true) FeedForwardSpec.empty.
Definition set_self_attention v s := mk v (ffn s).
Definition set_ffn v s := mk (self_attention s) v.
End TransformerEncoderLayerSpec.

(** Modelled from the spec: [transformer_spec.TransformerDecoderLayerSpec],
    declared outside the converter; [DecoderLayerSpec { self_attention,
    cross_attention, ffn }], the cross-attention under the attribute name
    [attention] the converter uses. *)
Module TransformerDecoderLayerSpec.
Record t : Type := mk {
  self_attention : MultiHeadAttentionSpec.t;
  attention : MultiHeadAttentionSpec.t;
  ffn : FeedForwardSpec.t }.
Definition empty : t :=
  mk (MultiHeadAttentionSpec.empty true) (MultiHeadAttentionSpec.empty false)
     FeedForwardSpec.empty.
Definition set_self_attention v s := mk v (attention s) (ffn s).
Definition set_attention v s := mk (self_attention s) v (ffn s).
Definition set_ffn v s := mk (self_attention s) (attention s) v.
End TransformerDecoderLayerSpec.

(** Modelled from the spec: [transformer_spec.TransformerEncoderSpec],
    declared outside the converter; [EncoderSpec { embeddings, layer_norm,
    layers }], built with a given number of layers. *)
Module TransformerEncoderSpec.
Record t : Type := mk {
  embeddings : EmbeddingsSpec.t;
  layer_norm : LayerNormSpec.t;
  layer : list TransformerEncoderLayerSpec.t }.
Definition empty (num_layers : nat) : t :=
  mk EmbeddingsSpec.empty LayerNormSpec.empty
     (repeat TransformerEncoderLayerSpec.empty num_layers).
Definition set_embeddings v s := mk v (layer_norm s) (layer s).
Definition set_layer_norm v s := mk (embeddings s) v (layer s).
Definition set_layer v s := mk (embeddings s) (layer_norm s) v.
End TransformerEncoderSpec.

(** Modelled from the spec: [transformer_spec.TransformerDecoderSpec],
    declared outside the converter; [DecoderSpec { embeddings, layer_norm,
    layers, projection }], built with a given number of layers. *)
Module TransformerDecoderSpec.
Record t : Type := mk {
  embeddings : EmbeddingsSpec.t;
  layer_norm : LayerNormSpec.t;
  projection : LinearSpec.t;
  layer : list TransformerDecoderLayerSpec.t }.
Definition empty (num_layers : nat) : t :=
  mk EmbeddingsSpec.empty LayerNormSpec.empty LinearSpec.empty
     (repeat TransformerDecoderLayerSpec.empty num_layers).
Definition set_embeddings v s := mk v (layer_norm s) (projection s) (layer s).
Definition set_layer_norm v s := mk (embeddings s) v (projection s) (layer s).
Definition set_projection v s := mk (embeddings s) (layer_norm s) v (layer s).
Definition set_layer v s := mk (embeddings s) (layer_norm s) (projection s) v.
End TransformerDecoderSpec.

(** Modelled from the spec: [transformer_spec.TransformerSpec], declared
    outside the converter; [ModelSpec { encoder, decoder,
    uses_relative_position, vocabularies }]. *)
Module TransformerSpec.
Record t : Type := mk {
  encoder : TransformerEncoderSpec.t;
  decoder : TransformerDecoderSpec.t;
  with_relative_position : bool;
  vocabulary : gmap string (list string) }.
(** [TransformerSpec(num_layers, ..., with_relative_position)] *)
Definition empty (num_layers : nat) (relative : bool) : t :=
  mk (TransformerEncoderSpec.empty num_layers)
     (TransformerDecoderSpec.empty num_layers) relative ∅.
Definition set_encoder v s := mk v (decoder s) (with_relative_position s) (vocabulary s).
Definition set_decoder v s := mk (encoder s) v (with_relative_position s) (vocabulary s).
(** [register_vocabulary(name, tokens)] *)
Definition register_vocabulary (name : string) (tokens : list string) (s : t) : t :=
  mk (encoder s) (decoder s) (with_relative_position s) (<[name := tokens]> (vocabulary s)).
End TransformerSpec.

(** ** Linear fusion (ctranslate2.converters.utils) *)

(** Row-wise concatenation of arrays that agree on every axis but the
    first (np.concatenate along axis 0). *)
Definition concatenate (parts : list ndarray) : ndarray :=
  match parts with
  | [] => NdArray [] []
  | p :: _ =>
      {| shape := match shape p with
                  | [] => []
                  | _ :: rest => sum_list (List.map (fun q => hd 0 (shape q)) parts) :: rest
                  end;
         data := concat (List.map data parts) |}
  end.

(** Modelled from the spec: [utils.fuse_linear(spec, layers)] is called by
    the converter but defined in another module.  The fused weight is the
    row-wise concatenation of the parts' weights in the order given; the
    fused bias is the concatenation of the parts' biases when every part has
    one and is absent otherwise. *)
Definition fuse_linear (layers : list LinearSpec.t) : M LinearSpec.t unit :=
  Eff.modify (fun _ =>
    {| LinearSpec.weight := concatenate <$> mapM LinearSpec.weight layers;
       LinearSpec.bias := concatenate <$> mapM LinearSpec.bias layers |}).

(** ** The setters *)

Section Setters.

Variable variables : variables_t.

Definition set_layer_norm (scope : string) : M LayerNormSpec.t unit :=
  let! g := getitem variables (scope +:+ "/gamma") in
  Eff.modify (LayerNormSpec.set_gamma g) >>
  let! b := getitem variables (scope +:+ "/beta") in
  Eff.modify (LayerNormSpec.set_beta b).

Definition set_linear (scope : string) (weight_name : option string) (transpose_ : bool)
  : M LinearSpec.t unit :=
  let weight_name := default (scope +:+ "/kernel") weight_name in
  let! w := getitem variables weight_name in
  Eff.modify (LinearSpec.set_weight (Some (squeeze w))) >>
  (if transpose_
   then Eff.modify (fun s => LinearSpec.set_weight (transpose <$> LinearSpec.weight s) s)
   else Eff.ret tt) >>
  match variables !! (scope +:+ "/bias") with
  | Some bias => Eff.modify (LinearSpec.set_bias (Some bias))
  | None => Eff.ret tt
  end.

Definition set_embeddings (scope : string) (version : nat) : M EmbeddingsSpec.t string :=
  let name := if Nat.eqb version 2 then "embedding" else "w_embs" in
  let variable_name := scope +:+ "/" +:+ name in
  let! w := getitem variables variable_name in
  Eff.modify (EmbeddingsSpec.set_weight w) >>
  Eff.modify (EmbeddingsSpec.set_multiply_by_sqrt_depth true) >>
  Eff.ret variable_name.

(** *** Generation 1 *)

Definition set_multi_head_attention (scope : string) (self_attention : bool)
  : M MultiHeadAttentionSpec.t unit :=
  let linear {A} (i : Z) (m : M LinearSpec.t A) : M MultiHeadAttentionSpec.t A :=
    Eff.zoom MultiHeadAttentionSpec.linear MultiHeadAttentionSpec.set_linear
      (Eff.zoom_item i m) in
  Eff.zoom MultiHeadAttentionSpec.layer_norm MultiHeadAttentionSpec.set_layer_norm
    (set_layer_norm (scope +:+ "/LayerNorm")) >>
  linear 0%Z (set_linear (scope +:+ "/conv1d") None true) >>
  linear 1%Z (set_linear (scope +:+ "/conv1d_1") None true) >>
  if negb self_attention
  then linear 2%Z (set_linear (scope +:+ "/conv1d_2") None true)
  else Eff.ret tt.

Definition set_ffn (scope : string) : M FeedForwardSpec.t unit :=
  Eff.zoom FeedForwardSpec.layer_norm FeedForwardSpec.set_layer_norm
    (set_layer_norm (scope +:+ "/LayerNorm")) >>
  Eff.zoom FeedForwardSpec.linear_0 FeedForwardSpec.set_linear_0
    (set_linear (scope +:+ "/conv1d") None true) >>
  Eff.zoom FeedForwardSpec.linear_1 FeedForwardSpec.set_linear_1
    (set_linear (scope +:+ "/conv1d_1") None true).

Definition set_transformer_encoder_layer (scope : string)
  : M TransformerEncoderLayerSpec.t unit :=
  Eff.zoom TransformerEncoderLayerSpec.ffn TransformerEncoderLayerSpec.set_ffn
    (set_ffn (scope +:+ "/ffn")) >>
  Eff.zoom TransformerEncoderLayerSpec.self_attention
    TransformerEncoderLayerSpec.set_self_attention
    (set_multi_head_attention (scope +:+ "/multi_head") true).

Definition set_transformer_decoder_layer (scope : string)
  : M TransformerDecoderLayerSpec.t unit :=
  Eff.zoom TransformerDecoderLayerSpec.ffn TransformerDecoderLayerSpec.set_ffn
    (set_ffn (scope +:+ "/ffn")) >>
  Eff.zoom TransformerDecoderLayerSpec.self_attention
    TransformerDecoderLayerSpec.set_self_attention
    (set_multi_head_attention (scope +:+ "/masked_multi_head") true) >>
  Eff.zoom TransformerDecoderLayerSpec.attention
    TransformerDecoderLayerSpec.set_attention
    (set_multi_head_attention (scope +:+ "/multi_head") false).

Definition set_transformer_encoder : M TransformerEncoderSpec.t unit :=
  let embeddings {A} (m : M EmbeddingsSpec.t A) : M TransformerEncoderSpec.t A :=
    Eff.zoom TransformerEncoderSpec.embeddings TransformerEncoderSpec.set_embeddings m in
  Eff.zoom TransformerEncoderSpec.layer_norm TransformerEncoderSpec.set_layer_norm
    (set_layer_norm "transformer/encoder/LayerNorm") >>
  Eff.try_except_KeyError
    (embeddings (set_embeddings "transformer/encoder" 1))
    (embeddings (set_embeddings "transformer/shared_embeddings" 1)) >>
  Eff.zoom TransformerEncoderSpec.layer TransformerEncoderSpec.set_layer
    (Eff.for_enumerate
       (fun i => set_transformer_encoder_layer ("transformer/encoder/layer_" +:+ fmt_d i))
       0).

Definition set_transformer_decoder : M TransformerDecoderSpec.t unit :=
  let embeddings {A} (m : M EmbeddingsSpec.t A) : M TransformerDecoderSpec.t A :=
    Eff.zoom TransformerDecoderSpec.embeddings TransformerDecoderSpec.set_embeddings m in
  let projection {A} (m : M LinearSpec.t A) : M TransformerDecoderSpec.t A :=
    Eff.zoom TransformerDecoderSpec.projection TransformerDecoderSpec.set_projection m in
  let! embeddings_name := Eff.try_except_KeyError
      (embeddings (set_embeddings "transformer/decoder" 1))
      (embeddings (set_embeddings "transformer/shared_embeddings" 1)) in
  Eff.try_except_KeyError
    (projection (set_linear "transformer/decoder/dense" None true))
    (projection (set_linear "transformer" (Some embeddings_name) false)) >>
  Eff.zoom TransformerDecoderSpec.layer_norm TransformerDecoderSpec.set_layer_norm
    (set_layer_norm "transformer/decoder/LayerNorm") >>
  Eff.zoom TransformerDecoderSpec.layer TransformerDecoderSpec.set_layer
    (Eff.for_enumerate
       (fun i => set_transformer_decoder_layer ("transformer/decoder/layer_" +:+ fmt_d i))
       0).

Definition set_transformer_spec : M TransformerSpec.t unit :=
  let! relative := Eff.gets TransformerSpec.with_relative_position in
  if relative : bool then Eff.raise NotImplementedError
  else
    Eff.zoom TransformerSpec.encoder TransformerSpec.set_encoder set_transformer_encoder >>
    Eff.zoom TransformerSpec.decoder TransformerSpec.set_decoder set_transformer_decoder.

End Setters.

(** *** Generation 2 *)

Section SettersV2.

Variable variables : variables_t.

Definition set_ffn_v2 (scope : string) : M FeedForwardSpec.t unit :=
  Eff.zoom FeedForwardSpec.layer_norm FeedForwardSpec.set_layer_norm
    (set_layer_norm variables (scope +:+ "/input_layer_norm")) >>
  Eff.zoom FeedForwardSpec.linear_0 FeedForwardSpec.set_linear_0
    (set_linear variables (scope +:+ "/layer/inner") None true) >>
  Eff.zoom FeedForwardSpec.linear_1 FeedForwardSpec.set_linear_1
    (set_linear variables (scope +:+ "/layer/outer") None true).

Definition set_multi_head_attention_v2 (scope : string) (self_attention relative : bool)
  : M MultiHeadAttentionSpec.t unit :=
  let linear {A} (i : Z) (m : M LinearSpec.t A) : M MultiHeadAttentionSpec.t A :=
    Eff.zoom MultiHeadAttentionSpec.linear MultiHeadAttentionSpec.set_linear
      (Eff.zoom_item i m) in
  let split_layer (name : string) : M MultiHeadAttentionSpec.t LinearSpec.t :=
    Eff.on_fresh LinearSpec.empty (set_linear variables (scope +:+ name) None true) in
  Eff.zoom MultiHeadAttentionSpec.layer_norm MultiHeadAttentionSpec.set_layer_norm
    (set_layer_norm variables (scope +:+ "/input_layer_norm")) >>
  (if self_attention then
     let! q := split_layer "/layer/linear_queries" in
     let! k := split_layer "/layer/linear_keys" in
     let! v := split_layer "/layer/linear_values" in
     linear 0%Z (fuse_linear [q; k; v]) >>
     if relative then
       let! rk := getitem variables (scope +:+ "/layer/relative_position_keys") in
       Eff.modify (MultiHeadAttentionSpec.set_relative_position_keys rk) >>
       let! rv := getitem variables (scope +:+ "/layer/relative_position_values") in
       Eff.modify (MultiHeadAttentionSpec.set_relative_position_values rv)
     else Eff.ret tt
   else
     linear 0%Z (set_linear variables (scope +:+ "/layer/linear_queries") None true) >>
     let! k := split_layer "/layer/linear_keys" in
     let! v := split_layer "/layer/linear_values" in
     linear 1%Z (fuse_linear [k; v])) >>
  linear (-1)%Z (set_linear variables (scope +:+ "/layer/linear_output") None true).

Definition set_transformer_encoder_layer_v2 (scope : string) (relative : bool)
  : M TransformerEncoderLayerSpec.t unit :=
  Eff.zoom TransformerEncoderLayerSpec.ffn TransformerEncoderLayerSpec.set_ffn
    (set_ffn_v2 (scope +:+ "/ffn")) >>
  Eff.zoom TransformerEncoderLayerSpec.self_attention
    TransformerEncoderLayerSpec.set_self_attention
    (set_multi_head_attention_v2 (scope +:+ "/self_attention") true relative).

Definition set_transformer_decoder_layer_v2 (scope : string) (relative : bool)
  : M TransformerDecoderLayerSpec.t unit :=
  Eff.zoom TransformerDecoderLayerSpec.ffn TransformerDecoderLayerSpec.set_ffn
    (set_ffn_v2 (scope +:+ "/ffn")) >>
  Eff.zoom TransformerDecoderLayerSpec.self_attention
    TransformerDecoderLayerSpec.set_self_attention
    (set_multi_head_attention_v2 (scope +:+ "/self_attention") true relative) >>
  Eff.zoom TransformerDecoderLayerSpec.attention
    TransformerDecoderLayerSpec.set_attention
    (set_multi_head_attention_v2 (scope +:+ "/attention/0") false relative).

Definition set_transformer_encoder_v2 (scope : string) (relative : bool)
  : M TransformerEncoderSpec.t unit :=
  Eff.zoom TransformerEncoderSpec.layer_norm TransformerEncoderSpec.set_layer_norm
    (set_layer_norm variables (scope +:+ "/layer_norm")) >>
  Eff.zoom TransformerEncoderSpec.layer TransformerEncoderSpec.set_layer
    (Eff.for_enumerate
       (fun i => set_transformer_encoder_layer_v2 (scope +:+ "/layers/" +:+ fmt_d i) relative)
       0).

Definition set_transformer_decoder_v2 (scope target_embedding_name : string) (relative : bool)
  : M TransformerDecoderSpec.t unit :=
  let projection {A} (m : M LinearSpec.t A) : M TransformerDecoderSpec.t A :=
    Eff.zoom TransformerDecoderSpec.projection TransformerDecoderSpec.set_projection m in
  Eff.try_except_KeyError
    (projection (set_linear variables (scope +:+ "/output_layer") None false) >>
     let! tied := Eff.gets (fun s =>
       py_array_equal (LinearSpec.weight (TransformerDecoderSpec.projection s))
                      (EmbeddingsSpec.weight (TransformerDecoderSpec.embeddings s))) in
     if negb tied
     then projection
            (Eff.modify (fun p => LinearSpec.set_weight (transpose <$> LinearSpec.weight p) p))
     else Eff.ret tt)
    (projection
       (set_linear variables (scope +:+ "/output_layer") (Some target_embedding_name) false)) >>
  Eff.zoom TransformerDecoderSpec.layer_norm TransformerDecoderSpec.set_layer_norm
    (set_layer_norm variables (scope +:+ "/layer_norm")) >>
  Eff.zoom TransformerDecoderSpec.layer TransformerDecoderSpec.set_layer
    (Eff.for_enumerate
       (fun i => set_transformer_decoder_layer_v2 (scope +:+ "/layers/" +:+ fmt_d i) relative)
       0).

Definition set_transformer_spec_v2 : M TransformerSpec.t unit :=
  let encoder {A} (m : M TransformerEncoderSpec.t A) : M TransformerSpec.t A :=
    Eff.zoom TransformerSpec.encoder TransformerSpec.set_encoder m in
  let decoder {A} (m : M TransformerDecoderSpec.t A) : M TransformerSpec.t A :=
    Eff.zoom TransformerSpec.decoder TransformerSpec.set_decoder m in
  let enc_embeddings {A} (m : M EmbeddingsSpec.t A) :=
    encoder (Eff.zoom TransformerEncoderSpec.embeddings TransformerEncoderSpec.set_embeddings m) in
  let dec_embeddings {A} (m : M EmbeddingsSpec.t A) :=
    decoder (Eff.zoom TransformerDecoderSpec.embeddings TransformerDecoderSpec.set_embeddings m) in
  enc_embeddings
    (set_embeddings variables "model/examples_inputter/features_inputter" 2) >>
  let! target_embedding_name :=
    Eff.try_except_KeyError
      (dec_embeddings
         (set_embeddings variables "model/examples_inputter/labels_inputter" 2))
      (dec_embeddings
         (set_embeddings variables "model/examples_inputter/features_inputter" 2)) in
  let! relative := Eff.gets TransformerSpec.with_relative_position in
  encoder (set_transformer_encoder_v2 "model/encoder" relative) >>
  let! relative := Eff.gets TransformerSpec.with_relative_position in
  decoder (set_transformer_decoder_v2 "model/decoder" target_embedding_name relative).

End SettersV2.

(** ** Vocabularies *)

(** What a caller may pass as a vocabulary: an [opennmt.data.Vocab] object
    (given by its [words]), a list of tokens, a path, or any other value. *)
Inductive vocab_arg : Type :=
| VocabObject (words : list string)
| VocabList (tokens : list string)
| VocabPath (path : string)
| VocabOther.

Section Vocab.

(** [opennmt.data.Vocab.from_file(path).words] *)
Variable vocab_from_file : string -> exn + list string.

Definition _load_vocab (vocab : vocab_arg) (unk_token : string) : exn + list string :=
  let tokens :=
    match vocab with
    | VocabObject words => inr words
    | VocabList l => inr l
    | VocabPath path => vocab_from_file path
    | VocabOther => inl (TypeError "Invalid vocabulary type")
    end in
  match tokens with
  | inl e => inl e
  | inr tokens =>
      if bool_decide (unk_token ∈ tokens) then inr tokens
      else inr (tokens ++ [unk_token])%list
  end.

End Vocab.

(** ** Reading a checkpoint *)

(** [os.path.basename] *)
Fixpoint after_last_slash (p : string) : option string :=
  match p with
  | EmptyString => None
  | String c r =>
      match after_last_slash r with
      | Some b => Some b
      | None => if Ascii.eqb c "/" then Some r else None
      end
  end.

Definition basename (p : string) : string := default p (after_last_slash p).

(** [s.replace(old, "")] for a non-empty [old]; [skip] characters of a match
    found earlier are still to be dropped. *)
Fixpoint remove_all (old : string) (skip : nat) (s : string) : string :=
  match s with
  | EmptyString => EmptyString
  | String c r =>
      match skip with
      | S k => remove_all old k r
      | O =>
          if String.prefix old s
          then remove_all old (String.length old - 1) r
          else String c (remove_all old 0 r)
      end
  end.

(** A checkpoint reader, as [tf.train.load_checkpoint] returns it. *)
Record reader : Type := Reader {
  (** the keys of [reader.get_variable_to_shape_map()], in iteration order *)
  variable_names : list string;
  (** [reader.get_tensor(name)]: the tensor, or the error raised *)
  get_tensor : string -> exn + ndarray }.

(** The file system and TensorFlow functions [load_model] calls.  A
    directory without a checkpoint has [None] as its latest checkpoint;
    opening a checkpoint that does not exist or cannot be read raises. *)
Record tf_env : Type := TfEnv {
  contains_saved_model : string -> bool;
  isdir : string -> bool;
  latest_checkpoint : string -> option string;
  load_checkpoint : option string -> exn + reader }.

(** [{name: reader.get_tensor(name) for name in names}], as the list of its
    items: the first tensor that cannot be read raises. *)
Fixpoint read_tensors (r : reader) (names : list string) : exn + list (string * ndarray) :=
  match names with
  | [] => inr []
  | name :: rest =>
      match get_tensor r name with
      | inl e => inl e
      | inr value =>
          match read_tensors r rest with
          | inl e => inl e
          | inr items => inr ((name, value) :: items)
          end
      end
  end.

(** A dict comprehension: later items overwrite earlier ones. *)
Definition dict_of_items (items : list (string * ndarray)) : variables_t :=
  foldl (fun d kv => <[kv.1 := kv.2]> d) ∅ items.

Definition load_model (tf : tf_env) (model_path : string) : exn + (nat * variables_t) :=
  if contains_saved_model tf model_path then
    inl (RuntimeError
           "Converting the SavedModel format is not supported, please convert a TensorFlow checkpoint instead")
  else
    let checkpoint :=
      if isdir tf model_path then latest_checkpoint tf model_path else Some model_path in
    match load_checkpoint tf checkpoint with
    | inl e => inl e
    | inr reader =>
        match read_tensors reader (variable_names reader) with
        | inl e => inl e
        | inr items =>
            match checkpoint with
            | None =>
                (* os.path.basename(None) *)
                inl (TypeError "expected str, bytes or os.PathLike object, not NoneType")
            | Some checkpoint =>
                if String.prefix "ckpt" (basename checkpoint) then
                  inr (2, dict_of_items
                            (List.map
                               (fun kv =>
                                  (remove_all "/.ATTRIBUTES/VARIABLE_VALUE" 0 kv.1, kv.2))
                               items))
                else inr (1, dict_of_items items)
            end
        end
    end.

(** ** The converter *)

(** What a caller may pass as [variables]: a dict or some other object. *)
Inductive variables_arg : Type :=
| VarDict (d : variables_t)
| VarOther.

Module OpenNMTTFConverter.

Record t : Type := mk {
  _src_vocab : vocab_arg;
  _tgt_vocab : vocab_arg;
  _model_path : option string;
  _variables : option variables_arg }.

(** [__init__].  The specification tree [model_spec] is the caller's object;
    the converter keeps a reference to it and [_load] mutates it, so it is
    the state the computations below run on. *)
Definition __init__ (src_vocab tgt_vocab : vocab_arg)
    (model_path : option string) (variables : option variables_arg) : exn + t :=
  if Bool.eqb (bool_decide (model_path = None)) (bool_decide (variables = None)) then
    inl (ValueError "Exactly one of model_path and variables should be set")
  else
    match variables with
    | Some VarOther =>
        inl (ValueError "variables should be a dict mapping variable name to value")
    | _ => inr (mk src_vocab tgt_vocab model_path variables)
    end.

Section Load.

Variable tf : tf_env.
Variable vocab_from_file : string -> exn + list string.

(** The first statement of [_load]: the generation and the variables. *)
Definition resolve (self : t) : exn + (nat * option variables_arg) :=
  match _model_path self with
  | Some path =>
      match load_model tf path with
      | inr (version, variables) => inr (version, Some (VarDict variables))
      | inl e => inl e
      end
  | None => inr (2, _variables self)
  end.

(** A setter pipeline applied to whatever [variables] is: subscripting
    [None] or an object without [__getitem__] is a [TypeError]. *)
Definition with_variables (variables : option variables_arg)
    (pipeline : variables_t -> M TransformerSpec.t unit) : M TransformerSpec.t unit :=
  match variables with
  | Some (VarDict d) => pipeline d
  | _ => Eff.raise (TypeError "object is not subscriptable")
  end.

Definition lift {S A} (r : exn + A) : M S A :=
  match r with
  | inr a => Eff.ret a
  | inl e => Eff.raise e
  end.

Definition _load (self : t) : M TransformerSpec.t unit :=
  let! vv := lift (resolve self) in
  (if Nat.leb 2 vv.1
   then with_variables vv.2 set_transformer_spec_v2
   else with_variables vv.2 set_transformer_spec) >>
  let! src := lift (_load_vocab vocab_from_file (_src_vocab self) "<unk>") in
  Eff.modify (TransformerSpec.register_vocabulary "source" src) >>
  let! tgt := lift (_load_vocab vocab_from_file (_tgt_vocab self) "<unk>") in
  Eff.modify (TransformerSpec.register_vocabulary "target" tgt).

End Load.

End OpenNMTTFConverter.

(** ** Example checkpoints

    Small checkpoints in both naming conventions, used to run the converter
    on concrete inputs. *)

Module Fixtures.

Definition vec (n : nat) (x : Z) : ndarray := NdArray [n] (repeat x n).

Definition mat (r c : nat) (start : nat) : ndarray :=
  NdArray [r; c] (List.map Z.of_nat (seq start (r * c))).

Definition layer_norm_vars (scope : string) : list (string * ndarray) :=
  [(scope +:+ "/gamma", vec 2 1%Z); (scope +:+ "/beta", vec 2 0%Z)].

Definition linear_vars (scope : string) (r c : nat) : list (string * ndarray) :=
  [(scope +:+ "/kernel", mat r c 1); (scope +:+ "/bias", vec c 7%Z)].

(** Generation 1 *)

Definition ffn_vars (scope : string) : list (string * ndarray) :=
  (layer_norm_vars (scope +:+ "/LayerNorm")
   ++ linear_vars (scope +:+ "/conv1d") 2 3
   ++ linear_vars (scope +:+ "/conv1d_1") 3 2)%list.

Definition attention_vars (scope : string) (self_attention : bool)
  : list (string * ndarray) :=
  (layer_norm_vars (scope +:+ "/LayerNorm")
   ++ (if self_attention
       then linear_vars (scope +:+ "/conv1d") 2 6 ++ linear_vars (scope +:+ "/conv1d_1") 2 2
       else linear_vars (scope +:+ "/conv1d") 2 2 ++ linear_vars (scope +:+ "/conv1d_1") 2 4
            ++ linear_vars (scope +:+ "/conv1d_2") 2 2))%list.

Definition encoder_layer_vars (i : nat) : list (string * ndarray) :=
  let scope := "transformer/encoder/layer_" +:+ fmt_d i in
  (ffn_vars (scope +:+ "/ffn") ++ attention_vars (scope +:+ "/multi_head") true)%list.

Definition decoder_layer_vars (i : nat) : list (string * ndarray) :=
  let scope := "transformer/decoder/layer_" +:+ fmt_d i in
  (ffn_vars (scope +:+ "/ffn")
   ++ attention_vars (scope +:+ "/masked_multi_head") true
   ++ attention_vars (scope +:+ "/multi_head") false)%list.

(** Everything of a generation-1 checkpoint but the embeddings and the
    output projection, with transformer blocks at the given indices. *)
Definition body_v1 (indices : list nat) : list (string * ndarray) :=
  (layer_norm_vars "transformer/encoder/LayerNorm"
   ++ layer_norm_vars "transformer/decoder/LayerNorm"
   ++ concat (List.map encoder_layer_vars indices)
   ++ concat (List.map decoder_layer_vars indices))%list.

Definition src_embedding : ndarray := mat 4 2 10.
Definition tgt_embedding : ndarray := mat 3 2 20.
Definition shared_embedding : ndarray := mat 5 2 30.

(** Separate embeddings and a dedicated output projection. *)
Definition checkpoint_v1 (indices : list nat) : variables_t :=
  list_to_map
    ([("transformer/encoder/w_embs", src_embedding);
      ("transformer/decoder/w_embs", tgt_embedding)]
     ++ linear_vars "transformer/decoder/dense" 2 3
     ++ body_v1 indices)%list.

(** Only the shared-embeddings scope, no output projection. *)
Definition checkpoint_v1_shared (indices : list nat) : variables_t :=
  list_to_map
    (("transformer/shared_embeddings/w_embs", shared_embedding) :: body_v1 indices).

(** Generation 2 *)

Definition ffn_vars_v2 (scope : string) : list (string * ndarray) :=
  (layer_norm_vars (scope +:+ "/input_layer_norm")
   ++ linear_vars (scope +:+ "/layer/inner") 2 3
   ++ linear_vars (scope +:+ "/layer/outer") 3 2)%list.

Definition attention_vars_v2 (scope : string) : list (string * ndarray) :=
  (layer_norm_vars (scope +:+ "/input_layer_norm")
   ++ [(scope +:+ "/layer/linear_queries/kernel", mat 2 2 100);
       (scope +:+ "/layer/linear_queries/bias", vec 2 1%Z);
       (scope +:+ "/layer/linear_keys/kernel", mat 2 2 200);
       (scope +:+ "/layer/linear_keys/bias", vec 2 2%Z);
       (scope +:+ "/layer/linear_values/kernel", mat 2 2 300);
       (scope +:+ "/layer/linear_values/bias", vec 2 3%Z)]
   ++ linear_vars (scope +:+ "/layer/linear_output") 2 2)%list.

Definition encoder_layer_vars_v2 (i : nat) : list (string * ndarray) :=
  let scope := "model/encoder/layers/" +:+ fmt_d i in
  (ffn_vars_v2 (scope +:+ "/ffn") ++ attention_vars_v2 (scope +:+ "/self_attention"))%list.

Definition decoder_layer_vars_v2 (i : nat) : list (string * ndarray) :=
  let scope := "model/decoder/layers/" +:+ fmt_d i in
  (ffn_vars_v2 (scope +:+ "/ffn")
   ++ attention_vars_v2 (scope +:+ "/self_attention")
   ++ attention_vars_v2 (scope +:+ "/attention/0"))%list.

Definition body_v2 (indices : list nat) : list (string * ndarray) :=
  (layer_norm_vars "model/encoder/layer_norm"
   ++ layer_norm_vars "model/decoder/layer_norm"
   ++ concat (List.map encoder_layer_vars_v2 indices)
   ++ concat (List.map decoder_layer_vars_v2 indices))%list.

(** Separate embeddings and an output projection stored as
    [depth, vocabulary]. *)
Definition checkpoint_v2 (indices : list nat) : variables_t :=
  list_to_map
    ([("model/examples_inputter/features_inputter/embedding", src_embedding);
      ("model/examples_inputter/labels_inputter/embedding", tgt_embedding)]
     ++ linear_vars "model/decoder/output_layer" 2 3
     ++ body_v2 indices)%list.

(** No output projection: the target embeddings are reused. *)
Definition checkpoint_v2_tied (indices : list nat) : variables_t :=
  list_to_map
    ([("model/examples_inputter/features_inputter/embedding", src_embedding);
      ("model/examples_inputter/labels_inputter/embedding", tgt_embedding)]
     ++ body_v2 indices)%list.


(** A reader of a checkpoint holding the given variables. *)
Definition reader_of (items : list (string * ndarray)) : reader :=
  {| variable_names := List.map fst items;
     get_tensor := fun name =>
       match dict_of_items items !! name with
       | Some value => inr value
       | None => inl (OpError "Key not found in checkpoint")
       end |}.

(** Every path is a checkpoint file holding the given variables; there is
    no directory. *)
Definition tf_of (items : list (string * ndarray)) : tf_env :=
  {| contains_saved_model := fun _ => false;
     isdir := fun _ => false;
     latest_checkpoint := fun _ => None;
     load_checkpoint := fun checkpoint =>
       match checkpoint with
       | Some _ => inr (reader_of items)
       | None => inl (TypeError "Expected binary or unicode string, got None")
       end |}.

Definition no_vocab_file : string -> exn + list string :=
  fun _ => inl (RuntimeError "no such file").

End Fixtures.

(** ** Notions used in the statements *)

(** The weight [set_linear] stores for the array [w] found in the
    checkpoint. *)
Definition linear_weight (transpose_ : bool) (w : ndarray) : ndarray :=
  if transpose_ then transpose (squeeze w) else squeeze w.

(** The expression [OpenNMTTFConverter(model_spec, ...)._load()]: the
    converter is constructed, then loaded. *)
Definition construct_and_load (tf : tf_env) (vocab_from_file : string -> exn + list string)
    (src_vocab tgt_vocab : vocab_arg)
    (model_path : option string) (variables : option variables_arg)
  : M TransformerSpec.t unit :=
  match OpenNMTTFConverter.__init__ src_vocab tgt_vocab model_path variables with
  | inl e => Eff.raise e
  | inr self => OpenNMTTFConverter._load tf vocab_from_file self
  end.

(** [keeps f m]: running [m] never changes the observation [f] of the
    node, whether it returns or raises. *)
Definition keeps {S A B} (f : S -> B) (m : M S A) : Prop :=
  forall s, f (m s).2 = f s.

(** The number of transformer blocks a checkpoint holds, counted the way
    the specification does: layer indices from 0 upward, up to the first
    index for which [key i] is not a variable of the checkpoint. *)
Fixpoint contiguous_from (present : nat -> bool) (i fuel : nat) : nat :=
  match fuel with
  | O => O
  | S fuel' => if present i then S (contiguous_from present (S i) fuel') else O
  end.

Definition checkpoint_layer_count (variables : variables_t) (key : nat -> string) : nat :=
  contiguous_from (fun i => bool_decide (is_Some (variables !! key i))) 0 (size variables).

(** The weight [set_linear] stores for the kernel under [scope], if the
    checkpoint has one. *)
Definition loaded_kernel (variables : variables_t) (scope : string) : option ndarray :=
  (fun w => transpose (squeeze w)) <$> variables !! (scope +:+ "/kernel").



(** Two float32 values that [==] finds equal: neither is a NaN, and they
    have the same bits or are both zeros. *)
Definition float32_eq (x y : Z) : Prop :=
  float32_is_nan x = false /\ float32_is_nan y = false /\
  (x = y \/ (float32_is_zero x = true /\ float32_is_zero y = true)).

(** Two arrays of the same shape whose elements are pairwise equal as
    numbers. *)
Definition numerically_equal (a b : ndarray) : Prop :=
  shape a = shape b /\ Forall2 float32_eq (data a) (data b).

(** An embedding table and an output-layer kernel holding the same bits, a
    NaN among them; and a table and a kernel that differ in the sign bit of
    a zero. *)
Definition nan_table : ndarray :=
  NdArray [2; 3] [0x7fc00000; 0x3f800000; 0x40000000; 0x40400000; 0x40800000; 0x40a00000]%Z.

Definition zero_table : ndarray :=
  NdArray [2; 3] [0; 0x3f800000; 0x40000000; 0x40400000; 0x40800000; 0x40a00000]%Z.

Definition negative_zero_table : ndarray :=
  NdArray [2; 3]
    [0x80000000; 0x3f800000; 0x40000000; 0x40400000; 0x40800000; 0x40a00000]%Z.

(** The generation-2 example checkpoint with the given target embedding
    table and output-layer kernel. *)
Definition checkpoint_v2_with (embedding kernel : ndarray) : variables_t :=
  <["model/decoder/output_layer/kernel" := kernel]>
    (<["model/examples_inputter/labels_inputter/embedding" := embedding]>
       (Fixtures.checkpoint_v2 [0])).

(** [key_sound variables m]: a [KeyError] raised by [m] carries a name that
    is not a variable of the checkpoint. *)
Definition key_sound {S A} (variables : variables_t) (m : M S A) : Prop :=
  forall s k s', m s = (inl (KeyError k), s') -> variables !! k = None.

(** ** Notions used in the further properties *)

(** No ["/"] occurs in the string. *)
Fixpoint slash_free (s : string) : bool :=
  match s with
  | EmptyString => true
  | String c r => negb (Ascii.eqb c "/") && slash_free r
  end.

(** No ["/."] occurs in the string. *)
Fixpoint slash_dot_free (s : string) : bool :=
  match s with
  | EmptyString => true
  | String c r =>
      match r with
      | String d _ => negb (Ascii.eqb c "/" && Ascii.eqb d ".") && slash_dot_free r
      | EmptyString => true
      end
  end.

(** The checkpoint file [load_model] reads for [model_path]: the latest
    checkpoint of a directory, if it has one, or the path itself. *)
Definition checkpoint_of (tf : tf_env) (model_path : string) : option string :=
  if isdir tf model_path then latest_checkpoint tf model_path else Some model_path.

(** More example inputs. *)
Module Examples.

(** A directory holding a SavedModel and no checkpoint. *)
Definition tf_saved_model : tf_env :=
  {| contains_saved_model := fun _ => true;
     isdir := fun _ => true;
     latest_checkpoint := fun _ => None;
     load_checkpoint := fun _ => inl (OpError "not a checkpoint") |}.

(** Every path is a checkpoint directory [dir] whose latest checkpoint is
    [dir/file]. *)
Definition tf_dir (file : string) (items : list (string * ndarray)) : tf_env :=
  {| contains_saved_model := fun _ => false;
     isdir := fun _ => true;
     latest_checkpoint := fun dir => Some (dir +:+ "/" +:+ file);
     load_checkpoint := fun checkpoint =>
       match checkpoint with
       | Some _ => inr (Fixtures.reader_of items)
       | None => inl (TypeError "Expected binary or unicode string, got None")
       end |}.

(** Every path is a directory without a checkpoint. *)
Definition tf_empty_dir : tf_env :=
  {| contains_saved_model := fun _ => false;
     isdir := fun _ => true;
     latest_checkpoint := fun _ => None;
     load_checkpoint := fun _ =>
       inl (ValueError "Couldn't find 'checkpoint' file or checkpoints in given directory") |}.

(** Every path is a file that is not a readable checkpoint. *)
Definition tf_unreadable : tf_env :=
  {| contains_saved_model := fun _ => false;
     isdir := fun _ => false;
     latest_checkpoint := fun _ => None;
     load_checkpoint := fun _ => inl (OpError "Unable to open table file") |}.

(** The generation-2 checkpoint with the relative position tensors of the
    encoder self-attention of layer 0. *)
Definition checkpoint_v2_relative : variables_t :=
  <["model/encoder/layers/0/self_attention/layer/relative_position_keys" :=
      Fixtures.mat 3 2 40]>
    (<["model/encoder/layers/0/self_attention/layer/relative_position_values" :=
         Fixtures.mat 3 2 50]>
       (Fixtures.checkpoint_v2 [0])).

End Examples.

(** *** Templates and complete checkpoints *)

(** The arity of the linear entries of an attention block. *)
Definition attention_arity (self_attention : bool) (a : MultiHeadAttentionSpec.t) : Prop :=
  length (MultiHeadAttentionSpec.linear a) = if self_attention then 2 else 3.

Definition encoder_layer_arity (l : TransformerEncoderLayerSpec.t) : Prop :=
  attention_arity true (TransformerEncoderLayerSpec.self_attention l).

Definition decoder_layer_arity (l : TransformerDecoderLayerSpec.t) : Prop :=
  attention_arity true (TransformerDecoderLayerSpec.self_attention l) /\
  attention_arity false (TransformerDecoderLayerSpec.attention l).

(** A specification whose attention blocks have the arity their
    constructors give them, as every [TransformerSpec.empty] has. *)
Definition template_arity (spec : TransformerSpec.t) : Prop :=
  Forall encoder_layer_arity (TransformerEncoderSpec.layer (TransformerSpec.encoder spec)) /\
  Forall decoder_layer_arity (TransformerDecoderSpec.layer (TransformerSpec.decoder spec)).

(** The checkpoint has a variable of that name. *)
Definition has (variables : variables_t) (name : string) : Prop :=
  is_Some (variables !! name).

Definition has_layer_norm (variables : variables_t) (scope : string) : Prop :=
  has variables (scope +:+ "/gamma") /\ has variables (scope +:+ "/beta").

(** The tensors the generation-1 setters read for one feed-forward block,
    one attention block and one layer. *)
Definition has_ffn (variables : variables_t) (scope : string) : Prop :=
  has_layer_norm variables (scope +:+ "/LayerNorm") /\
  has variables (scope +:+ "/conv1d/kernel") /\
  has variables (scope +:+ "/conv1d_1/kernel").

Definition has_attention (variables : variables_t) (scope : string) (self_attention : bool)
  : Prop :=
  has_layer_norm variables (scope +:+ "/LayerNorm") /\
  has variables (scope +:+ "/conv1d/kernel") /\
  has variables (scope +:+ "/conv1d_1/kernel") /\
  (self_attention = false -> has variables (scope +:+ "/conv1d_2/kernel")).

Definition has_encoder_layer (variables : variables_t) (i : nat) : Prop :=
  let scope := "transformer/encoder/layer_" +:+ fmt_d i in
  has_ffn variables (scope +:+ "/ffn") /\
  has_attention variables (scope +:+ "/multi_head") true.

Definition has_decoder_layer (variables : variables_t) (i : nat) : Prop :=
  let scope := "transformer/decoder/layer_" +:+ fmt_d i in
  has_ffn variables (scope +:+ "/ffn") /\
  has_attention variables (scope +:+ "/masked_multi_head") true /\
  has_attention variables (scope +:+ "/multi_head") false.

(** A generation-1 checkpoint that has every tensor the setters read for an
    encoder of [n_enc] layers and a decoder of [n_dec] layers.  The output
    projection is not listed: it falls back to the target embeddings. *)
Definition complete_v1 (variables : variables_t) (n_enc n_dec : nat) : Prop :=
  (has_layer_norm variables "transformer/encoder/LayerNorm" /\
   (has variables "transformer/encoder/w_embs" \/
    has variables "transformer/shared_embeddings/w_embs") /\
   forall i, i < n_enc -> has_encoder_layer variables i) /\
  ((has variables "transformer/decoder/w_embs" \/
    has variables "transformer/shared_embeddings/w_embs") /\
   has_layer_norm variables "transformer/decoder/LayerNorm" /\
   forall i, i < n_dec -> has_decoder_layer variables i).

(** An encoder, a decoder and a specification with the given numbers of
    layers, attention blocks of the arity of their constructors and, for the
    specification, no relative position. *)
Definition encoder_template (n : nat) (e : TransformerEncoderSpec.t) : Prop :=
  length (TransformerEncoderSpec.layer e) = n /\
  Forall encoder_layer_arity (TransformerEncoderSpec.layer e).

Definition decoder_template (n : nat) (d : TransformerDecoderSpec.t) : Prop :=
  length (TransformerDecoderSpec.layer d) = n /\
  Forall decoder_layer_arity (TransformerDecoderSpec.layer d).

Definition absolute_template (n_enc n_dec : nat) (spec : TransformerSpec.t) : Prop :=
  TransformerSpec.with_relative_position spec = false /\
  encoder_template n_enc (TransformerSpec.encoder spec) /\
  decoder_template n_dec (TransformerSpec.decoder spec).

(** A specification with the given relative-position flag. *)
Definition template_of (relative : bool) (n_enc n_dec : nat) (spec : TransformerSpec.t)
  : Prop :=
  TransformerSpec.with_relative_position spec = relative /\
  encoder_template n_enc (TransformerSpec.encoder spec) /\
  decoder_template n_dec (TransformerSpec.decoder spec).

(** [succeeds m s]: [m] returns when run on [s]. *)
Definition succeeds {S A} (m : M S A) (s : S) : Prop :=
  exists a s', m s = (inr a, s').

(** [decides I m P R]: on every node satisfying [I], [m] returns exactly
    when [P] holds and then returns a value satisfying [R]; it raises
    nothing but [KeyError]; and it leaves a node satisfying [I], whether it
    returns or raises. *)
Definition decides {S A} (I : S -> Prop) (m : M S A) (P : Prop) (R : A -> Prop) : Prop :=
  forall s, I s ->
    (succeeds m s <-> P) /\
    (forall r s', m s = (r, s') ->
       I s' /\
       (forall e, r = inl e -> exists k, e = KeyError k) /\
       (forall a, r = inr a -> R a)).

(** Every array a generation-1 conversion is to assign is assigned. *)
Definition populated_layer_norm (n : LayerNormSpec.t) : Prop :=
  is_Some (LayerNormSpec.gamma n) /\ is_Some (LayerNormSpec.beta n).

Definition populated_linear (l : LinearSpec.t) : Prop :=
  is_Some (LinearSpec.weight l).

Definition populated_ffn (f : FeedForwardSpec.t) : Prop :=
  populated_layer_norm (FeedForwardSpec.layer_norm f) /\
  populated_linear (FeedForwardSpec.linear_0 f) /\
  populated_linear (FeedForwardSpec.linear_1 f).

Definition populated_attention (a : MultiHeadAttentionSpec.t) : Prop :=
  populated_layer_norm (MultiHeadAttentionSpec.layer_norm a) /\
  Forall populated_linear (MultiHeadAttentionSpec.linear a).

Definition populated_encoder_layer (l : TransformerEncoderLayerSpec.t) : Prop :=
  populated_ffn (TransformerEncoderLayerSpec.ffn l) /\
  populated_attention (TransformerEncoderLayerSpec.self_attention l).

Definition populated_decoder_layer (l : TransformerDecoderLayerSpec.t) : Prop :=
  populated_ffn (TransformerDecoderLayerSpec.ffn l) /\
  populated_attention (TransformerDecoderLayerSpec.self_attention l) /\
  populated_attention (TransformerDecoderLayerSpec.attention l).

Definition populated (spec : TransformerSpec.t) : Prop :=
  let e := TransformerSpec.encoder spec in
  let d := TransformerSpec.decoder spec in
  (is_Some (EmbeddingsSpec.weight (TransformerEncoderSpec.embeddings e)) /\
   populated_layer_norm (TransformerEncoderSpec.layer_norm e) /\
   Forall populated_encoder_layer (TransformerEncoderSpec.layer e)) /\
  (is_Some (EmbeddingsSpec.weight (TransformerDecoderSpec.embeddings d)) /\
   populated_layer_norm (TransformerDecoderSpec.layer_norm d) /\
   populated_linear (TransformerDecoderSpec.projection d) /\
   Forall populated_decoder_layer (TransformerDecoderSpec.layer d)).

(** *** Variables a setter does not read *)

(** Two checkpoints that hold the same variables under the names starting
    with [root]. *)
Definition agree_under (root : string) (v1 v2 : variables_t) : Prop :=
  forall name, String.prefix root name = true -> v1 !! name = v2 !! name.

(** Two setters that do the same on every node. *)
Definition same {S A} (m m' : M S A) : Prop := forall s, m s = m' s.

(** *** A loop that raised *)

(** [stopped_at body l l' e]: the loop of [body] over [l] raised [e] at some
    index [j]: the body returned on the elements before [j], raised [e] on
    element [j], and the elements after [j] are as they were. *)
Definition stopped_at {T} (body : nat -> M T unit) (l l' : list T) (e : exn) : Prop :=
  exists j x x',
    l !! j = Some x /\ body j x = (inl e, x') /\ l' !! j = Some x' /\
    drop (S j) l' = drop (S j) l /\
    forall k y, k < j -> l !! k = Some y ->
      exists y', body k y = (inr tt, y') /\ l' !! k = Some y'.

(** *** Complete generation-2 checkpoints *)

Definition has_ffn_v2 (variables : variables_t) (scope : string) : Prop :=
  has_layer_norm variables (scope +:+ "/input_layer_norm") /\
  has variables (scope +:+ "/layer/inner/kernel") /\
  has variables (scope +:+ "/layer/outer/kernel").

Definition has_attention_v2 (variables : variables_t) (scope : string)
    (self_attention relative : bool) : Prop :=
  has_layer_norm variables (scope +:+ "/input_layer_norm") /\
  has variables (scope +:+ "/layer/linear_queries/kernel") /\
  has variables (scope +:+ "/layer/linear_keys/kernel") /\
  has variables (scope +:+ "/layer/linear_values/kernel") /\
  has variables (scope +:+ "/layer/linear_output/kernel") /\
  (self_attention = true -> relative = true ->
   has variables (scope +:+ "/layer/relative_position_keys") /\
   has variables (scope +:+ "/layer/relative_position_values")).

Definition has_encoder_layer_v2 (variables : variables_t) (relative : bool) (i : nat) : Prop :=
  let scope := "model/encoder/layers/" +:+ fmt_d i in
  has_ffn_v2 variables (scope +:+ "/ffn") /\
  has_attention_v2 variables (scope +:+ "/self_attention") true relative.

Definition has_decoder_layer_v2 (variables : variables_t) (relative : bool) (i : nat) : Prop :=
  let scope := "model/decoder/layers/" +:+ fmt_d i in
  has_ffn_v2 variables (scope +:+ "/ffn") /\
  has_attention_v2 variables (scope +:+ "/self_attention") true relative /\
  has_attention_v2 variables (scope +:+ "/attention/0") false relative.

(** A generation-2 checkpoint that has every tensor the setters read for an
    encoder of [n_enc] layers and a decoder of [n_dec] layers.  Neither the
    labels embedding nor the output layer is listed: both fall back. *)
Definition complete_v2 (variables : variables_t) (relative : bool) (n_enc n_dec : nat)
  : Prop :=
  has variables "model/examples_inputter/features_inputter/embedding" /\
  (has_layer_norm variables "model/encoder/layer_norm" /\
   forall i, i < n_enc -> has_encoder_layer_v2 variables relative i) /\
  (has_layer_norm variables "model/decoder/layer_norm" /\
   forall i, i < n_dec -> has_decoder_layer_v2 variables relative i).

(** *** Layers as a conversion leaves them *)

(** The gamma of the feed-forward layer norm of a layer. *)
Definition encoder_layer_gamma (l : TransformerEncoderLayerSpec.t) : option ndarray :=
  LayerNormSpec.gamma (FeedForwardSpec.layer_norm (TransformerEncoderLayerSpec.ffn l)).

Definition decoder_layer_gamma (l : TransformerDecoderLayerSpec.t) : option ndarray :=
  LayerNormSpec.gamma (FeedForwardSpec.layer_norm (TransformerDecoderLayerSpec.ffn l)).

(** [holds_block variables key gamma layers i]: the list has a layer at
    index [i], and it holds the variable of the checkpoint named [key i]. *)
Definition holds_block {T} (variables : variables_t) (key : nat -> string)
    (gamma : T -> option ndarray) (layers : list T) (i : nat) : Prop :=
  exists l g, layers !! i = Some l /\ variables !! key i = Some g /\ gamma l = Some g.

(** Generation-2 checkpoints for a specification with relative position:
    one with nothing but what the setters need, and one that also has a
    labels embedding and an output layer. *)
Definition checkpoint_v2_relative_tied : variables_t :=
  list_to_map
    ([("model/examples_inputter/features_inputter/embedding", Fixtures.src_embedding);
      ("model/encoder/layers/0/self_attention/layer/relative_position_keys",
       Fixtures.mat 3 2 40);
      ("model/encoder/layers/0/self_attention/layer/relative_position_values",
       Fixtures.mat 3 2 50);
      ("model/decoder/layers/0/self_attention/layer/relative_position_keys",
       Fixtures.mat 3 2 60);
      ("model/decoder/layers/0/self_attention/layer/relative_position_values",
       Fixtures.mat 3 2 70)]
     ++ Fixtures.body_v2 [0])%list.

Definition checkpoint_v2_relative_full : variables_t :=
  <["model/examples_inputter/labels_inputter/embedding" := Fixtures.tgt_embedding]>
    (<["model/decoder/output_layer/kernel" := Fixtures.mat 2 3 1]>
       checkpoint_v2_relative_tied).

(** [avoids scope k]: no name under [scope] is [k]. *)
Definition avoids (scope k : string) : Prop := forall suffix, scope +:+ suffix <> k.

(** * Properties *)

(** ** The model on concrete inputs *)

Example transpose_2x3 :
  transpose (NdArray [2; 3] [1; 2; 3; 4; 5; 6]%Z) = NdArray [3; 2] [1; 4; 2; 5; 3; 6]%Z.
Proof. reflexivity. Qed.

Example squeeze_conv_kernel :
  squeeze (NdArray [1; 2; 3] [1; 2; 3; 4; 5; 6]%Z) = NdArray [2; 3] [1; 2; 3; 4; 5; 6]%Z.
Proof. reflexivity. Qed.

Example fmt_d_12 : "layer_" +:+ fmt_d 12 = "layer_12".
Proof. reflexivity. Qed.

Example py_index_last : Eff.py_index 3 (-1) = Some 2 /\ Eff.py_index 0 (-1) = None.
Proof. split; reflexivity. Qed.

(** A checkpoint file named [ckpt-...] is generation 2 and its variable
    names lose their attribute suffix; any other name is generation 1. *)
Example load_model_generations :
  let items := [("model/a/.ATTRIBUTES/VARIABLE_VALUE", Fixtures.vec 1 5%Z)] in
  load_model (Fixtures.tf_of items) "run/ckpt-5000"
  = inr (2, {["model/a" := Fixtures.vec 1 5%Z]}) /\
  load_model (Fixtures.tf_of items) "run/model.ckpt-5000"
  = inr (1, {["model/a/.ATTRIBUTES/VARIABLE_VALUE" := Fixtures.vec 1 5%Z]}).
Proof. split; vm_compute; reflexivity. Qed.

(** Both example checkpoints convert, with their vocabularies registered. *)
Example convert_generation_1 :
  let self :=
    OpenNMTTFConverter.mk (VocabList ["a"]) (VocabObject ["b"; "<unk>"])
      (Some "run/model.ckpt-1") None in
  let items := map_to_list (Fixtures.checkpoint_v1 [0; 1]) in
  let r := OpenNMTTFConverter._load (Fixtures.tf_of items) Fixtures.no_vocab_file self
             (TransformerSpec.empty 2 false) in
  r.1 = inr tt /\
  TransformerSpec.vocabulary r.2 !! "source" = Some ["a"; "<unk>"] /\
  TransformerSpec.vocabulary r.2 !! "target" = Some ["b"; "<unk>"].
Proof. vm_compute. split_and!; reflexivity. Qed.

Example convert_generation_2 :
  let self :=
    OpenNMTTFConverter.mk (VocabList ["a"]) (VocabList ["b"]) None
      (Some (VarDict (Fixtures.checkpoint_v2 [0; 1]))) in
  (OpenNMTTFConverter._load (Fixtures.tf_of []) Fixtures.no_vocab_file self
     (TransformerSpec.empty 2 false)).1 = inr tt.
Proof. vm_compute. reflexivity. Qed.

(** ** Arrays *)

Lemma shape_transpose (a : ndarray) : shape (transpose a) = rev (shape a).
Proof. reflexivity. Qed.




(** ** The leaf setters, as equations *)

Lemma set_layer_norm_run variables scope (s : LayerNormSpec.t) :
  set_layer_norm variables scope s =
  match variables !! (scope +:+ "/gamma") with
  | None => (inl (KeyError (scope +:+ "/gamma")), s)
  | Some g =>
      match variables !! (scope +:+ "/beta") with
      | None => (inl (KeyError (scope +:+ "/beta")), LayerNormSpec.set_gamma g s)
      | Some b => (inr tt, LayerNormSpec.mk (Some g) (Some b))
      end
  end.
Proof.
  unfold set_layer_norm, getitem, Eff.bind.
  destruct (variables !! (scope +:+ "/gamma")) as [g|]; [|reflexivity].
  cbn. destruct (variables !! (scope +:+ "/beta")) as [b|]; reflexivity.
Qed.

Lemma set_linear_run variables scope weight_name transpose_ (s : LinearSpec.t) :
  set_linear variables scope weight_name transpose_ s =
  match variables !! default (scope +:+ "/kernel") weight_name with
  | None => (inl (KeyError (default (scope +:+ "/kernel") weight_name)), s)
  | Some w =>
      (inr tt,
       {| LinearSpec.weight := Some (linear_weight transpose_ w);
          LinearSpec.bias :=
            match variables !! (scope +:+ "/bias") with
            | Some b => Some b
            | None => LinearSpec.bias s
            end |})
  end.
Proof.
  unfold set_linear, getitem, Eff.bind, linear_weight.
  destruct (variables !! default (scope +:+ "/kernel") weight_name) as [w|]; [|reflexivity].
  cbn. destruct transpose_, (variables !! (scope +:+ "/bias")); reflexivity.
Qed.

Lemma set_embeddings_run variables scope version (s : EmbeddingsSpec.t) :
  let variable_name :=
    scope +:+ "/" +:+ (if Nat.eqb version 2 then "embedding" else "w_embs") in
  set_embeddings variables scope version s =
  match variables !! variable_name with
  | None => (inl (KeyError variable_name), s)
  | Some w => (inr variable_name, EmbeddingsSpec.mk (Some w) true)
  end.
Proof.
  unfold set_embeddings, getitem, Eff.bind. cbn zeta.
  destruct (variables !! _); reflexivity.
Qed.



(** ** Vocabularies *)

(** C9: for a vocabulary given as a list of tokens the loader succeeds; the
    unknown token is in the result; a list that already has it is returned
    as it is, and otherwise the result is the list followed by the unknown
    token, so the given tokens keep their order. *)
Theorem _load_vocab_list vocab_from_file (tokens : list string) (unk_token : string) :
  exists tokens',
    _load_vocab vocab_from_file (VocabList tokens) unk_token = inr tokens' /\
    unk_token ∈ tokens' /\
    tokens `prefix_of` tokens' /\
    (unk_token ∈ tokens -> tokens' = tokens) /\
    (unk_token ∉ tokens -> tokens' = (tokens ++ [unk_token])%list).
Proof.
  unfold _load_vocab. destruct (decide (unk_token ∈ tokens)) as [Hin|Hnin].
  - rewrite bool_decide_eq_true_2 by assumption. exists tokens.
    split_and!; [reflexivity|assumption|reflexivity|reflexivity|].
    intros Hn. contradiction.
  - rewrite bool_decide_eq_false_2 by assumption. exists (tokens ++ [unk_token])%list.
    split_and!; [reflexivity| | |contradiction|reflexivity].
    + set_solver.
    + exists [unk_token]. reflexivity.
Qed.

Lemma _load_vocab_list_witness :
  _load_vocab (fun _ => inr []) (VocabList ["a"; "b"]) "<unk>" = inr ["a"; "b"; "<unk>"] /\
  _load_vocab (fun _ => inr []) (VocabList ["a"; "<unk>"; "b"]) "<unk>"
    = inr ["a"; "<unk>"; "b"].
Proof.
  split.
  - destruct (_load_vocab_list (fun _ => inr []) ["a"; "b"] "<unk>")
      as (t & -> & _ & _ & _ & H). f_equal. apply H.
    intros Hin. apply list_elem_of_In in Hin. simpl in Hin.
    destruct Hin as [H1|[H1|[]]]; discriminate H1.
  - destruct (_load_vocab_list (fun _ => inr []) ["a"; "<unk>"; "b"] "<unk>")
      as (t & -> & _ & _ & H & _). f_equal. apply H.
    apply list_elem_of_In. simpl. auto.
Defined.

(** ** Construction *)

(** C8: the constructor raises, and then always a [ValueError], exactly
    when the checkpoint path and the variables are both given or both left
    out, or the variables are given and are not a dict; otherwise it returns
    a converter.  The error is raised by the constructor itself: no
    converter exists on which [_load] could run, and the specification tree
    is untouched. *)
Theorem __init___configuration_error tf vocab_from_file src_vocab tgt_vocab
    (model_path : option string) (variables : option variables_arg)
    (spec : TransformerSpec.t) :
  let r := OpenNMTTFConverter.__init__ src_vocab tgt_vocab model_path variables in
  ((exists msg, r = inl (ValueError msg)) <->
   ((model_path = None <-> variables = None) \/ variables = Some VarOther)) /\
  ((exists e, r = inl e) <-> (exists msg, r = inl (ValueError msg))) /\
  ((exists e, r = inl e) ->
   exists msg,
     construct_and_load tf vocab_from_file src_vocab tgt_vocab model_path variables spec
     = (inl (ValueError msg), spec)).
Proof.
  unfold construct_and_load, OpenNMTTFConverter.__init__.
  destruct model_path as [p|], variables as [[d|]|];
    cbn [bool_decide decide_rel Bool.eqb]; cbv beta zeta.
  all: rewrite ?bool_decide_eq_true_2, ?bool_decide_eq_false_2 by done.
  all: cbn [Bool.eqb]; split_and!.
  all: try (split; intros [? [=]]; eauto; fail).
  all: try (intros [? [=]]; fail).
  all: try (intros _; eexists; reflexivity).
  all: split;
    [ first [ intros [? [=]] | intros _ ]
    | first [ intros [[H1 H2]|[=]];
              first [ discriminate (H1 eq_refl) | discriminate (H2 eq_refl) ]
            | intros _; eexists; reflexivity ] ].
  all: first [ right; reflexivity | left; split; intros [=] | left; split; reflexivity ].
  all: reflexivity.
Qed.

Lemma __init___configuration_error_witness :
  exists msg,
    construct_and_load (Fixtures.tf_of []) Fixtures.no_vocab_file
      (VocabList ["a"]) (VocabList ["b"])
      (Some "ckpt-1") (Some (VarDict (Fixtures.checkpoint_v2 [0])))
      (TransformerSpec.empty 1 false)
    = (inl (ValueError msg), TransformerSpec.empty 1 false).
Proof.
  apply (__init___configuration_error (Fixtures.tf_of []) Fixtures.no_vocab_file
           (VocabList ["a"]) (VocabList ["b"])
           (Some "ckpt-1") (Some (VarDict (Fixtures.checkpoint_v2 [0])))
           (TransformerSpec.empty 1 false)).
  eexists. reflexivity.
Defined.

(** ** Reasoning about setters *)

Section Keeps.

Context {S B : Type} (f : S -> B).

Lemma keeps_ret {A} (a : A) : keeps f (Eff.ret a).
Proof. intros s. reflexivity. Qed.

Lemma keeps_raise {A} e : keeps f (@Eff.raise S A e).
Proof. intros s. reflexivity. Qed.

Lemma keeps_gets {A} (g : S -> A) : keeps f (Eff.gets g).
Proof. intros s. reflexivity. Qed.

Lemma keeps_getitem variables name : keeps f (@getitem S variables name).
Proof. intros s. unfold getitem. destruct (variables !! name); reflexivity. Qed.

Lemma keeps_lift {A} (r : exn + A) : keeps f (@OpenNMTTFConverter.lift S A r).
Proof. intros s. destruct r; reflexivity. Qed.

Lemma keeps_modify (g : S -> S) : (forall s, f (g s) = f s) -> keeps f (Eff.modify g).
Proof. intros H s. apply H. Qed.

Lemma keeps_bind {A C} (m : M S A) (k : A -> M S C) :
  keeps f m -> (forall a, keeps f (k a)) -> keeps f (Eff.bind m k).
Proof.
  intros Hm Hk s. unfold Eff.bind. specialize (Hm s).
  destruct (m s) as [[e|a] s1]; simpl in *; [assumption|].
  rewrite Hk. assumption.
Qed.

Lemma keeps_try {A} (m h : M S A) :
  keeps f m -> keeps f h -> keeps f (Eff.try_except_KeyError m h).
Proof.
  intros Hm Hh s. unfold Eff.try_except_KeyError. specialize (Hm s).
  destruct (m s) as [[[]|a] s1]; simpl in *; try assumption.
  rewrite Hh. assumption.
Qed.

Lemma keeps_on_fresh {T A} (init : T) (m : M T A) : keeps f (@Eff.on_fresh S T A init m).
Proof. intros s. unfold Eff.on_fresh. destruct (m init) as [[e|a] t]; reflexivity. Qed.

Lemma keeps_if {A} (b : bool) (m1 m2 : M S A) :
  keeps f m1 -> keeps f m2 -> keeps f (if b then m1 else m2).
Proof. destruct b; auto. Qed.

(** A setter run on a child stored in another attribute. *)
Lemma keeps_zoom {T A} (get : S -> T) (put : T -> S -> S) (m : M T A) :
  (forall t s, f (put t s) = f s) -> keeps f (Eff.zoom get put m).
Proof. intros H s. unfold Eff.zoom. destruct (m (get s)) as [r t]. apply H. Qed.

(** A setter run on the child that [f] looks into. *)
Lemma keeps_zoom_into {T A} (g : T -> B) (get : S -> T) (put : T -> S -> S) (m : M T A) :
  (forall t s, f (put t s) = g t) -> (forall s, f s = g (get s)) ->
  keeps g m -> keeps f (Eff.zoom get put m).
Proof.
  intros Hput Hget Hm s. unfold Eff.zoom. specialize (Hm (get s)).
  destruct (m (get s)) as [r t]. simpl in *. rewrite Hput, Hget. assumption.
Qed.

End Keeps.

Lemma keeps_length_zoom_item {T A} (i : Z) (m : M T A) :
  keeps (@length T) (Eff.zoom_item i m).
Proof.
  intros l. unfold Eff.zoom_item. destruct (Eff.py_index (length l) i) as [n|]; [|reflexivity].
  destruct (l !! n) as [x|]; [|reflexivity].
  destruct (m x) as [r x']. simpl. apply length_insert.
Qed.

Lemma keeps_length_for_enumerate {T} (body : nat -> M T unit) (i : nat) :
  keeps (@length T) (Eff.for_enumerate body i).
Proof.
  intros l. revert i. induction l as [|x xs IH]; intros i; [reflexivity|].
  cbn [Eff.for_enumerate]. destruct (body i x) as [[e|[]] x']; [reflexivity|].
  specialize (IH (S i)). destruct (Eff.for_enumerate body (S i) xs) as [r xs'].
  simpl in *. f_equal. assumption.
Qed.

Lemma keeps_zoom_length {S T A} (get : S -> list T) (put : list T -> S -> S)
    (m : M (list T) A) :
  (forall t s, get (put t s) = t) ->
  keeps (@length T) m -> keeps (fun s => length (get s)) (Eff.zoom get put m).
Proof.
  intros Hput Hm. apply (keeps_zoom_into _ (@length T)); [|reflexivity|assumption].
  intros t s. rewrite Hput. reflexivity.
Qed.

Create HintDb keeps discriminated.
#[local] Hint Resolve keeps_ret keeps_raise keeps_gets keeps_getitem keeps_lift
  keeps_bind keeps_try keeps_on_fresh keeps_if keeps_length_zoom_item
  keeps_length_for_enumerate : keeps.

(** Which field an assignment leaves alone is decided by computation. *)
Ltac keeps_step :=
  first
    [ apply keeps_bind; [|intros ?]
    | apply keeps_try
    | apply keeps_if
    | apply keeps_zoom; intros; reflexivity
    | apply keeps_zoom_length; [intros; reflexivity|]
    | apply keeps_modify; intros; reflexivity
    | solve [auto with keeps] ].

Ltac keeps_solve := repeat keeps_step.

(** Inversion of a run that returned. *)
Lemma bind_ok {S A B} (m : M S A) (k : A -> M S B) s b s' :
  Eff.bind m k s = (inr b, s') ->
  exists a s1, m s = (inr a, s1) /\ k a s1 = (inr b, s').
Proof.
  unfold Eff.bind. destruct (m s) as [[e|a] s1]; [discriminate|]. eauto.
Qed.

Lemma zoom_run {S T A} (get : S -> T) (put : T -> S -> S) (m : M T A) s r s' :
  Eff.zoom get put m s = (r, s') -> exists t, m (get s) = (r, t) /\ s' = put t s.
Proof.
  unfold Eff.zoom. destruct (m (get s)) as [r0 t]. intros [= <- <-]. eauto.
Qed.

(** A loop that completed ran its body to completion on every element, with
    that element's index. *)
Lemma for_enumerate_ok {T} (body : nat -> M T unit) (l : list T) :
  forall i l', Eff.for_enumerate body i l = (inr tt, l') ->
  forall j x, l !! j = Some x -> exists x', body (i + j) x = (inr tt, x').
Proof.
  induction l as [|y ys IH]; intros i l' Hrun j x Hj; [discriminate Hj|].
  cbn [Eff.for_enumerate] in Hrun.
  destruct (body i y) as [[e|[]] y'] eqn:Hy; [discriminate|].
  destruct (Eff.for_enumerate body (S i) ys) as [r ys'] eqn:Hys.
  injection Hrun as -> <-.
  destruct j as [|j]; simpl in Hj.
  - injection Hj as <-. rewrite Nat.add_0_r. eauto.
  - replace (i + S j) with (S i + j) by lia. eapply IH; eassumption.
Qed.

Lemma append_assoc (a b c : string) : (a +:+ b) +:+ c = a +:+ (b +:+ c).
Proof.
  induction a as [|x a IH]; [reflexivity|].
  change (String x ((a +:+ b) +:+ c) = String x (a +:+ (b +:+ c))). f_equal. exact IH.
Qed.

Lemma set_layer_norm_ok variables scope (s s' : LayerNormSpec.t) :
  set_layer_norm variables scope s = (inr tt, s') ->
  is_Some (variables !! (scope +:+ "/gamma")) /\ is_Some (variables !! (scope +:+ "/beta")).
Proof.
  rewrite set_layer_norm_run.
  destruct (variables !! (scope +:+ "/gamma")); [|discriminate].
  destruct (variables !! (scope +:+ "/beta")); [|discriminate]. eauto.
Qed.

(** ** Layer count *)

Lemma set_transformer_encoder_keeps_length variables :
  keeps (fun s => length (TransformerEncoderSpec.layer s)) (set_transformer_encoder variables).
Proof. unfold set_transformer_encoder. keeps_solve. Qed.

Lemma set_transformer_decoder_keeps_length variables :
  keeps (fun s => length (TransformerDecoderSpec.layer s)) (set_transformer_decoder variables).
Proof. unfold set_transformer_decoder. keeps_solve. Qed.

Lemma set_transformer_encoder_v2_keeps_length variables scope relative :
  keeps (fun s => length (TransformerEncoderSpec.layer s))
        (set_transformer_encoder_v2 variables scope relative).
Proof. unfold set_transformer_encoder_v2. keeps_solve. Qed.

Lemma set_transformer_decoder_v2_keeps_length variables scope name relative :
  keeps (fun s => length (TransformerDecoderSpec.layer s))
        (set_transformer_decoder_v2 variables scope name relative).
Proof. unfold set_transformer_decoder_v2. keeps_solve. Qed.

Lemma keeps_run {S A B} (f : S -> B) (m : M S A) s r s' :
  keeps f m -> m s = (r, s') -> f s' = f s.
Proof. intros Hk Hm. specialize (Hk s). rewrite Hm in Hk. exact Hk. Qed.

(** C1 as stated fails.  The checkpoint has blocks 0, 1, 2 and 4, so three
    contiguous blocks.  With a template of five layers the encoder setter
    raises on the missing block 3 and the tree still has five layers; with a
    template of two layers it returns with two layers.  The same happens in
    generation 2. *)
Lemma layer_count_not_discovered :
  let v1 := Fixtures.checkpoint_v1 [0; 1; 2; 4] in
  let v2 := Fixtures.checkpoint_v2 [0; 1; 2; 4] in
  checkpoint_layer_count v1
    (fun i => "transformer/encoder/layer_" +:+ fmt_d i +:+ "/ffn/LayerNorm/gamma") = 3 /\
  checkpoint_layer_count v2
    (fun i => "model/encoder/layers/" +:+ fmt_d i +:+ "/ffn/input_layer_norm/gamma") = 3 /\
  (let r := set_transformer_encoder v1 (TransformerEncoderSpec.empty 5) in
   r.1 = inl (KeyError "transformer/encoder/layer_3/ffn/LayerNorm/gamma") /\
   length (TransformerEncoderSpec.layer r.2) = 5) /\
  (let r := set_transformer_encoder v1 (TransformerEncoderSpec.empty 2) in
   r.1 = inr tt /\ length (TransformerEncoderSpec.layer r.2) = 2) /\
  (let r := set_transformer_encoder_v2 v2 "model/encoder" false
              (TransformerEncoderSpec.empty 5) in
   r.1 = inl (KeyError "model/encoder/layers/3/ffn/input_layer_norm/gamma") /\
   length (TransformerEncoderSpec.layer r.2) = 5) /\
  (let r := set_transformer_encoder_v2 v2 "model/encoder" false
              (TransformerEncoderSpec.empty 2) in
   r.1 = inr tt /\ length (TransformerEncoderSpec.layer r.2) = 2).
Proof. vm_compute. split_and!; reflexivity. Qed.

(** ** Embeddings *)

(** The two-scope lookup of the embeddings: the first scope when its
    variable exists, else the second. *)
Lemma embeddings_fallback_run {S} (lifted : M EmbeddingsSpec.t string -> M S string)
    (get : S -> EmbeddingsSpec.t) (put : EmbeddingsSpec.t -> S -> S)
    variables scope1 scope2 version s name s' :
  (forall m s, lifted m s = Eff.zoom get put m s) ->
  (forall t s, get (put t s) = t) ->
  let k1 := scope1 +:+ "/" +:+ (if Nat.eqb version 2 then "embedding" else "w_embs") in
  let k2 := scope2 +:+ "/" +:+ (if Nat.eqb version 2 then "embedding" else "w_embs") in
  Eff.try_except_KeyError
    (lifted (set_embeddings variables scope1 version))
    (lifted (set_embeddings variables scope2 version)) s = (inr name, s') ->
  match variables !! k1 with
  | Some w => name = k1 /\ EmbeddingsSpec.weight (get s') = Some w
  | None =>
      name = k2 /\ is_Some (variables !! k2) /\
      EmbeddingsSpec.weight (get s') = variables !! k2
  end.
Proof.
  intros Hl Hgp k1 k2. unfold Eff.try_except_KeyError. rewrite Hl. unfold Eff.zoom.
  rewrite set_embeddings_run. fold k1.
  destruct (variables !! k1) as [w|].
  - intros [= <- <-]. rewrite Hgp. split; reflexivity.
  - rewrite Hl. unfold Eff.zoom. rewrite set_embeddings_run. fold k2.
    destruct (variables !! k2) as [w|]; [|discriminate].
    intros [= <- <-]. rewrite Hgp. split_and!; eauto.
Qed.

Lemma zoom_zoom {S T U A} (g1 : S -> T) (p1 : T -> S -> S) (g2 : T -> U) (p2 : U -> T -> T)
    (m : M U A) s :
  Eff.zoom g1 p1 (Eff.zoom g2 p2 m) s
  = Eff.zoom (fun s => g2 (g1 s)) (fun u s => p1 (p2 u (g1 s)) s) m s.
Proof. unfold Eff.zoom. destruct (m (g2 (g1 s))); reflexivity. Qed.

Lemma set_transformer_encoder_embeddings variables spec spec' :
  set_transformer_encoder variables spec = (inr tt, spec') ->
  EmbeddingsSpec.weight (TransformerEncoderSpec.embeddings spec') =
  match variables !! "transformer/encoder/w_embs" with
  | Some w => Some w
  | None => variables !! "transformer/shared_embeddings/w_embs"
  end.
Proof.
  unfold set_transformer_encoder. intros H.
  apply bind_ok in H as ([] & s1 & _ & H). apply bind_ok in H as (name & s2 & H2 & H).
  apply (keeps_run TransformerEncoderSpec.embeddings) in H; [|keeps_solve]. rewrite H.
  apply (embeddings_fallback_run (Eff.zoom _ _) TransformerEncoderSpec.embeddings
           TransformerEncoderSpec.set_embeddings) in H2; [|reflexivity|reflexivity]. cbv [String.append Nat.eqb] in H2.
  destruct (variables !! "transformer/encoder/w_embs"); [apply H2|apply H2].
Qed.

(** The embeddings and the name [set_transformer_decoder] resolves for
    them. *)
Lemma set_transformer_decoder_embeddings variables spec spec' :
  set_transformer_decoder variables spec = (inr tt, spec') ->
  EmbeddingsSpec.weight (TransformerDecoderSpec.embeddings spec') =
  match variables !! "transformer/decoder/w_embs" with
  | Some w => Some w
  | None => variables !! "transformer/shared_embeddings/w_embs"
  end.
Proof.
  unfold set_transformer_decoder. intros H.
  apply bind_ok in H as (name & s1 & H1 & H).
  apply (keeps_run TransformerDecoderSpec.embeddings) in H; [|keeps_solve]. rewrite H.
  apply (embeddings_fallback_run (Eff.zoom _ _) TransformerDecoderSpec.embeddings
           TransformerDecoderSpec.set_embeddings) in H1; [|reflexivity|reflexivity]. cbv [String.append Nat.eqb] in H1.
  destruct (variables !! "transformer/decoder/w_embs"); [apply H1|apply H1].
Qed.

(** C6: in generation 1 the encoder embeddings are the variable of the
    encoder scope when the checkpoint has it and the variable of the
    shared-embeddings scope exactly when it has not, and likewise for the
    decoder with the decoder scope; so a conversion of a checkpoint that
    has neither per-side variable takes both embeddings from the shared
    scope. *)
Theorem embeddings_scope_fallback (variables : variables_t) :
  let first_of (side : string) :=
    match variables !! side with
    | Some w => Some w
    | None => variables !! "transformer/shared_embeddings/w_embs"
    end in
  (forall spec spec',
     set_transformer_encoder variables spec = (inr tt, spec') ->
     EmbeddingsSpec.weight (TransformerEncoderSpec.embeddings spec')
     = first_of "transformer/encoder/w_embs") /\
  (forall spec spec',
     set_transformer_decoder variables spec = (inr tt, spec') ->
     EmbeddingsSpec.weight (TransformerDecoderSpec.embeddings spec')
     = first_of "transformer/decoder/w_embs") /\
  (forall spec spec',
     set_transformer_spec variables spec = (inr tt, spec') ->
     variables !! "transformer/encoder/w_embs" = None ->
     variables !! "transformer/decoder/w_embs" = None ->
     exists w,
       variables !! "transformer/shared_embeddings/w_embs" = Some w /\
       EmbeddingsSpec.weight
         (TransformerEncoderSpec.embeddings (TransformerSpec.encoder spec')) = Some w /\
       EmbeddingsSpec.weight
         (TransformerDecoderSpec.embeddings (TransformerSpec.decoder spec')) = Some w).
Proof.
  intros first_of. split_and!.
  - apply set_transformer_encoder_embeddings.
  - apply set_transformer_decoder_embeddings.
  - intros spec spec' H Henc Hdec. unfold set_transformer_spec in H.
    apply bind_ok in H as (relative & s0 & H0 & H). injection H0 as <- <-.
    destruct (TransformerSpec.with_relative_position spec); [discriminate|].
    apply bind_ok in H as ([] & s1 & H1 & H).
    apply zoom_run in H1 as (e' & H1 & ->). apply zoom_run in H as (d' & H & ->).
    apply set_transformer_encoder_embeddings in H1.
    pose proof H as Hd. apply set_transformer_decoder_embeddings in H.
    rewrite Henc in H1. rewrite Hdec in H. cbn.
    destruct (variables !! "transformer/shared_embeddings/w_embs") as [w|] eqn:Hw.
    + exists w. split_and!; [reflexivity|exact H1|exact H].
    + exfalso. unfold set_transformer_decoder in Hd.
      apply bind_ok in Hd as (name & s1 & Hd & _).
      apply (embeddings_fallback_run (Eff.zoom _ _) TransformerDecoderSpec.embeddings
           TransformerDecoderSpec.set_embeddings) in Hd; [|reflexivity|reflexivity]. cbv [String.append Nat.eqb] in Hd.
      rewrite Hdec in Hd. destruct Hd as (_ & [w' Hw'] & _). congruence.
Qed.

(** A checkpoint with only the shared-embeddings scope. *)
Lemma embeddings_scope_fallback_witness :
  let variables := Fixtures.checkpoint_v1_shared [0] in
  let r := set_transformer_spec variables (TransformerSpec.empty 1 false) in
  r.1 = inr tt /\
  EmbeddingsSpec.weight
    (TransformerEncoderSpec.embeddings (TransformerSpec.encoder r.2))
  = Some Fixtures.shared_embedding /\
  EmbeddingsSpec.weight
    (TransformerDecoderSpec.embeddings (TransformerSpec.decoder r.2))
  = Some Fixtures.shared_embedding.
Proof.
  intros variables r.
  assert (r.1 = inr tt) as Hr by (vm_compute; reflexivity).
  split; [exact Hr|].
  destruct (embeddings_scope_fallback variables) as (_ & _ & H).
  destruct (H (TransformerSpec.empty 1 false) r.2) as (w & Hw & He & Hd).
  - fold r. rewrite <- Hr. destruct r; reflexivity.
  - vm_compute. reflexivity.
  - vm_compute. reflexivity.
  - assert (w = Fixtures.shared_embedding) as ->.
    { assert (variables !! "transformer/shared_embeddings/w_embs"
              = Some Fixtures.shared_embedding) as Hs by (vm_compute; reflexivity).
      congruence. }
    split; assumption.
Defined.

(** ** Decoder output projection *)

Lemma bind_run {S A B} (m : M S A) (k : A -> M S B) s r s' :
  Eff.bind m k s = (r, s') ->
  (exists a s1, m s = (inr a, s1) /\ k a s1 = (r, s')) \/
  (exists e, m s = (inl e, s') /\ r = inl e).
Proof.
  unfold Eff.bind. destruct (m s) as [[e|a] s1].
  - intros [= <- <-]. right. eauto.
  - intros H. left. eauto.
Qed.

(** Generation 2.  With an [output_layer/kernel] in the checkpoint the
    projection is that kernel, squeezed, and transposed unless it equals the
    decoder embeddings; without one, it is the variable named
    [target_embedding_name], squeezed. *)
Lemma set_transformer_decoder_v2_projection variables scope name relative spec r spec' :
  set_transformer_decoder_v2 variables scope name relative spec = (r, spec') ->
  match variables !! ((scope +:+ "/output_layer") +:+ "/kernel") with
  | Some k =>
      LinearSpec.weight (TransformerDecoderSpec.projection spec') =
      Some (if py_array_equal (Some (squeeze k))
                 (EmbeddingsSpec.weight (TransformerDecoderSpec.embeddings spec))
            then squeeze k else transpose (squeeze k))
  | None =>
      match variables !! name with
      | Some w =>
          LinearSpec.weight (TransformerDecoderSpec.projection spec') = Some (squeeze w)
      | None => r = inl (KeyError name) /\ spec' = spec
      end
  end.
Proof.
  unfold set_transformer_decoder_v2. intros H.
  apply bind_run in H as [(a & s1 & H1 & H)|(e & H1 & ->)].
  - apply (keeps_run TransformerDecoderSpec.projection) in H; [|keeps_solve]. rewrite H.
    clear H. destruct a. revert H1.
    unfold Eff.try_except_KeyError, Eff.bind, Eff.zoom, Eff.gets, Eff.modify, Eff.ret.
    rewrite !set_linear_run. cbv [default from_option id].
    destruct (variables !! ((scope +:+ "/output_layer") +:+ "/kernel")) as [k|].
    + destruct spec as [emb ln proj lay]; cbn -[py_array_equal].
      destruct (py_array_equal (Some (squeeze k)) (EmbeddingsSpec.weight emb));
        cbn; intros [= <-]; reflexivity.
    + cbv beta iota zeta. rewrite ?set_linear_run. cbv [default from_option id].
      destruct (variables !! name) as [w|]; [|discriminate].
      intros [= <-]. reflexivity.
  - revert H1.
    unfold Eff.try_except_KeyError, Eff.bind, Eff.zoom, Eff.gets, Eff.modify, Eff.ret.
    rewrite !set_linear_run. cbv [default from_option id].
    destruct (variables !! ((scope +:+ "/output_layer") +:+ "/kernel")) as [k|].
    + destruct spec as [emb ln proj lay]; cbn -[py_array_equal].
      destruct (py_array_equal (Some (squeeze k)) (EmbeddingsSpec.weight emb));
        cbn; discriminate.
    + cbv beta iota zeta. rewrite ?set_linear_run. cbv [default from_option id].
      destruct (variables !! name) as [w|]; [discriminate|].
      destruct spec. intros [= <- <-]. split; reflexivity.
Qed.

(** Generation 1.  With a [dense/kernel] in the checkpoint the projection
    is that kernel, squeezed and transposed; without one it is the variable
    the decoder embeddings were read from, squeezed and not transposed. *)
Lemma set_transformer_decoder_projection variables spec spec' :
  set_transformer_decoder variables spec = (inr tt, spec') ->
  LinearSpec.weight (TransformerDecoderSpec.projection spec') =
  match variables !! "transformer/decoder/dense/kernel" with
  | Some k => Some (transpose (squeeze k))
  | None => squeeze <$> EmbeddingsSpec.weight (TransformerDecoderSpec.embeddings spec')
  end.
Proof.
  intros Hrun. pose proof (set_transformer_decoder_embeddings _ _ _ Hrun) as Hemb.
  unfold set_transformer_decoder in Hrun.
  apply bind_ok in Hrun as (name & s1 & H1 & H).
  apply (embeddings_fallback_run (Eff.zoom _ _) TransformerDecoderSpec.embeddings
           TransformerDecoderSpec.set_embeddings) in H1; [|reflexivity|reflexivity]. cbv [String.append Nat.eqb] in H1.
  apply bind_ok in H as ([] & s2 & H2 & H).
  apply (keeps_run TransformerDecoderSpec.projection) in H; [|keeps_solve]. rewrite H.
  clear H. revert H2.
  unfold Eff.try_except_KeyError, Eff.zoom. rewrite !set_linear_run. cbv [default from_option id].
  change ("transformer/decoder/dense" +:+ "/kernel") with "transformer/decoder/dense/kernel".
  destruct (variables !! "transformer/decoder/dense/kernel") as [k|].
  - intros [= <-]. reflexivity.
  - cbv beta iota zeta. rewrite ?set_linear_run. cbv [default from_option id].
    destruct (variables !! name) as [w|] eqn:Hw; [|discriminate].
    intros [= <-]. cbn. unfold linear_weight. rewrite Hemb.
    destruct (variables !! "transformer/decoder/w_embs") as [w'|] eqn:Hd.
    + destruct H1 as [-> _]. rewrite Hd in Hw. injection Hw as ->. reflexivity.
    + destruct H1 as (-> & _ & _). rewrite Hw. reflexivity.
Qed.

(** Generation 2, whole pipeline: the variable named by
    [target_embedding_name] is the one the decoder embeddings were read
    from. *)
Lemma set_transformer_spec_v2_projection variables spec spec' :
  set_transformer_spec_v2 variables spec = (inr tt, spec') ->
  let emb :=
    EmbeddingsSpec.weight (TransformerDecoderSpec.embeddings (TransformerSpec.decoder spec')) in
  LinearSpec.weight (TransformerDecoderSpec.projection (TransformerSpec.decoder spec')) =
  match variables !! "model/decoder/output_layer/kernel" with
  | Some k =>
      Some (if py_array_equal (Some (squeeze k)) emb
            then squeeze k else transpose (squeeze k))
  | None => squeeze <$> emb
  end.
Proof.
  intros H emb. unfold set_transformer_spec_v2 in H.
  apply bind_ok in H as (? & s1 & _ & H). apply bind_ok in H as (name & s2 & H2 & H).
  apply bind_ok in H as (rel1 & s3 & [= <- <-] & H).
  apply bind_ok in H as ([] & s4 & H4 & H).
  apply bind_ok in H as (rel2 & s5 & [= <- <-] & H).
  apply zoom_run in H4 as (e' & _ & ->). apply zoom_run in H as (d' & H & ->).
  cbn [TransformerSpec.decoder TransformerSpec.set_decoder TransformerSpec.set_encoder] in *.
  apply (embeddings_fallback_run
           (fun m => Eff.zoom TransformerSpec.decoder TransformerSpec.set_decoder
                       (Eff.zoom TransformerDecoderSpec.embeddings
                          TransformerDecoderSpec.set_embeddings m))
           (fun s => TransformerDecoderSpec.embeddings (TransformerSpec.decoder s))
           (fun u s => TransformerSpec.set_decoder
                         (TransformerDecoderSpec.set_embeddings u (TransformerSpec.decoder s)) s))
    in H2; [|intros; apply zoom_zoom|reflexivity].
  cbv [String.append Nat.eqb] in H2.
  assert (TransformerDecoderSpec.embeddings d'
          = TransformerDecoderSpec.embeddings (TransformerSpec.decoder s2)) as Hemb.
  { apply (keeps_run TransformerDecoderSpec.embeddings) in H; [exact H|].
    unfold set_transformer_decoder_v2. keeps_solve. }
  apply set_transformer_decoder_v2_projection in H.
  subst emb. rewrite Hemb.
  change (("model/decoder" +:+ "/output_layer") +:+ "/kernel")
    with "model/decoder/output_layer/kernel" in H.
  destruct (variables !! "model/decoder/output_layer/kernel") as [k|]; [exact H|].
  destruct (variables !! "model/examples_inputter/labels_inputter/embedding") as [w|] eqn:Hl.
  - destruct H2 as [-> H2]. rewrite Hl in H. rewrite H, H2. reflexivity.
  - destruct H2 as (-> & [w Hw] & H2). rewrite Hw in H. rewrite H, H2, Hw. reflexivity.
Qed.

(** C2, as the code has it: in both generations a dedicated
    output-projection kernel, when the checkpoint has one, supplies the
    projection weight (squeezed and laid out by the setter) and the
    embeddings are not used for it; when the checkpoint has none, the
    projection weight is the target embedding weight with its singleton
    axes dropped, in the orientation the embedding table is stored in, not
    transposed. *)
Theorem projection_resolution (variables : variables_t) :
  (forall spec spec',
     set_transformer_decoder variables spec = (inr tt, spec') ->
     LinearSpec.weight (TransformerDecoderSpec.projection spec') =
     match variables !! "transformer/decoder/dense/kernel" with
     | Some k => Some (transpose (squeeze k))
     | None => squeeze <$> EmbeddingsSpec.weight (TransformerDecoderSpec.embeddings spec')
     end) /\
  (forall spec spec',
     set_transformer_spec_v2 variables spec = (inr tt, spec') ->
     let emb :=
       EmbeddingsSpec.weight
         (TransformerDecoderSpec.embeddings (TransformerSpec.decoder spec')) in
     LinearSpec.weight (TransformerDecoderSpec.projection (TransformerSpec.decoder spec')) =
     match variables !! "model/decoder/output_layer/kernel" with
     | Some k =>
         Some (if py_array_equal (Some (squeeze k)) emb
               then squeeze k else transpose (squeeze k))
     | None => squeeze <$> emb
     end).
Proof.
  split.
  - apply set_transformer_decoder_projection.
  - apply set_transformer_spec_v2_projection.
Qed.

(** A generation-1 checkpoint with a dedicated projection and one without. *)
Lemma projection_resolution_witness :
  (let r := set_transformer_decoder (Fixtures.checkpoint_v1 [0])
              (TransformerDecoderSpec.empty 1) in
   r.1 = inr tt /\
   LinearSpec.weight (TransformerDecoderSpec.projection r.2)
   = Some (NdArray [3; 2] [1; 4; 2; 5; 3; 6]%Z)) /\
  (let r := set_transformer_decoder (Fixtures.checkpoint_v1_shared [0])
              (TransformerDecoderSpec.empty 1) in
   r.1 = inr tt /\
   LinearSpec.weight (TransformerDecoderSpec.projection r.2)
   = Some Fixtures.shared_embedding).
Proof.
  split; intros r.
  - assert (r.1 = inr tt) as Hr by (vm_compute; reflexivity). split; [exact Hr|].
    destruct (projection_resolution (Fixtures.checkpoint_v1 [0])) as [H _].
    rewrite (H (TransformerDecoderSpec.empty 1) r.2).
    + vm_compute. reflexivity.
    + fold r. rewrite <- Hr. destruct r; reflexivity.
  - assert (r.1 = inr tt) as Hr by (vm_compute; reflexivity). split; [exact Hr|].
    destruct (projection_resolution (Fixtures.checkpoint_v1_shared [0])) as [H _].
    rewrite (H (TransformerDecoderSpec.empty 1) r.2).
    + vm_compute. reflexivity.
    + fold r. rewrite <- Hr. destruct r; reflexivity.
Defined.

(** C2 as stated fails.  Neither checkpoint has an output-projection
    kernel and both have target embeddings.  In both generations the
    conversion returns, and the projection weight is the embedding table
    itself, of shape [vocabulary, depth]; it is not its transpose. *)
Lemma tied_projection_not_transposed :
  (let variables := Fixtures.checkpoint_v1_shared [0] in
   let r := set_transformer_spec variables (TransformerSpec.empty 1 false) in
   let decoder := TransformerSpec.decoder r.2 in
   variables !! "transformer/decoder/dense/kernel" = None /\
   r.1 = inr tt /\
   EmbeddingsSpec.weight (TransformerDecoderSpec.embeddings decoder)
   = Some Fixtures.shared_embedding /\
   LinearSpec.weight (TransformerDecoderSpec.projection decoder)
   = Some Fixtures.shared_embedding /\
   LinearSpec.weight (TransformerDecoderSpec.projection decoder)
   <> Some (transpose Fixtures.shared_embedding)) /\
  (let variables := Fixtures.checkpoint_v2_tied [0] in
   let r := set_transformer_spec_v2 variables (TransformerSpec.empty 1 false) in
   let decoder := TransformerSpec.decoder r.2 in
   variables !! "model/decoder/output_layer/kernel" = None /\
   r.1 = inr tt /\
   EmbeddingsSpec.weight (TransformerDecoderSpec.embeddings decoder)
   = Some Fixtures.tgt_embedding /\
   LinearSpec.weight (TransformerDecoderSpec.projection decoder)
   = Some Fixtures.tgt_embedding /\
   LinearSpec.weight (TransformerDecoderSpec.projection decoder)
   <> Some (transpose Fixtures.tgt_embedding)).
Proof. vm_compute. split_and!; try reflexivity; discriminate. Qed.

(** ** Weight tying in generation 2 *)

Lemma float32_eqb_eq (x y : Z) : float32_eqb x y = true <-> float32_eq x y.
Proof.
  unfold float32_eqb, float32_eq.
  rewrite !andb_true_iff, orb_true_iff, andb_true_iff, !negb_true_iff, Z.eqb_eq. tauto.
Qed.

Lemma all_equal_Forall2 (xs ys : list Z) :
  all_equal xs ys = true <-> Forall2 float32_eq xs ys.
Proof.
  revert ys. induction xs as [|x xs IH]; intros [|y ys]; cbn [all_equal].
  - split; [constructor|reflexivity].
  - split; [discriminate|intros H; inversion H].
  - split; [discriminate|intros H; inversion H].
  - rewrite andb_true_iff, float32_eqb_eq, IH. split.
    + intros [Hx Hxs]. constructor; assumption.
    + intros H. inversion H; subst. split; assumption.
Qed.

Lemma array_equal_true (a b : ndarray) : array_equal a b = true <-> numerically_equal a b.
Proof.
  unfold array_equal, numerically_equal.
  rewrite andb_true_iff, bool_decide_eq_true, all_equal_Forall2. reflexivity.
Qed.

Lemma py_array_equal_true (a : ndarray) (o : option ndarray) :
  py_array_equal (Some a) o = true <-> exists b, o = Some b /\ numerically_equal a b.
Proof.
  destruct o as [b|]; simpl.
  - rewrite array_equal_true. split.
    + intros H. exists b. split; [reflexivity|exact H].
    + intros (b' & [= <-] & H). exact H.
  - split; [discriminate|]. intros (b & [=] & _).
Qed.

(** An array without a NaN is equal to itself; an array with one is equal
    to no array. *)
Lemma numerically_equal_refl (a : ndarray) :
  Forall (fun x => float32_is_nan x = false) (data a) -> numerically_equal a a.
Proof.
  intros H. split; [reflexivity|]. induction H as [|x xs Hx _ IH]; constructor.
  - split_and!; [exact Hx|exact Hx|left; reflexivity].
  - exact IH.
Qed.

Lemma numerically_equal_nan (a b : ndarray) :
  Exists (fun x => float32_is_nan x = true) (data a) -> ~ numerically_equal a b.
Proof.
  intros Hnan [_ H]. induction H as [|x y xs ys Hxy _ IH].
  - inversion Hnan.
  - inversion Hnan as [? ? Hx|? ? Hxs]; subst.
    + destruct Hxy as (Hx' & _). congruence.
    + apply IH. exact Hxs.
Qed.

(** Two arrays that differ at a position whose two values are not both zero
    are not equal. *)
Lemma numerically_equal_differ (a b : ndarray) (i : nat) (x y : Z) :
  data a !! i = Some x -> data b !! i = Some y -> x <> y ->
  ~ (float32_is_zero x = true /\ float32_is_zero y = true) ->
  ~ numerically_equal a b.
Proof.
  intros Hx Hy Hne Hzero [_ H].
  destruct (Forall2_lookup_lr _ _ _ _ _ _ H Hx Hy) as (_ & _ & [Heq|Hz]); tauto.
Qed.

(** C3, as the code has it: when the generation-2 checkpoint has an
    output-layer kernel, the decoder setter compares the loaded projection
    weight with the decoder embedding weight by [np.array_equal], that is,
    by shape and by [==] on the elements, with no tolerance: the projection
    is left as loaded when the two arrays have the same shape and pairwise
    equal elements, and is transposed otherwise.  Equality is that of the
    numbers, not of their bits.  A projection without a NaN that has the
    bits of the embedding table is left as loaded; one that differs from the
    table at any position, other than by the sign of a zero, is transposed;
    and a projection holding a NaN is always transposed, also when the
    embedding table has the very same bits. *)
Theorem weight_tying_exact variables scope name relative spec r spec' (k : ndarray) :
  variables !! (scope +:+ "/output_layer/kernel") = Some k ->
  set_transformer_decoder_v2 variables scope name relative spec = (r, spec') ->
  let loaded := squeeze k in
  let emb := EmbeddingsSpec.weight (TransformerDecoderSpec.embeddings spec) in
  let projection := LinearSpec.weight (TransformerDecoderSpec.projection spec') in
  ((exists e, emb = Some e /\ numerically_equal loaded e) -> projection = Some loaded) /\
  (~ (exists e, emb = Some e /\ numerically_equal loaded e) ->
   projection = Some (transpose loaded)) /\
  (Forall (fun x => float32_is_nan x = false) (data loaded) -> emb = Some loaded ->
   projection = Some loaded) /\
  (forall e i x y,
     emb = Some e -> data loaded !! i = Some x -> data e !! i = Some y -> x <> y ->
     ~ (float32_is_zero x = true /\ float32_is_zero y = true) ->
     projection = Some (transpose loaded)) /\
  (Exists (fun x => float32_is_nan x = true) (data loaded) ->
   projection = Some (transpose loaded)).
Proof.
  intros Hk Hrun loaded emb projection.
  apply set_transformer_decoder_v2_projection in Hrun.
  rewrite append_assoc in Hrun.
  change ("/output_layer" +:+ "/kernel") with "/output_layer/kernel" in Hrun.
  rewrite Hk in Hrun. fold loaded emb projection in Hrun.
  assert ((exists e, emb = Some e /\ numerically_equal loaded e) -> projection = Some loaded)
    as Hkept.
  { intros Heq. apply py_array_equal_true in Heq. rewrite Heq in Hrun. exact Hrun. }
  assert (~ (exists e, emb = Some e /\ numerically_equal loaded e) ->
          projection = Some (transpose loaded)) as Htransposed.
  { intros Hne. destruct (py_array_equal (Some loaded) emb) eqn:E; [|exact Hrun].
    apply py_array_equal_true in E. contradiction. }
  split_and!.
  - exact Hkept.
  - exact Htransposed.
  - intros Hnan Hemb. apply Hkept. exists loaded. split; [exact Hemb|].
    apply numerically_equal_refl. exact Hnan.
  - intros e i x y Hemb Hx Hy Hne Hzero. apply Htransposed.
    intros (e' & He' & Heq). rewrite Hemb in He'. injection He' as <-.
    exact (numerically_equal_differ _ _ _ _ _ Hx Hy Hne Hzero Heq).
  - intros Hnan. apply Htransposed. intros (e & _ & Heq).
    exact (numerically_equal_nan _ _ Hnan Heq).
Qed.

(** A kernel that is the embedding table of the example checkpoint is kept
    as it is; the kernel of the example checkpoint, stored as
    [depth, vocabulary], is transposed; and a kernel that has the bits of the
    embedding table, a NaN among them, is transposed. *)
Lemma weight_tying_exact_witness :
  let name := "model/examples_inputter/labels_inputter/embedding" in
  let decoder table :=
    TransformerDecoderSpec.set_embeddings (EmbeddingsSpec.mk (Some table) true)
      (TransformerDecoderSpec.empty 1) in
  let projection variables table :=
    LinearSpec.weight
      (TransformerDecoderSpec.projection
         (set_transformer_decoder_v2 variables "model/decoder" name false (decoder table)).2) in
  projection (checkpoint_v2_with Fixtures.tgt_embedding Fixtures.tgt_embedding)
    Fixtures.tgt_embedding = Some Fixtures.tgt_embedding /\
  projection (Fixtures.checkpoint_v2 [0]) Fixtures.tgt_embedding
  = Some (NdArray [3; 2] [1; 4; 2; 5; 3; 6]%Z) /\
  projection (checkpoint_v2_with nan_table nan_table) nan_table = Some (transpose nan_table).
Proof.
  intros name decoder projection. split_and!.
  - destruct (weight_tying_exact
                (checkpoint_v2_with Fixtures.tgt_embedding Fixtures.tgt_embedding)
                "model/decoder" name false (decoder Fixtures.tgt_embedding)
                (set_transformer_decoder_v2
                   (checkpoint_v2_with Fixtures.tgt_embedding Fixtures.tgt_embedding)
                   "model/decoder" name false (decoder Fixtures.tgt_embedding)).1
                (set_transformer_decoder_v2
                   (checkpoint_v2_with Fixtures.tgt_embedding Fixtures.tgt_embedding)
                   "model/decoder" name false (decoder Fixtures.tgt_embedding)).2
                Fixtures.tgt_embedding) as (_ & _ & H & _).
    + vm_compute. reflexivity.
    + destruct (set_transformer_decoder_v2 _ _ _ _ _); reflexivity.
    + unfold projection. rewrite H; [reflexivity| |reflexivity].
      change (Forall (fun x => float32_is_nan x = false) [20; 21; 22; 23; 24; 25]%Z).
      repeat (apply Forall_cons_2; [reflexivity|]). apply Forall_nil_2.
  - destruct (weight_tying_exact (Fixtures.checkpoint_v2 [0])
                "model/decoder" name false (decoder Fixtures.tgt_embedding)
                (set_transformer_decoder_v2 (Fixtures.checkpoint_v2 [0])
                   "model/decoder" name false (decoder Fixtures.tgt_embedding)).1
                (set_transformer_decoder_v2 (Fixtures.checkpoint_v2 [0])
                   "model/decoder" name false (decoder Fixtures.tgt_embedding)).2
                (Fixtures.mat 2 3 1)) as (_ & H & _).
    + vm_compute. reflexivity.
    + destruct (set_transformer_decoder_v2 _ _ _ _ _); reflexivity.
    + unfold projection. rewrite H; [vm_compute; reflexivity|].
      intros (e & [= <-] & [Hshape _]). vm_compute in Hshape. discriminate Hshape.
  - destruct (weight_tying_exact (checkpoint_v2_with nan_table nan_table)
                "model/decoder" name false (decoder nan_table)
                (set_transformer_decoder_v2 (checkpoint_v2_with nan_table nan_table)
                   "model/decoder" name false (decoder nan_table)).1
                (set_transformer_decoder_v2 (checkpoint_v2_with nan_table nan_table)
                   "model/decoder" name false (decoder nan_table)).2
                nan_table) as (_ & _ & _ & _ & H).
    + vm_compute. reflexivity.
    + destruct (set_transformer_decoder_v2 _ _ _ _ _); reflexivity.
    + unfold projection. rewrite H; [reflexivity|].
      apply Exists_cons_hd. vm_compute. reflexivity.
Defined.

(** C3 as stated fails: the comparison is not one of bits.  In the first
    checkpoint the output-layer kernel and the target embedding table are
    the same array, bit for bit, with a NaN in it: the conversion returns
    and the projection is the transposed kernel, not the kernel.  In the
    second the kernel and the table differ in one bit, the sign of a zero:
    the projection is the kernel as loaded, not transposed. *)
Lemma weight_tying_not_bitwise :
  (let variables := checkpoint_v2_with nan_table nan_table in
   let r := set_transformer_spec_v2 variables (TransformerSpec.empty 1 false) in
   let decoder := TransformerSpec.decoder r.2 in
   r.1 = inr tt /\
   EmbeddingsSpec.weight (TransformerDecoderSpec.embeddings decoder) = Some nan_table /\
   squeeze nan_table = nan_table /\
   LinearSpec.weight (TransformerDecoderSpec.projection decoder)
   = Some (transpose nan_table) /\
   transpose nan_table <> nan_table) /\
  (let variables := checkpoint_v2_with negative_zero_table zero_table in
   let r := set_transformer_spec_v2 variables (TransformerSpec.empty 1 false) in
   let decoder := TransformerSpec.decoder r.2 in
   r.1 = inr tt /\
   EmbeddingsSpec.weight (TransformerDecoderSpec.embeddings decoder)
   = Some negative_zero_table /\
   squeeze zero_table = zero_table /\
   zero_table <> negative_zero_table /\
   LinearSpec.weight (TransformerDecoderSpec.projection decoder) = Some zero_table).
Proof. vm_compute. split_and!; try reflexivity; discriminate. Qed.

(** ** Attention blocks *)


Lemma zoom_item_ok {T A} (i : Z) (m : M T A) (l : list T) a l' :
  Eff.zoom_item i m l = (inr a, l') ->
  exists n x x',
    Eff.py_index (length l) i = Some n /\ l !! n = Some x /\
    m x = (inr a, x') /\ l' = <[n := x']> l.
Proof.
  unfold Eff.zoom_item. destruct (Eff.py_index (length l) i) as [n|]; [|discriminate].
  destruct (l !! n) as [x|] eqn:Hx; [|discriminate].
  destruct (m x) as [r x'] eqn:Hm. intros [= -> <-]. eauto 10.
Qed.

Lemma set_linear_ok variables scope (x x' : LinearSpec.t) :
  set_linear variables scope None true x = (inr tt, x') ->
  exists w, loaded_kernel variables scope = Some w /\ LinearSpec.weight x' = Some w.
Proof.
  rewrite set_linear_run. cbv [default from_option id]. unfold loaded_kernel.
  destruct (variables !! (scope +:+ "/kernel")) as [w|]; [|discriminate].
  intros [= <-]. eauto.
Qed.


(** A setter run on [spec.linear[i]]. *)
Lemma linear_item_ok {A} (i : Z) (m : M LinearSpec.t A) (s s' : MultiHeadAttentionSpec.t) a :
  Eff.zoom MultiHeadAttentionSpec.linear MultiHeadAttentionSpec.set_linear
    (Eff.zoom_item i m) s = (inr a, s') ->
  exists n x x',
    Eff.py_index (length (MultiHeadAttentionSpec.linear s)) i = Some n /\
    MultiHeadAttentionSpec.linear s !! n = Some x /\
    m x = (inr a, x') /\
    MultiHeadAttentionSpec.linear s' = <[n := x']> (MultiHeadAttentionSpec.linear s).
Proof.
  intros H. apply zoom_run in H as (l' & H & ->).
  apply zoom_item_ok in H as (n & x & x' & Hn & Hx & Hm & ->). eauto 10.
Qed.



(** Generation 1: the entries are loaded one by one from [conv1d],
    [conv1d_1] and, for cross-attention, [conv1d_2]. *)
Lemma set_multi_head_attention_self variables scope spec spec' :
  length (MultiHeadAttentionSpec.linear spec) = 2 ->
  set_multi_head_attention variables scope true spec = (inr tt, spec') ->
  exists w0 w1 l0 l1,
    loaded_kernel variables (scope +:+ "/conv1d") = Some w0 /\
    loaded_kernel variables (scope +:+ "/conv1d_1") = Some w1 /\
    MultiHeadAttentionSpec.linear spec' = [l0; l1] /\
    LinearSpec.weight l0 = Some w0 /\ LinearSpec.weight l1 = Some w1.
Proof.
  intros Hlen H. unfold set_multi_head_attention in H. cbv beta iota zeta in H.
  apply bind_ok in H as ([] & s1 & H1 & H).
  apply (keeps_run MultiHeadAttentionSpec.linear) in H1; [|keeps_solve].
  apply bind_ok in H as ([] & s2 & H2 & H).
  apply linear_item_ok in H2 as (n0 & x0 & x0' & Hn0 & Hx0 & Hm0 & Hlin0).
  apply set_linear_ok in Hm0 as (w0 & Hw0 & Hl0).
  apply bind_ok in H as ([] & s3 & H3 & H).
  apply linear_item_ok in H3 as (n1 & x1 & x1' & Hn1 & Hx1 & Hm1 & Hlin1).
  apply set_linear_ok in Hm1 as (w1 & Hw1 & Hl1).
  cbn in H. injection H as <-.
  rewrite Hlin0, length_insert, H1, Hlen in Hn1. rewrite H1, Hlen in Hn0.
  injection Hn0 as <-. injection Hn1 as <-.
  rewrite Hlin0, H1 in Hlin1.
  destruct (MultiHeadAttentionSpec.linear spec) as [|a [|b [|c l]]]; try discriminate.
  cbn in Hlin1.
  exists w0, w1, x0', x1'. split_and!; assumption.
Qed.

Lemma set_multi_head_attention_cross variables scope spec spec' :
  length (MultiHeadAttentionSpec.linear spec) = 3 ->
  set_multi_head_attention variables scope false spec = (inr tt, spec') ->
  exists w0 w1 w2 l0 l1 l2,
    loaded_kernel variables (scope +:+ "/conv1d") = Some w0 /\
    loaded_kernel variables (scope +:+ "/conv1d_1") = Some w1 /\
    loaded_kernel variables (scope +:+ "/conv1d_2") = Some w2 /\
    MultiHeadAttentionSpec.linear spec' = [l0; l1; l2] /\
    LinearSpec.weight l0 = Some w0 /\ LinearSpec.weight l1 = Some w1 /\
    LinearSpec.weight l2 = Some w2.
Proof.
  intros Hlen H. unfold set_multi_head_attention in H. cbv beta iota zeta in H.
  apply bind_ok in H as ([] & s1 & H1 & H).
  apply (keeps_run MultiHeadAttentionSpec.linear) in H1; [|keeps_solve].
  apply bind_ok in H as ([] & s2 & H2 & H).
  apply linear_item_ok in H2 as (n0 & x0 & x0' & Hn0 & Hx0 & Hm0 & Hlin0).
  apply set_linear_ok in Hm0 as (w0 & Hw0 & Hl0).
  apply bind_ok in H as ([] & s3 & H3 & H).
  apply linear_item_ok in H3 as (n1 & x1 & x1' & Hn1 & Hx1 & Hm1 & Hlin1).
  apply set_linear_ok in Hm1 as (w1 & Hw1 & Hl1).
  cbn [negb] in H.
  apply linear_item_ok in H as (n2 & x2 & x2' & Hn2 & Hx2 & Hm2 & Hlin2).
  apply set_linear_ok in Hm2 as (w2 & Hw2 & Hl2).
  rewrite Hlin1, length_insert, Hlin0, length_insert, H1, Hlen in Hn2.
  rewrite Hlin0, length_insert, H1, Hlen in Hn1. rewrite H1, Hlen in Hn0.
  injection Hn0 as <-. injection Hn1 as <-. injection Hn2 as <-.
  rewrite Hlin1, Hlin0, H1 in Hlin2.
  destruct (MultiHeadAttentionSpec.linear spec) as [|a [|b [|c [|d l]]]]; try discriminate.
  cbn in Hlin2.
  exists w0, w1, w2, x0', x1', x2'. split_and!; assumption.
Qed.

(** ** Missing variables *)

Section KeySound.

Context (variables : variables_t) {St : Type}.

Lemma ks_ret {A} (a : A) : key_sound variables (@Eff.ret St A a).
Proof. intros s k s' H. discriminate H. Qed.

Lemma ks_modify (f : St -> St) : key_sound variables (Eff.modify f).
Proof. intros s k s' H. discriminate H. Qed.

Lemma ks_gets {A} (f : St -> A) : key_sound variables (Eff.gets f).
Proof. intros s k s' H. discriminate H. Qed.

Lemma ks_raise {A} (e : exn) :
  (forall k, e <> KeyError k) -> key_sound variables (@Eff.raise St A e).
Proof. intros He s k s' [= -> _]. destruct (He k eq_refl). Qed.

Lemma ks_getitem name : key_sound variables (@getitem St variables name).
Proof.
  intros s k s'. unfold getitem. destruct (variables !! name) eqn:Hn; [discriminate|].
  intros [= <- _]. exact Hn.
Qed.


Lemma ks_bind {A B} (m : M St A) (f : A -> M St B) :
  key_sound variables m -> (forall a, key_sound variables (f a)) ->
  key_sound variables (Eff.bind m f).
Proof.
  intros Hm Hf s k s'. unfold Eff.bind. destruct (m s) as [[e|a] s1] eqn:Hs.
  - intros [= -> <-]. eapply Hm. eassumption.
  - apply Hf.
Qed.

(** The body's [KeyError]s are caught: only the handler's get out. *)
Lemma ks_try {A} (m h : M St A) :
  key_sound variables h -> key_sound variables (Eff.try_except_KeyError m h).
Proof.
  intros Hh s k s'. unfold Eff.try_except_KeyError.
  destruct (m s) as [[[]|a] s1]; try discriminate. apply Hh.
Qed.

Lemma ks_if {A} (b : bool) (m1 m2 : M St A) :
  key_sound variables m1 -> key_sound variables m2 ->
  key_sound variables (if b then m1 else m2).
Proof. destruct b; auto. Qed.

Lemma ks_zoom {T A} (get : St -> T) (put : T -> St -> St) (m : M T A) :
  key_sound variables m -> key_sound variables (Eff.zoom get put m).
Proof.
  intros Hm s k s'. unfold Eff.zoom. destruct (m (get s)) as [r t] eqn:Ht.
  intros [= -> _]. eapply Hm. eassumption.
Qed.

Lemma ks_on_fresh {T A} (init : T) (m : M T A) :
  key_sound variables m -> key_sound variables (@Eff.on_fresh St T A init m).
Proof.
  intros Hm s k s'. unfold Eff.on_fresh. destruct (m init) as [[e|a] t] eqn:Ht; [|discriminate].
  intros [= -> _]. eapply Hm. eassumption.
Qed.

Lemma ks_zoom_item {A} (i : Z) (m : M St A) :
  key_sound variables m -> key_sound variables (Eff.zoom_item i m).
Proof.
  intros Hm l k l'. unfold Eff.zoom_item.
  destruct (Eff.py_index (length l) i) as [n|]; [|discriminate].
  destruct (l !! n) as [x|]; [|discriminate].
  destruct (m x) as [r x'] eqn:Hx. intros [= -> _]. eapply Hm. eassumption.
Qed.

Lemma ks_for_enumerate (body : nat -> M St unit) (i : nat) :
  (forall j, key_sound variables (body j)) ->
  key_sound variables (Eff.for_enumerate body i).
Proof.
  intros Hb l. revert i. induction l as [|x xs IH]; intros i k l'; [discriminate|].
  cbn [Eff.for_enumerate]. destruct (body i x) as [[e|[]] x'] eqn:Hx.
  - intros [= -> _]. eapply Hb. eassumption.
  - destruct (Eff.for_enumerate body (S i) xs) as [r xs'] eqn:Hxs.
    intros [= -> _]. eapply IH. eassumption.
Qed.

End KeySound.

Ltac ks_step :=
  first
    [ apply ks_bind; [|intros ?]
    | apply ks_try
    | apply ks_zoom
    | apply ks_zoom_item
    | apply ks_on_fresh
    | apply ks_for_enumerate; intros ?
    | apply ks_getitem
    | apply ks_ret
    | apply ks_modify
    | apply ks_gets
    | apply ks_raise; intros ?; discriminate
    | assumption
    | match goal with
      | |- key_sound _ (if _ then _ else _) => apply ks_if
      | |- key_sound _ (match ?x with _ => _ end) => destruct x
      end ].

Ltac ks_solve := repeat ks_step.

Lemma ks_set_layer_norm variables scope : key_sound variables (set_layer_norm variables scope).
Proof. unfold set_layer_norm. ks_solve. Qed.

Lemma ks_set_linear variables scope weight_name transpose_ :
  key_sound variables (set_linear variables scope weight_name transpose_).
Proof. unfold set_linear. ks_solve. Qed.

Lemma ks_set_embeddings variables scope version :
  key_sound variables (set_embeddings variables scope version).
Proof. unfold set_embeddings. ks_solve. Qed.

Lemma ks_fuse_linear variables layers : key_sound variables (fuse_linear layers).
Proof. unfold fuse_linear. ks_solve. Qed.

#[local] Hint Resolve ks_set_layer_norm ks_set_linear ks_set_embeddings ks_fuse_linear : core.

Ltac ks_setters := repeat first [ ks_step | solve [auto] ].

Lemma ks_set_transformer_spec variables : key_sound variables (set_transformer_spec variables).
Proof.
  unfold set_transformer_spec, set_transformer_encoder, set_transformer_decoder,
    set_transformer_encoder_layer, set_transformer_decoder_layer, set_ffn,
    set_multi_head_attention.
  ks_setters.
Qed.







(** ** A dict without the generation-2 source embedding *)

Lemma set_transformer_spec_v2_no_source_embedding (d : variables_t) spec :
  d !! "model/examples_inputter/features_inputter/embedding" = None ->
  (set_transformer_spec_v2 d spec).1
  = inl (KeyError "model/examples_inputter/features_inputter/embedding").
Proof.
  intros Hd. unfold set_transformer_spec_v2. unfold Eff.bind at 1. unfold Eff.zoom.
  rewrite set_embeddings_run. cbv [String.append Nat.eqb]. rewrite Hd. reflexivity.
Qed.

(** * Further properties of the converter *)

(** ** The vocabulary loader on every kind of argument *)

Lemma _load_vocab_has_unk vocab_from_file vocab unk_token tokens' :
  _load_vocab vocab_from_file vocab unk_token = inr tokens' -> unk_token ∈ tokens'.
Proof.
  unfold _load_vocab. intros H.
  destruct vocab as [words|l|path|]; try discriminate.
  - destruct (decide (unk_token ∈ words)).
    + rewrite bool_decide_eq_true_2 in H by assumption. congruence.
    + rewrite bool_decide_eq_false_2 in H by assumption. injection H as <-. set_solver.
  - destruct (decide (unk_token ∈ l)).
    + rewrite bool_decide_eq_true_2 in H by assumption. congruence.
    + rewrite bool_decide_eq_false_2 in H by assumption. injection H as <-. set_solver.
  - destruct (vocab_from_file path) as [e|tokens]; [discriminate|].
    destruct (decide (unk_token ∈ tokens)).
    + rewrite bool_decide_eq_true_2 in H by assumption. congruence.
    + rewrite bool_decide_eq_false_2 in H by assumption. injection H as <-. set_solver.
Qed.

(** X1: whatever the vocabulary argument is, a vocabulary the loader
    returns contains the unknown token, and loading the returned list again
    returns it unchanged. *)
Theorem _load_vocab_stable vocab_from_file vocab unk_token tokens' :
  _load_vocab vocab_from_file vocab unk_token = inr tokens' ->
  unk_token ∈ tokens' /\
  _load_vocab vocab_from_file (VocabList tokens') unk_token = inr tokens'.
Proof.
  intros H. pose proof (_load_vocab_has_unk _ _ _ _ H) as Hin.
  split; [exact Hin|]. unfold _load_vocab.
  rewrite bool_decide_eq_true_2 by assumption. reflexivity.
Qed.

Lemma _load_vocab_stable_witness :
  "<unk>" ∈ ["a"; "b"; "<unk>"] /\
  _load_vocab Fixtures.no_vocab_file (VocabList ["a"; "b"; "<unk>"]) "<unk>"
  = inr ["a"; "b"; "<unk>"].
Proof.
  apply (_load_vocab_stable Fixtures.no_vocab_file (VocabObject ["a"; "b"]) "<unk>").
  reflexivity.
Defined.

(** X2: the loader fails in two ways only: with the [TypeError] for an
    argument that is neither a vocabulary object, a list nor a string, and
    with whatever reading the vocabulary file raised.  A list or a
    vocabulary object is never refused. *)
Theorem _load_vocab_errors vocab_from_file vocab unk_token e :
  _load_vocab vocab_from_file vocab unk_token = inl e ->
  (vocab = VocabOther /\ e = TypeError "Invalid vocabulary type") \/
  (exists path, vocab = VocabPath path /\ vocab_from_file path = inl e).
Proof.
  unfold _load_vocab. destruct vocab as [words|l|path|].
  - destruct (bool_decide _); discriminate.
  - destruct (bool_decide _); discriminate.
  - destruct (vocab_from_file path) as [e'|tokens] eqn:Hp.
    + intros [= <-]. right. eauto.
    + destruct (bool_decide _); discriminate.
  - intros [= <-]. left. split; reflexivity.
Qed.

Lemma _load_vocab_errors_witness :
  (VocabPath "missing.txt" = VocabOther /\
   RuntimeError "no such file" = TypeError "Invalid vocabulary type") \/
  (exists path, VocabPath "missing.txt" = VocabPath path /\
                Fixtures.no_vocab_file path = inl (RuntimeError "no such file")).
Proof.
  apply (_load_vocab_errors Fixtures.no_vocab_file (VocabPath "missing.txt") "<unk>").
  reflexivity.
Defined.

(** X3: for a list without duplicates the returned vocabulary has no
    duplicates either; its length is the length of the list, plus one when
    the unknown token was missing, in which case the unknown token is the
    last entry, at the index equal to the length of the list. *)
Theorem vocabulary_ids_of_list vocab_from_file (tokens tokens' : list string) unk_token :
  _load_vocab vocab_from_file (VocabList tokens) unk_token = inr tokens' ->
  (NoDup tokens -> NoDup tokens') /\
  (unk_token ∈ tokens -> length tokens' = length tokens) /\
  (unk_token ∉ tokens ->
   length tokens' = S (length tokens) /\ tokens' !! length tokens = Some unk_token).
Proof.
  unfold _load_vocab. destruct (decide (unk_token ∈ tokens)) as [Hin|Hnin].
  - rewrite bool_decide_eq_true_2 by assumption. intros [= <-].
    split_and!; [auto|reflexivity|contradiction].
  - rewrite bool_decide_eq_false_2 by assumption. intros [= <-]. split_and!.
    + intros Hnd. apply NoDup_app. split_and!; [assumption| |apply NoDup_singleton].
      intros x Hx Hx'. apply list_elem_of_singleton in Hx'. subst x. contradiction.
    + contradiction.
    + intros _. split.
      * rewrite length_app. simpl. lia.
      * rewrite lookup_app_r by lia. rewrite Nat.sub_diag. reflexivity.
Qed.

Lemma vocabulary_ids_of_list_witness :
  NoDup ["a"; "b"; "<unk>"] /\ ["a"; "b"; "<unk>"] !! 2 = Some "<unk>".
Proof.
  destruct (vocabulary_ids_of_list Fixtures.no_vocab_file ["a"; "b"] ["a"; "b"; "<unk>"]
              "<unk>" eq_refl) as (Hnd & _ & Hlast).
  split.
  - apply Hnd. apply (bool_decide_unpack _). vm_compute. exact I.
  - apply Hlast. apply (bool_decide_unpack _). vm_compute. exact I.
Defined.

(** ** Embeddings in generation 2, and the scaling flag *)

(** The node left by the two-scope lookup: the weight found and the scaling
    flag set. *)
Lemma embeddings_fallback_node {S} (lifted : M EmbeddingsSpec.t string -> M S string)
    (get : S -> EmbeddingsSpec.t) (put : EmbeddingsSpec.t -> S -> S)
    variables scope1 scope2 version s name s' :
  (forall m s, lifted m s = Eff.zoom get put m s) ->
  (forall t s, get (put t s) = t) ->
  let k1 := scope1 +:+ "/" +:+ (if Nat.eqb version 2 then "embedding" else "w_embs") in
  let k2 := scope2 +:+ "/" +:+ (if Nat.eqb version 2 then "embedding" else "w_embs") in
  Eff.try_except_KeyError
    (lifted (set_embeddings variables scope1 version))
    (lifted (set_embeddings variables scope2 version)) s = (inr name, s') ->
  exists w,
    match variables !! k1 with
    | Some w1 => w = w1
    | None => variables !! k2 = Some w
    end /\
    get s' = EmbeddingsSpec.mk (Some w) true.
Proof.
  intros Hl Hgp k1 k2. unfold Eff.try_except_KeyError. rewrite Hl. unfold Eff.zoom.
  rewrite set_embeddings_run. fold k1.
  destruct (variables !! k1) as [w|].
  - intros [= <- <-]. rewrite Hgp. eauto.
  - rewrite Hl. unfold Eff.zoom. rewrite set_embeddings_run. fold k2.
    destruct (variables !! k2) as [w|]; [|discriminate].
    intros [= <- <-]. rewrite Hgp. eauto.
Qed.

Lemma set_transformer_encoder_node variables spec spec' :
  set_transformer_encoder variables spec = (inr tt, spec') ->
  exists w, TransformerEncoderSpec.embeddings spec' = EmbeddingsSpec.mk (Some w) true.
Proof.
  unfold set_transformer_encoder. intros H.
  apply bind_ok in H as ([] & s1 & _ & H). apply bind_ok in H as (name & s2 & H2 & H).
  apply (keeps_run TransformerEncoderSpec.embeddings) in H; [|keeps_solve]. rewrite H.
  apply (embeddings_fallback_node (Eff.zoom _ _) TransformerEncoderSpec.embeddings
           TransformerEncoderSpec.set_embeddings) in H2; [|reflexivity|reflexivity].
  destruct H2 as (w & _ & H2). eauto.
Qed.

Lemma set_transformer_decoder_node variables spec spec' :
  set_transformer_decoder variables spec = (inr tt, spec') ->
  exists w, TransformerDecoderSpec.embeddings spec' = EmbeddingsSpec.mk (Some w) true.
Proof.
  unfold set_transformer_decoder. intros H.
  apply bind_ok in H as (name & s1 & H1 & H).
  apply (keeps_run TransformerDecoderSpec.embeddings) in H; [|keeps_solve]. rewrite H.
  apply (embeddings_fallback_node (Eff.zoom _ _) TransformerDecoderSpec.embeddings
           TransformerDecoderSpec.set_embeddings) in H1; [|reflexivity|reflexivity].
  destruct H1 as (w & _ & H1). eauto.
Qed.

(** X4: in generation 2 the encoder embeddings are the embedding of the
    features inputter, which the checkpoint must have; the decoder
    embeddings are the embedding of the labels inputter when the checkpoint
    has one and the embedding of the features inputter exactly when it has
    not.  Both nodes carry the scaling flag. *)
Theorem embeddings_resolution_v2 (variables : variables_t) spec spec' :
  set_transformer_spec_v2 variables spec = (inr tt, spec') ->
  exists features,
    variables !! "model/examples_inputter/features_inputter/embedding" = Some features /\
    TransformerEncoderSpec.embeddings (TransformerSpec.encoder spec')
    = EmbeddingsSpec.mk (Some features) true /\
    TransformerDecoderSpec.embeddings (TransformerSpec.decoder spec')
    = EmbeddingsSpec.mk
        (Some (default features
                 (variables !! "model/examples_inputter/labels_inputter/embedding")))
        true.
Proof.
  intros H. unfold set_transformer_spec_v2 in H.
  apply bind_ok in H as (name0 & s1 & H1 & H). apply bind_ok in H as (name & s2 & H2 & H).
  apply bind_ok in H as (rel1 & s3 & [= <- <-] & H).
  apply bind_ok in H as ([] & s4 & H4 & H).
  apply bind_ok in H as (rel2 & s5 & [= <- <-] & H).
  apply zoom_run in H4 as (e' & H4 & ->). apply zoom_run in H as (d' & H & ->).
  cbn [TransformerSpec.decoder TransformerSpec.encoder
       TransformerSpec.set_decoder TransformerSpec.set_encoder] in *.
  apply (keeps_run TransformerEncoderSpec.embeddings) in H4;
    [|unfold set_transformer_encoder_v2; keeps_solve].
  apply (keeps_run TransformerDecoderSpec.embeddings) in H;
    [|unfold set_transformer_decoder_v2; keeps_solve].
  rewrite H4, H.
  apply (embeddings_fallback_node
           (fun m => Eff.zoom TransformerSpec.decoder TransformerSpec.set_decoder
                       (Eff.zoom TransformerDecoderSpec.embeddings
                          TransformerDecoderSpec.set_embeddings m))
           (fun s => TransformerDecoderSpec.embeddings (TransformerSpec.decoder s))
           (fun u s => TransformerSpec.set_decoder
                         (TransformerDecoderSpec.set_embeddings u (TransformerSpec.decoder s)) s))
    in H2 as Hdec; [|intros; apply zoom_zoom|reflexivity].
  cbv [String.append Nat.eqb] in Hdec. destruct Hdec as (wd & Hwd & Hdec).
  assert (TransformerSpec.encoder s2 = TransformerSpec.encoder s1) as Henc.
  { apply (keeps_run TransformerSpec.encoder) in H2; [exact H2|keeps_solve]. }
  rewrite Henc, Hdec. clear H2 H4 H Henc Hdec.
  rewrite zoom_zoom in H1. unfold Eff.zoom in H1. rewrite set_embeddings_run in H1.
  cbv [String.append Nat.eqb] in H1.
  destruct (variables !! "model/examples_inputter/features_inputter/embedding")
    as [features|]; [|discriminate].
  injection H1 as _ <-. exists features. split_and!; [reflexivity|reflexivity|].
  destruct (variables !! "model/examples_inputter/labels_inputter/embedding") as [w|].
  - subst wd. reflexivity.
  - injection Hwd as ->. reflexivity.
Qed.

(** A checkpoint whose labels inputter has no embedding of its own. *)
Lemma embeddings_resolution_v2_witness :
  let variables :=
    delete "model/examples_inputter/labels_inputter/embedding" (Fixtures.checkpoint_v2 [0]) in
  let r := set_transformer_spec_v2 variables (TransformerSpec.empty 1 false) in
  r.1 = inr tt /\
  TransformerDecoderSpec.embeddings (TransformerSpec.decoder r.2)
  = EmbeddingsSpec.mk (Some Fixtures.src_embedding) true.
Proof.
  intros variables r.
  assert (r.1 = inr tt) as Hr by (vm_compute; reflexivity). split; [exact Hr|].
  destruct (embeddings_resolution_v2 variables (TransformerSpec.empty 1 false) r.2)
    as (features & Hf & _ & Hd).
  - fold r. rewrite <- Hr. destruct r; reflexivity.
  - rewrite Hd.
    assert (variables !! "model/examples_inputter/features_inputter/embedding"
            = Some Fixtures.src_embedding) as Hs by (vm_compute; reflexivity).
    rewrite Hs in Hf. injection Hf as <-. vm_compute. reflexivity.
Defined.

(** X5: a generation-1 conversion that returns has set the scaling flag
    [multiply_by_sqrt_depth] on the encoder and on the decoder embeddings,
    and both have a weight. *)
Theorem embeddings_scale_flag_v1 (variables : variables_t) spec spec' :
  set_transformer_spec variables spec = (inr tt, spec') ->
  exists we wd,
    TransformerEncoderSpec.embeddings (TransformerSpec.encoder spec')
    = EmbeddingsSpec.mk (Some we) true /\
    TransformerDecoderSpec.embeddings (TransformerSpec.decoder spec')
    = EmbeddingsSpec.mk (Some wd) true.
Proof.
  intros H. unfold set_transformer_spec in H.
  apply bind_ok in H as (relative & s0 & [= <- <-] & H).
  destruct (TransformerSpec.with_relative_position spec); [discriminate|].
  apply bind_ok in H as ([] & s1 & H1 & H).
  apply zoom_run in H1 as (e' & H1 & ->). apply zoom_run in H as (d' & H & ->).
  apply set_transformer_encoder_node in H1 as [we H1].
  apply set_transformer_decoder_node in H as [wd H].
  exists we, wd. split; assumption.
Qed.

Lemma embeddings_scale_flag_v1_witness :
  let r := set_transformer_spec (Fixtures.checkpoint_v1 [0]) (TransformerSpec.empty 1 false) in
  EmbeddingsSpec.multiply_by_sqrt_depth
    (TransformerEncoderSpec.embeddings (TransformerSpec.encoder r.2)) = true /\
  EmbeddingsSpec.multiply_by_sqrt_depth
    (TransformerDecoderSpec.embeddings (TransformerSpec.decoder r.2)) = true.
Proof.
  intros r.
  destruct (embeddings_scale_flag_v1 (Fixtures.checkpoint_v1 [0])
              (TransformerSpec.empty 1 false) r.2) as (we & wd & He & Hd).
  - assert (r.1 = inr tt) as Hr by (vm_compute; reflexivity).
    fold r. rewrite <- Hr. destruct r; reflexivity.
  - rewrite He, Hd. split; reflexivity.
Defined.

(** ** Relative position tensors *)

Lemma getitem_ok {S} (variables : variables_t) name (s : S) a s' :
  getitem variables name s = (inr a, s') -> variables !! name = Some a /\ s' = s.
Proof.
  unfold getitem. destruct (variables !! name) as [v|]; [|discriminate].
  intros [= <- <-]. split; reflexivity.
Qed.

(** X6: the relative position tensors of an attention block are assigned by
    the generation-2 self-attention setter when [relative] is set, and then
    they are the two variables [layer/relative_position_keys] and
    [layer/relative_position_values] of the block, which the checkpoint
    must have.  Without [relative], and always in a cross-attention block
    and in generation 1, both attributes are left as they were, whether the
    setter returns or raises. *)
Theorem relative_position_attachment (variables : variables_t) (scope : string) :
  (forall spec spec',
     set_multi_head_attention_v2 variables scope true true spec = (inr tt, spec') ->
     exists rk rv,
       variables !! (scope +:+ "/layer/relative_position_keys") = Some rk /\
       variables !! (scope +:+ "/layer/relative_position_values") = Some rv /\
       MultiHeadAttentionSpec.relative_position_keys spec' = Some rk /\
       MultiHeadAttentionSpec.relative_position_values spec' = Some rv) /\
  (forall self_attention relative spec,
     self_attention = false \/ relative = false ->
     let spec' := (set_multi_head_attention_v2 variables scope self_attention relative spec).2 in
     MultiHeadAttentionSpec.relative_position_keys spec'
     = MultiHeadAttentionSpec.relative_position_keys spec /\
     MultiHeadAttentionSpec.relative_position_values spec'
     = MultiHeadAttentionSpec.relative_position_values spec) /\
  (forall self_attention spec,
     let spec' := (set_multi_head_attention variables scope self_attention spec).2 in
     MultiHeadAttentionSpec.relative_position_keys spec'
     = MultiHeadAttentionSpec.relative_position_keys spec /\
     MultiHeadAttentionSpec.relative_position_values spec'
     = MultiHeadAttentionSpec.relative_position_values spec).
Proof.
  split_and!.
  - intros spec spec' H. unfold set_multi_head_attention_v2 in H. cbv beta iota zeta in H.
    apply bind_ok in H as ([] & s1 & _ & H). apply bind_ok in H as ([] & s2 & H2 & H3).
    apply bind_ok in H2 as (q & ? & _ & H2). apply bind_ok in H2 as (k & ? & _ & H2).
    apply bind_ok in H2 as (v & ? & _ & H2). apply bind_ok in H2 as ([] & ? & _ & H2).
    apply bind_ok in H2 as (rk & ? & Hrk & H2). apply getitem_ok in Hrk as [Hrk ->].
    apply bind_ok in H2 as ([] & ? & [= <-] & H2).
    apply bind_ok in H2 as (rv & ? & Hrv & H2). apply getitem_ok in Hrv as [Hrv ->].
    injection H2 as <-.
    apply zoom_run in H3 as (l' & _ & ->).
    exists rk, rv. split_and!; try assumption; reflexivity.
  - intros self_attention relative spec Hcase spec'. subst spec'.
    assert (keeps MultiHeadAttentionSpec.relative_position_keys
              (set_multi_head_attention_v2 variables scope self_attention relative) /\
            keeps MultiHeadAttentionSpec.relative_position_values
              (set_multi_head_attention_v2 variables scope self_attention relative)) as [Hk Hv].
    { unfold set_multi_head_attention_v2.
      destruct Hcase as [-> | ->]; [|destruct self_attention]; split; keeps_solve. }
    split; [apply Hk|apply Hv].
  - intros self_attention spec spec'. subst spec'.
    assert (keeps MultiHeadAttentionSpec.relative_position_keys
              (set_multi_head_attention variables scope self_attention) /\
            keeps MultiHeadAttentionSpec.relative_position_values
              (set_multi_head_attention variables scope self_attention)) as [Hk Hv].
    { unfold set_multi_head_attention. destruct self_attention; split; keeps_solve. }
    split; [apply Hk|apply Hv].
Qed.

Lemma relative_position_attachment_witness :
  let scope := "model/encoder/layers/0/self_attention" in
  let r := set_multi_head_attention_v2 Examples.checkpoint_v2_relative scope true true
             (MultiHeadAttentionSpec.empty true) in
  r.1 = inr tt /\
  MultiHeadAttentionSpec.relative_position_keys r.2 = Some (Fixtures.mat 3 2 40) /\
  MultiHeadAttentionSpec.relative_position_values r.2 = Some (Fixtures.mat 3 2 50).
Proof.
  intros scope r.
  assert (r.1 = inr tt) as Hr by (vm_compute; reflexivity). split; [exact Hr|].
  destruct (relative_position_attachment Examples.checkpoint_v2_relative scope) as (H & _).
  destruct (H (MultiHeadAttentionSpec.empty true) r.2) as (rk & rv & Hrk & Hrv & Hk & Hv).
  - fold r. rewrite <- Hr. destruct r; reflexivity.
  - rewrite Hk, Hv, <- Hrk, <- Hrv. split; vm_compute; reflexivity.
Defined.

(** ** Refusals of [_load] *)

(** X7: a checkpoint resolved as generation 1 is refused for a
    specification with relative position: [_load] raises
    [NotImplementedError] whatever the variables are, reads no vocabulary
    and leaves the specification exactly as it was. *)
Theorem generation_1_refuses_relative_position tf vocab_from_file self version
    (variables : option variables_arg) spec :
  OpenNMTTFConverter.resolve tf self = inr (version, variables) ->
  version < 2 ->
  TransformerSpec.with_relative_position spec = true ->
  OpenNMTTFConverter._load tf vocab_from_file self spec = (inl NotImplementedError, spec).
Proof.
  intros Hres Hv Hrel.
  assert (exists d, variables = Some (VarDict d)) as [d ->].
  { unfold OpenNMTTFConverter.resolve in Hres.
    destruct (OpenNMTTFConverter._model_path self) as [path|].
    - destruct (load_model tf path) as [e|[v d]]; [discriminate|].
      injection Hres as _ <-. eauto.
    - injection Hres as <- _. lia. }
  unfold OpenNMTTFConverter._load. rewrite Hres.
  unfold Eff.bind at 1. cbn [OpenNMTTFConverter.lift Eff.ret fst snd].
  replace (Nat.leb 2 version) with false by (symmetry; apply Nat.leb_gt; lia).
  cbn [OpenNMTTFConverter.with_variables].
  unfold Eff.bind at 1. unfold set_transformer_spec, Eff.bind at 1. unfold Eff.gets.
  rewrite Hrel. reflexivity.
Qed.

Lemma generation_1_refuses_relative_position_witness :
  let items := [("transformer/encoder/w_embs", Fixtures.src_embedding)] in
  let self :=
    OpenNMTTFConverter.mk (VocabList ["a"]) (VocabList ["b"]) (Some "run/model.ckpt-1") None in
  OpenNMTTFConverter._load (Fixtures.tf_of items) Fixtures.no_vocab_file self
    (TransformerSpec.empty 1 true)
  = (inl NotImplementedError, TransformerSpec.empty 1 true).
Proof.
  intros items self.
  apply (generation_1_refuses_relative_position (Fixtures.tf_of items) Fixtures.no_vocab_file
           self 1 (Some (VarDict (dict_of_items items)))).
  - reflexivity.
  - lia.
  - reflexivity.
Defined.

(** X8: a path that holds a SavedModel is refused: constructing the
    converter succeeds, and loading raises the [RuntimeError] of
    [load_model] before any variable or vocabulary is read, with the
    specification left exactly as it was. *)
Theorem saved_model_is_refused tf vocab_from_file src_vocab tgt_vocab model_path spec :
  contains_saved_model tf model_path = true ->
  construct_and_load tf vocab_from_file src_vocab tgt_vocab (Some model_path) None spec
  = (inl (RuntimeError
            "Converting the SavedModel format is not supported, please convert a TensorFlow checkpoint instead"),
     spec).
Proof.
  intros Hsaved. unfold construct_and_load, OpenNMTTFConverter.__init__.
  rewrite bool_decide_eq_false_2 by discriminate.
  rewrite bool_decide_eq_true_2 by reflexivity. cbn [Bool.eqb].
  unfold OpenNMTTFConverter._load, OpenNMTTFConverter.resolve.
  cbn [OpenNMTTFConverter._model_path]. unfold load_model. rewrite Hsaved.
  reflexivity.
Qed.

Lemma saved_model_is_refused_witness :
  exists msg,
    construct_and_load Examples.tf_saved_model Fixtures.no_vocab_file
      (VocabList ["a"]) (VocabList ["b"]) (Some "export/1") None (TransformerSpec.empty 1 false)
    = (inl (RuntimeError msg), TransformerSpec.empty 1 false).
Proof.
  eexists.
  apply (saved_model_is_refused Examples.tf_saved_model Fixtures.no_vocab_file
           (VocabList ["a"]) (VocabList ["b"]) "export/1" (TransformerSpec.empty 1 false)).
  reflexivity.
Defined.

(** ** Reading a checkpoint *)

Lemma append_cons (c : ascii) (a b : string) : String c a +:+ b = String c (a +:+ b).
Proof. reflexivity. Qed.

Lemma after_last_slash_free (file : string) :
  slash_free file = true -> after_last_slash file = None.
Proof.
  induction file as [|c r IH]; [reflexivity|]. cbn [slash_free after_last_slash].
  intros H. apply andb_true_iff in H as [Hc Hr]. rewrite (IH Hr).
  apply negb_true_iff in Hc. rewrite Hc. reflexivity.
Qed.

Lemma after_last_slash_dir (dir file : string) :
  slash_free file = true -> after_last_slash (dir +:+ "/" +:+ file) = Some file.
Proof.
  intros Hf. induction dir as [|c r IH].
  - change ("" +:+ "/" +:+ file) with (String "/" file). cbn [after_last_slash].
    rewrite (after_last_slash_free file Hf). reflexivity.
  - rewrite append_cons. cbn [after_last_slash]. rewrite IH. reflexivity.
Qed.

(** The items of a dict comprehension over a reader: each name of the list
    with the tensor read for it. *)
Lemma read_tensors_items (r : reader) (names : list string) :
  forall items, read_tensors r names = inr items ->
  (forall k v, (k, v) ∈ items -> k ∈ names /\ get_tensor r k = inr v) /\
  (forall k, k ∈ names -> exists v, get_tensor r k = inr v /\ (k, v) ∈ items).
Proof.
  induction names as [|name rest IH]; intros items H; cbn [read_tensors] in H.
  - injection H as <-. split.
    + intros k v Hin. apply elem_of_nil in Hin. destruct Hin.
    + intros k Hin. apply elem_of_nil in Hin. destruct Hin.
  - destruct (get_tensor r name) as [e|value] eqn:Hname; [discriminate|].
    destruct (read_tensors r rest) as [e|items'] eqn:Hrest; [discriminate|].
    injection H as <-. destruct (IH items' eq_refl) as [IH1 IH2]. split.
    + intros k v Hin. apply elem_of_cons in Hin as [[= -> ->]|Hin].
      * split; [apply list_elem_of_here|exact Hname].
      * destruct (IH1 k v Hin) as [Hk Hv]. split; [apply list_elem_of_further|]; assumption.
    + intros k Hin. apply elem_of_cons in Hin as [->|Hin].
      * exists value. split; [exact Hname|apply list_elem_of_here].
      * destruct (IH2 k Hin) as (v & Hv & Hkv). exists v.
        split; [exact Hv|apply list_elem_of_further; exact Hkv].
Qed.

(** A run of [load_model] that returned. *)
Lemma load_model_ok tf model_path version (variables : variables_t) :
  load_model tf model_path = inr (version, variables) ->
  exists checkpoint reader items,
    checkpoint_of tf model_path = Some checkpoint /\
    load_checkpoint tf (Some checkpoint) = inr reader /\
    read_tensors reader (variable_names reader) = inr items /\
    (version, variables) =
    if String.prefix "ckpt" (basename checkpoint)
    then (2, dict_of_items
               (List.map (fun kv => (remove_all "/.ATTRIBUTES/VARIABLE_VALUE" 0 kv.1, kv.2))
                         items))
    else (1, dict_of_items items).
Proof.
  unfold load_model. destruct (contains_saved_model tf model_path); [discriminate|].
  fold (checkpoint_of tf model_path).
  destruct (load_checkpoint tf (checkpoint_of tf model_path)) as [e|reader] eqn:Hreader;
    [discriminate|].
  destruct (read_tensors reader (variable_names reader)) as [e|items] eqn:Hitems;
    [discriminate|].
  destruct (checkpoint_of tf model_path) as [checkpoint|]; [|discriminate].
  intros H. exists checkpoint, reader, items. split_and!; try reflexivity; try assumption.
  destruct (String.prefix "ckpt" (basename checkpoint)); injection H as <- <-; reflexivity.
Qed.

(** X9: which generation [load_model] reports depends on the name of the
    checkpoint file alone.  When the path is not a SavedModel and the
    checkpoint read is [dir/file], or just [file], with no slash in [file]:
    an error raised by opening the checkpoint or by reading one of its
    tensors is the error of [load_model]; otherwise the variables are
    returned, with generation 2 if [file] starts with [ckpt] and with
    generation 1 if it does not, whatever the directory is called.  A
    directory without a checkpoint never yields variables. *)
Theorem generation_from_file_name tf model_path :
  contains_saved_model tf model_path = false ->
  (forall checkpoint dir file,
     checkpoint_of tf model_path = Some checkpoint ->
     slash_free file = true ->
     checkpoint = dir +:+ "/" +:+ file \/ checkpoint = file ->
     match load_checkpoint tf (Some checkpoint) with
     | inl e => load_model tf model_path = inl e
     | inr reader =>
         match read_tensors reader (variable_names reader) with
         | inl e => load_model tf model_path = inl e
         | inr _ =>
             exists variables,
               load_model tf model_path
               = inr (if String.prefix "ckpt" file then 2 else 1, variables)
         end
     end) /\
  (checkpoint_of tf model_path = None -> exists e, load_model tf model_path = inl e).
Proof.
  intros Hsaved. unfold load_model. rewrite Hsaved. fold (checkpoint_of tf model_path).
  split.
  - intros checkpoint dir file -> Hfile Hck.
    destruct (load_checkpoint tf (Some checkpoint)) as [e|reader]; [reflexivity|].
    destruct (read_tensors reader (variable_names reader)) as [e|items]; [reflexivity|].
    assert (basename checkpoint = file) as ->.
    { unfold basename. destruct Hck as [-> | ->].
      - rewrite (after_last_slash_dir dir file Hfile). reflexivity.
      - rewrite (after_last_slash_free file Hfile). reflexivity. }
    destruct (String.prefix "ckpt" file); eauto.
  - intros ->. destruct (load_checkpoint tf None) as [e|reader]; [eauto|].
    destruct (read_tensors reader (variable_names reader)) as [e|items]; eauto.
Qed.

(** A generation-1 file in a directory whose name starts with [ckpt], a
    generation-2 file in a directory whose name does not, a file that
    cannot be opened and a directory without a checkpoint. *)
Lemma generation_from_file_name_witness :
  (exists variables,
     load_model (Examples.tf_dir "model.ckpt-10" []) "ckpt_runs" = inr (1, variables)) /\
  (exists variables,
     load_model (Examples.tf_dir "ckpt-10" []) "runs" = inr (2, variables)) /\
  load_model Examples.tf_unreadable "ckpt-10" = inl (OpError "Unable to open table file") /\
  (exists e, load_model Examples.tf_empty_dir "runs" = inl e).
Proof.
  split_and!.
  - destruct (generation_from_file_name (Examples.tf_dir "model.ckpt-10" []) "ckpt_runs"
                eq_refl) as [H _].
    apply (H "ckpt_runs/model.ckpt-10" "ckpt_runs" "model.ckpt-10");
      [reflexivity|reflexivity|left; reflexivity].
  - destruct (generation_from_file_name (Examples.tf_dir "ckpt-10" []) "runs" eq_refl)
      as [H _].
    apply (H "runs/ckpt-10" "runs" "ckpt-10"); [reflexivity|reflexivity|left; reflexivity].
  - destruct (generation_from_file_name Examples.tf_unreadable "ckpt-10" eq_refl) as [H _].
    apply (H "ckpt-10" "" "ckpt-10"); [reflexivity|reflexivity|right; reflexivity].
  - destruct (generation_from_file_name Examples.tf_empty_dir "runs" eq_refl) as [_ H].
    apply H. reflexivity.
Defined.

(** The dict built from a list of items. *)
Lemma foldl_insert_lookup_Some (items : list (string * ndarray)) (k : string) (v : ndarray) :
  forall acc : variables_t,
    foldl (fun d kv => <[kv.1 := kv.2]> d) acc items !! k = Some v ->
    (k, v) ∈ items \/ acc !! k = Some v.
Proof.
  induction items as [|[k0 v0] items IH]; intros acc H; [right; exact H|].
  cbn [foldl] in H. apply IH in H as [H|H].
  - left. apply list_elem_of_further. exact H.
  - cbn [fst snd] in H. destruct (decide (k0 = k)) as [->|Hne].
    + rewrite lookup_insert_eq in H. injection H as ->. left. apply list_elem_of_here.
    + rewrite lookup_insert_ne in H by assumption. right. exact H.
Qed.

Lemma foldl_insert_lookup (items : list (string * ndarray)) (k : string) (v : ndarray) :
  (forall v', (k, v') ∈ items -> v' = v) ->
  forall acc : variables_t,
    (k, v) ∈ items \/ acc !! k = Some v ->
    foldl (fun d kv => <[kv.1 := kv.2]> d) acc items !! k = Some v.
Proof.
  induction items as [|[k0 v0] items IH]; intros Huniq acc H.
  - destruct H as [H|H]; [|exact H]. apply elem_of_nil in H. destruct H.
  - cbn [foldl fst snd]. apply IH.
    + intros v' Hv'. apply Huniq. apply list_elem_of_further. exact Hv'.
    + destruct (decide (k0 = k)) as [->|Hne].
      * right. rewrite lookup_insert_eq. f_equal. apply Huniq. apply list_elem_of_here.
      * destruct H as [H|H].
        -- apply elem_of_cons in H as [[= <- _]|H]; [congruence|]. left. exact H.
        -- right. rewrite lookup_insert_ne by assumption. exact H.
Qed.

(** X10: the variables [load_model] returns for a generation-1 checkpoint
    are the variables of the checkpoint under their own names: the
    checkpoint was opened, every name of the checkpoint was read and maps to
    its tensor, and no other name is in the dict. *)
Theorem load_model_generation_1_variables tf model_path (variables : variables_t) :
  load_model tf model_path = inr (1, variables) ->
  exists checkpoint reader,
    checkpoint_of tf model_path = Some checkpoint /\
    load_checkpoint tf (Some checkpoint) = inr reader /\
    (forall name, name ∈ variable_names reader ->
       exists value, get_tensor reader name = inr value /\ variables !! name = Some value) /\
    (forall name, name ∉ variable_names reader -> variables !! name = None).
Proof.
  intros H. apply load_model_ok in H as (checkpoint & reader & items & Hck & Hr & Hitems & H).
  exists checkpoint, reader. split; [exact Hck|]. split; [exact Hr|].
  destruct (String.prefix "ckpt" (basename checkpoint)); [discriminate|].
  injection H as ->. destruct (read_tensors_items _ _ _ Hitems) as [Hin Hall].
  unfold dict_of_items. split.
  - intros name Hname. destruct (Hall name Hname) as (v & Hv & Hkv). exists v.
    split; [exact Hv|]. apply foldl_insert_lookup; [|left; exact Hkv].
    intros v' Hv'. apply Hin in Hv' as [_ Hv']. congruence.
  - intros name Hnin.
    destruct (foldl _ _ _ !! name) as [v|] eqn:Hv; [|reflexivity].
    apply foldl_insert_lookup_Some in Hv as [Hv|Hv].
    + apply Hin in Hv as [Hv _]. contradiction.
    + rewrite lookup_empty in Hv. discriminate.
Qed.

Lemma load_model_generation_1_variables_witness :
  let tf := Fixtures.tf_of [("transformer/encoder/w_embs", Fixtures.src_embedding)] in
  exists variables,
    load_model tf "model.ckpt-1" = inr (1, variables) /\
    variables !! "transformer/encoder/w_embs" = Some Fixtures.src_embedding /\
    variables !! "transformer/decoder/w_embs" = None.
Proof.
  intros tf. eexists. split; [reflexivity|].
  destruct (load_model_generation_1_variables tf "model.ckpt-1" _ eq_refl)
    as (checkpoint & reader & [= <-] & [= <-] & Hin & Hout).
  split.
  - destruct (Hin "transformer/encoder/w_embs") as (value & [= <-] & Hv); [|exact Hv].
    apply (bool_decide_unpack _). vm_compute. exact I.
  - apply Hout. apply (bool_decide_unpack _). vm_compute. exact I.
Defined.

Lemma slash_dot_free_tail (c : ascii) (r : string) :
  slash_dot_free (String c r) = true -> slash_dot_free r = true.
Proof.
  destruct r as [|d r']; [reflexivity|]. cbn [slash_dot_free].
  intros H. apply andb_true_iff in H as [_ H]. exact H.
Qed.

(** Removing the attribute suffix from a name that ends with it. *)
Lemma remove_all_suffix (base : string) :
  slash_dot_free base = true ->
  remove_all "/.ATTRIBUTES/VARIABLE_VALUE" 0 (base +:+ "/.ATTRIBUTES/VARIABLE_VALUE") = base.
Proof.
  induction base as [|c r IH]; intros Hfree; [reflexivity|].
  rewrite append_cons. cbn [remove_all].
  assert (String.prefix "/.ATTRIBUTES/VARIABLE_VALUE"
            (String c (r +:+ "/.ATTRIBUTES/VARIABLE_VALUE")) = false) as ->.
  { cbn [String.prefix]. destruct (ascii_dec "/" c) as [<-|]; [|reflexivity].
    destruct r as [|d r'].
    - reflexivity.
    - rewrite append_cons. cbn [String.prefix].
      destruct (ascii_dec "." d) as [<-|]; [|reflexivity].
      cbn in Hfree. discriminate Hfree. }
  f_equal. apply IH. apply (slash_dot_free_tail c r Hfree).
Qed.

(** X11: the variables [load_model] returns for a generation-2 checkpoint
    are the variables of the checkpoint under their names with every
    [/.ATTRIBUTES/VARIABLE_VALUE] removed: the checkpoint was opened and
    every name of it was read; a name whose stripped form no variable with
    another tensor shares maps to its tensor, every key of the dict is the
    stripped form of a checkpoint name, and a name that ends with the suffix
    after a part free of ["/."] is stripped to that part. *)
Theorem load_model_generation_2_variables tf model_path (variables : variables_t) :
  load_model tf model_path = inr (2, variables) ->
  let strip := remove_all "/.ATTRIBUTES/VARIABLE_VALUE" 0 in
  exists checkpoint reader,
    checkpoint_of tf model_path = Some checkpoint /\
    load_checkpoint tf (Some checkpoint) = inr reader /\
    (forall name, name ∈ variable_names reader ->
       exists value,
         get_tensor reader name = inr value /\
         ((forall other, other ∈ variable_names reader -> strip other = strip name ->
             get_tensor reader other = get_tensor reader name) ->
          variables !! strip name = Some value)) /\
    (forall key, is_Some (variables !! key) ->
       exists name, name ∈ variable_names reader /\ strip name = key) /\
    (forall base, slash_dot_free base = true ->
       strip (base +:+ "/.ATTRIBUTES/VARIABLE_VALUE") = base).
Proof.
  intros H strip.
  apply load_model_ok in H as (checkpoint & reader & items & Hck & Hr & Hitems & H).
  exists checkpoint, reader. split; [exact Hck|]. split; [exact Hr|].
  destruct (String.prefix "ckpt" (basename checkpoint)); [|discriminate].
  injection H as ->. destruct (read_tensors_items _ _ _ Hitems) as [Hin Hall].
  unfold dict_of_items. split_and!.
  - intros name Hname. destruct (Hall name Hname) as (v & Hv & Hkv). exists v.
    split; [exact Hv|]. intros Huniq. apply foldl_insert_lookup.
    + intros v' Hv'. apply list_elem_of_In, in_map_iff in Hv' as ([n w] & [= Hk <-] & Hn).
      apply list_elem_of_In, Hin in Hn as [Hn Hw]. cbn [fst snd] in *.
      specialize (Huniq n Hn Hk). congruence.
    + left. apply list_elem_of_In, in_map_iff. exists (name, v). split; [reflexivity|].
      apply list_elem_of_In. exact Hkv.
  - intros key [v Hv]. apply foldl_insert_lookup_Some in Hv as [Hv|Hv].
    + apply list_elem_of_In, in_map_iff in Hv as ([n w] & [= <- <-] & Hn).
      apply list_elem_of_In, Hin in Hn as [Hn _].
      exists n. split; [exact Hn|reflexivity].
    + rewrite lookup_empty in Hv. discriminate.
  - apply remove_all_suffix.
Qed.

Lemma load_model_generation_2_variables_witness :
  let tf :=
    Fixtures.tf_of
      [("model/encoder/layer_norm/gamma/.ATTRIBUTES/VARIABLE_VALUE", Fixtures.vec 2 1%Z);
       ("save_counter/.ATTRIBUTES/VARIABLE_VALUE", Fixtures.vec 1 9%Z)] in
  exists variables,
    load_model tf "ckpt-1" = inr (2, variables) /\
    variables !! "model/encoder/layer_norm/gamma" = Some (Fixtures.vec 2 1%Z).
Proof.
  intros tf. eexists. split; [reflexivity|].
  destruct (load_model_generation_2_variables tf "ckpt-1" _ eq_refl)
    as (checkpoint & reader & [= <-] & [= <-] & Hin & _ & Hstrip).
  rewrite <- (Hstrip "model/encoder/layer_norm/gamma" eq_refl).
  destruct (Hin "model/encoder/layer_norm/gamma/.ATTRIBUTES/VARIABLE_VALUE")
    as (value & [= <-] & Hv).
  - apply (bool_decide_unpack _). vm_compute. exact I.
  - apply Hv. intros other Hother Heq.
    apply elem_of_cons in Hother as [->|Hother]; [reflexivity|].
    apply list_elem_of_singleton in Hother as ->. vm_compute in Heq. discriminate Heq.
Defined.

(** ** A completed [_load] *)

Lemma lift_ok {S A} (r : exn + A) (s : S) a s' :
  OpenNMTTFConverter.lift r s = (inr a, s') -> r = inr a /\ s' = s.
Proof. destruct r as [e|a0]; [discriminate|]. intros [= <- <-]. split; reflexivity. Qed.

Lemma with_variables_ok variables pipeline (s s' : TransformerSpec.t) :
  OpenNMTTFConverter.with_variables variables pipeline s = (inr tt, s') ->
  exists d, variables = Some (VarDict d) /\ pipeline d s = (inr tt, s').
Proof.
  destruct variables as [[d|]|]; try discriminate. cbn. eauto.
Qed.

(** X12: when [_load] returns, the tree is the one the setter pipeline of
    the resolved generation built from the resolved variables, the
    relative-position flag is untouched, and the vocabularies are the
    previous ones with ["source"] and ["target"] set to the loaded source
    and target vocabularies, each of which contains the unknown token. *)
Theorem _load_result tf vocab_from_file self spec spec' :
  OpenNMTTFConverter._load tf vocab_from_file self spec = (inr tt, spec') ->
  exists version variables spec1 src tgt,
    OpenNMTTFConverter.resolve tf self = inr (version, Some (VarDict variables)) /\
    (if Nat.leb 2 version
     then set_transformer_spec_v2 variables
     else set_transformer_spec variables) spec = (inr tt, spec1) /\
    _load_vocab vocab_from_file (OpenNMTTFConverter._src_vocab self) "<unk>" = inr src /\
    _load_vocab vocab_from_file (OpenNMTTFConverter._tgt_vocab self) "<unk>" = inr tgt /\
    "<unk>" ∈ src /\ "<unk>" ∈ tgt /\
    TransformerSpec.encoder spec' = TransformerSpec.encoder spec1 /\
    TransformerSpec.decoder spec' = TransformerSpec.decoder spec1 /\
    TransformerSpec.with_relative_position spec'
    = TransformerSpec.with_relative_position spec /\
    TransformerSpec.vocabulary spec'
    = <["target" := tgt]> (<["source" := src]> (TransformerSpec.vocabulary spec)).
Proof.
  unfold OpenNMTTFConverter._load. intros H.
  apply bind_ok in H as ([version variables] & ? & Hres & H). apply lift_ok in Hres as [Hres ->].
  apply bind_ok in H as ([] & spec1 & Hsetters & H). cbn [fst snd] in Hsetters.
  apply bind_ok in H as (src & ? & Hsrc & H). apply lift_ok in Hsrc as [Hsrc ->].
  apply bind_ok in H as ([] & ? & [= <-] & H).
  apply bind_ok in H as (tgt & ? & Htgt & H). apply lift_ok in Htgt as [Htgt ->].
  injection H as <-.
  assert (exists d, variables = Some (VarDict d) /\
            (if Nat.leb 2 version then set_transformer_spec_v2 d else set_transformer_spec d)
              spec = (inr tt, spec1)) as (d & -> & Hrun).
  { destruct (Nat.leb 2 version); apply with_variables_ok in Hsetters as (d & -> & Hd); eauto. }
  assert (TransformerSpec.with_relative_position spec1
          = TransformerSpec.with_relative_position spec /\
          TransformerSpec.vocabulary spec1 = TransformerSpec.vocabulary spec) as [Hrel Hvoc].
  { destruct (Nat.leb 2 version); split;
      (eapply keeps_run; [|exact Hrun]);
      unfold set_transformer_spec_v2, set_transformer_spec; keeps_solve. }
  exists version, d, spec1, src, tgt.
  split_and!; try assumption; try reflexivity.
  - apply (_load_vocab_has_unk _ _ _ _ Hsrc).
  - apply (_load_vocab_has_unk _ _ _ _ Htgt).
  - cbn. rewrite Hvoc. reflexivity.
Qed.

Lemma _load_result_witness :
  let self :=
    OpenNMTTFConverter.mk (VocabList ["a"]) (VocabObject ["b"; "<unk>"]) None
      (Some (VarDict (Fixtures.checkpoint_v2 [0]))) in
  let r := OpenNMTTFConverter._load (Fixtures.tf_of []) Fixtures.no_vocab_file self
             (TransformerSpec.empty 1 false) in
  r.1 = inr tt /\
  TransformerSpec.vocabulary r.2 = <["target" := ["b"; "<unk>"]]> (<["source" := ["a"; "<unk>"]]> ∅).
Proof.
  intros self r.
  assert (r.1 = inr tt) as Hr by (vm_compute; reflexivity). split; [exact Hr|].
  destruct (_load_result (Fixtures.tf_of []) Fixtures.no_vocab_file self
              (TransformerSpec.empty 1 false) r.2)
    as (version & d & spec1 & src & tgt & _ & _ & Hsrc & Htgt & _ & _ & _ & _ & _ & Hvoc).
  - fold r. rewrite <- Hr. destruct r; reflexivity.
  - rewrite Hvoc. injection Hsrc as <-. injection Htgt as <-. reflexivity.
Defined.

(** ** When a generation-1 conversion returns *)

Section Decides.

Context {St : Type} (I : St -> Prop).

Lemma decides_iff {A} (m : M St A) (P P' : Prop) (R R' : A -> Prop) :
  decides I m P R -> (P <-> P') -> (forall a, R a -> R' a) -> decides I m P' R'.
Proof.
  intros Hm HP HR s Hs. destruct (Hm s Hs) as [Hsucc Hpost]. split.
  - rewrite Hsucc. exact HP.
  - intros r s' Hrun. destruct (Hpost r s' Hrun) as (Hi & He & Ha). split_and!; auto.
Qed.

Lemma decides_ret {A} (a : A) (R : A -> Prop) : R a -> decides I (Eff.ret a) True R.
Proof.
  intros Ha s Hs. split.
  - split; [auto|]. intros _. exists a, s. reflexivity.
  - intros r s' [= <- <-]. split_and!; [assumption|discriminate|]. intros a' [= <-]. exact Ha.
Qed.

Lemma decides_gets {A} (f : St -> A) (R : A -> Prop) :
  (forall s, I s -> R (f s)) -> decides I (Eff.gets f) True R.
Proof.
  intros Hf s Hs. split.
  - split; [auto|]. intros _. exists (f s), s. reflexivity.
  - intros r s' [= <- <-]. split_and!; [assumption|discriminate|].
    intros a' [= <-]. apply Hf. exact Hs.
Qed.

Lemma decides_modify (f : St -> St) :
  (forall s, I s -> I (f s)) -> decides I (Eff.modify f) True (fun _ => True).
Proof.
  intros Hf s Hs. split.
  - split; [auto|]. intros _. exists tt, (f s). reflexivity.
  - intros r s' [= <- <-]. split_and!; [auto|discriminate|auto].
Qed.

Lemma decides_getitem (variables : variables_t) name :
  decides I (getitem variables name) (has variables name) (fun _ => True).
Proof.
  intros s Hs. unfold getitem, has. destruct (variables !! name) as [v|].
  - split.
    + split; [eauto|]. intros _. exists v, s. reflexivity.
    + intros r s' [= <- <-]. split_and!; [assumption|discriminate|auto].
  - split.
    + split; [intros (a & s' & [=])|intros [v [=]]].
    + intros r s' [= <- <-]. split_and!; [assumption| |discriminate].
      intros e [= <-]. eauto.
Qed.

Lemma decides_bind {A B} (m : M St A) (k : A -> M St B) (P Q : Prop)
    (R : A -> Prop) (R' : B -> Prop) :
  decides I m P R -> (forall a, R a -> decides I (k a) Q R') ->
  decides I (Eff.bind m k) (P /\ Q) R'.
Proof.
  intros Hm Hk s Hs. destruct (Hm s Hs) as [Hsucc Hpost]. unfold succeeds, Eff.bind in *.
  destruct (m s) as [[e|a] s1] eqn:Hrun.
  - destruct (Hpost _ _ eq_refl) as (Hi & He & _). split.
    + split; [intros (b & s' & [=])|]. intros [HP _]. apply Hsucc in HP as (a & s' & [=]).
    + intros r s' [= <- <-]. split_and!; [assumption| |discriminate].
      intros e0 [= <-]. apply (He e eq_refl).
  - destruct (Hpost _ _ eq_refl) as (Hi & _ & Ha). specialize (Ha a eq_refl).
    destruct (Hk a Ha s1 Hi) as [Hsucc' Hpost']. split.
    + rewrite Hsucc'. split; [|tauto]. intros HQ. split; [|exact HQ]. apply Hsucc. eauto.
    + exact Hpost'.
Qed.

Lemma decides_try {A} (m h : M St A) (P Q : Prop) (R : A -> Prop) :
  decides I m P R -> decides I h Q R ->
  decides I (Eff.try_except_KeyError m h) (P \/ Q) R.
Proof.
  intros Hm Hh s Hs. destruct (Hm s Hs) as [Hsucc Hpost].
  unfold succeeds, Eff.try_except_KeyError in *.
  destruct (m s) as [[e|a] s1] eqn:Hrun.
  - destruct (Hpost _ _ eq_refl) as (Hi & He & _). destruct (He e eq_refl) as [k ->].
    destruct (Hh s1 Hi) as [Hsucc' Hpost']. split; [|exact Hpost'].
    rewrite Hsucc'. split; [tauto|]. intros [HP|HQ]; [|exact HQ].
    apply Hsucc in HP as (a & s' & [=]).
  - split; [|exact Hpost]. split; [|eauto]. intros _. left. apply Hsucc. eauto.
Qed.

Lemma decides_zoom {T A} (J : T -> Prop) (get : St -> T) (put : T -> St -> St)
    (m : M T A) (P : Prop) (R : A -> Prop) :
  decides J m P R ->
  (forall s, I s -> J (get s)) -> (forall t s, I s -> J t -> I (put t s)) ->
  decides I (Eff.zoom get put m) P R.
Proof.
  intros Hm Hget Hput s Hs. destruct (Hm (get s) (Hget s Hs)) as [Hsucc Hpost].
  unfold succeeds, Eff.zoom in *. destruct (m (get s)) as [r t] eqn:Hrun.
  destruct (Hpost _ _ eq_refl) as (Hj & He & Ha). split.
  - rewrite <- Hsucc. split; intros (a & s' & [= -> _]); eauto.
  - intros r' s' [= <- <-]. split_and!; auto.
Qed.

Lemma decides_on_fresh {T A} (J : T -> Prop) (init : T) (m : M T A) (P : Prop)
    (R : A -> Prop) :
  decides J m P R -> J init -> decides I (Eff.on_fresh init m) P (fun _ => True).
Proof.
  intros Hm Hinit s Hs. destruct (Hm init Hinit) as [Hsucc Hpost].
  unfold succeeds, Eff.on_fresh in *. destruct (m init) as [[e|a] t] eqn:Hrun.
  - destruct (Hpost _ _ eq_refl) as (_ & He & _). split.
    + rewrite <- Hsucc. split; intros (a & s' & [=]).
    + intros r s' [= <- <-]. split_and!; [assumption| |discriminate].
      intros e0 [= <-]. apply (He e eq_refl).
  - split.
    + rewrite <- Hsucc. split; intros _; eauto.
    + intros r s' [= <- <-]. split_and!; [assumption|discriminate|auto].
Qed.

End Decides.

(** A setter run on [l[i]], for an index within a list of [n] entries. *)
Lemma decides_zoom_item {T A} (n k : nat) (i : Z) (m : M T A) (P : Prop) (R : A -> Prop) :
  Eff.py_index n i = Some k -> k < n ->
  decides (fun _ => True) m P R ->
  decides (fun l => length l = n) (Eff.zoom_item i m) P R.
Proof.
  intros Hi Hk Hm l Hl. unfold succeeds, Eff.zoom_item. rewrite Hl, Hi.
  destruct (lookup_lt_is_Some_2 l k ltac:(lia)) as [x Hx]. rewrite Hx.
  destruct (Hm x I) as [Hsucc Hpost]. unfold succeeds in Hsucc.
  destruct (m x) as [r x'] eqn:Hrun. destruct (Hpost _ _ eq_refl) as (_ & He & Ha). split.
  - rewrite <- Hsucc. split; intros (a & s' & [= -> _]); eauto.
  - intros r' l' [= <- <-]. split_and!; [|assumption|assumption].
    rewrite length_insert. exact Hl.
Qed.

(** A loop over [n] elements returns exactly when its body would return on
    each of them. *)
Lemma decides_for_enumerate {T} (J : T -> Prop) (body : nat -> M T unit)
    (P : nat -> Prop) :
  (forall j, decides J (body j) (P j) (fun _ => True)) ->
  forall n i,
    decides (fun l => length l = n /\ Forall J l) (Eff.for_enumerate body i)
      (forall j, j < n -> P (i + j)) (fun _ => True).
Proof.
  intros Hbody n. induction n as [|n IH]; intros i l [Hlen HJ].
  - destruct l; [|discriminate]. unfold succeeds. cbn [Eff.for_enumerate]. split.
    + split; [intros _ j Hj; lia|]. intros _. exists tt, []. reflexivity.
    + intros r l' [= <- <-]. split_and!; try discriminate; auto.
  - destruct l as [|x xs]; [discriminate|]. injection Hlen as Hlen.
    apply Forall_cons in HJ as [Hx Hxs]. unfold succeeds. cbn [Eff.for_enumerate].
    destruct (Hbody i x Hx) as [Hsucc Hpost]. unfold succeeds in Hsucc.
    destruct (body i x) as [[e|[]] x'] eqn:Hrun.
    + destruct (Hpost _ _ eq_refl) as (Hx' & He & _). split.
      * split; [intros (a & s' & [=])|]. intros HP.
        assert (P i) as HPi by (rewrite <- (Nat.add_0_r i); apply HP; lia).
        apply Hsucc in HPi as (a & s' & [=]).
      * intros r l' [= <- <-]. split; [|split; [assumption|discriminate]].
        split; [simpl; lia|]. apply Forall_cons. split; assumption.
    + destruct (Hpost _ _ eq_refl) as (Hx' & _ & _).
      destruct (IH (S i) xs (conj Hlen Hxs)) as [Hsucc' Hpost']. unfold succeeds in Hsucc'.
      destruct (Eff.for_enumerate body (S i) xs) as [r xs'] eqn:Hrest.
      destruct (Hpost' _ _ eq_refl) as ([Hlen' Hxs'] & He & _). split.
      * split.
        -- intros (a & s' & [= -> _]).
           assert (forall j, j < n -> P (S i + j)) as Hall by (apply Hsucc'; eauto).
           intros j Hj. destruct j as [|j].
           ++ rewrite Nat.add_0_r. apply Hsucc. eauto.
           ++ replace (i + S j) with (S i + j) by lia. apply Hall. lia.
        -- intros HP.
           assert (forall j, j < n -> P (S i + j)) as Hall.
           { intros j Hj. replace (S i + j) with (i + S j) by lia. apply HP. lia. }
           apply Hsucc' in Hall as (a & s' & [= -> _]). eauto.
      * intros r' l' [= <- <-]. split; [|split; [assumption|auto]].
        split; [simpl; lia|]. apply Forall_cons. split; assumption.
Qed.

Lemma decides_set_layer_norm variables scope :
  decides (fun _ => True) (set_layer_norm variables scope)
    (has_layer_norm variables scope) (fun _ => True).
Proof.
  intros s _. unfold succeeds, has_layer_norm, has. rewrite set_layer_norm_run.
  destruct (variables !! (scope +:+ "/gamma")) as [g|];
    [destruct (variables !! (scope +:+ "/beta")) as [b|]|].
  - split; [split; eauto|]. intros r s' [= <- <-]. split_and!; [auto|discriminate|auto].
  - split.
    + split; [intros (a & s' & [=])|intros [_ [b [=]]]].
    + intros r s' [= <- <-]. split_and!; [auto| |discriminate]. intros e [= <-]. eauto.
  - split.
    + split; [intros (a & s' & [=])|intros [[g [=]] _]].
    + intros r s' [= <- <-]. split_and!; [auto| |discriminate]. intros e [= <-]. eauto.
Qed.

Lemma decides_set_linear variables scope weight_name transpose_ :
  decides (fun _ => True) (set_linear variables scope weight_name transpose_)
    (has variables (default (scope +:+ "/kernel") weight_name)) (fun _ => True).
Proof.
  intros s _. unfold succeeds, has. rewrite set_linear_run.
  destruct (variables !! default (scope +:+ "/kernel") weight_name) as [w|].
  - split; [split; eauto|]. intros r s' [= <- <-]. split_and!; [auto|discriminate|auto].
  - split.
    + split; [intros (a & s' & [=])|intros [w [=]]].
    + intros r s' [= <- <-]. split_and!; [auto| |discriminate]. intros e [= <-]. eauto.
Qed.

(** The name [set_embeddings] returns is a variable of the checkpoint. *)
Lemma decides_set_embeddings variables scope version :
  decides (fun _ => True) (set_embeddings variables scope version)
    (has variables
       (scope +:+ "/" +:+ (if Nat.eqb version 2 then "embedding" else "w_embs")))
    (has variables).
Proof.
  intros s _. unfold succeeds, has. rewrite set_embeddings_run.
  destruct (variables !! _) as [w|] eqn:Hw.
  - split; [split; eauto|]. intros r s' [= <- <-]. split_and!; [auto|discriminate|].
    intros a [= <-]. rewrite Hw. eauto.
  - split.
    + split; [intros (a & s' & [=])|intros [w [=]]].
    + intros r s' [= <- <-]. split_and!; [auto| |discriminate]. intros e [= <-]. eauto.
Qed.

Ltac decides_trivial_zoom lem :=
  eapply decides_zoom;
    [ apply lem
    | intros; exact I
    | let Hs := fresh "Hs" in intros ? ? Hs ?; first [exact I | exact Hs] ].

Lemma decides_set_ffn variables scope :
  decides (fun _ => True) (set_ffn variables scope) (has_ffn variables scope) (fun _ => True).
Proof.
  unfold set_ffn. eapply decides_iff.
  - eapply decides_bind.
    { decides_trivial_zoom decides_set_layer_norm. }
    intros ? _. eapply decides_bind.
    { decides_trivial_zoom decides_set_linear. }
    intros ? _. decides_trivial_zoom decides_set_linear.
  - unfold has_ffn. cbv [default from_option id]. rewrite !append_assoc. tauto.
  - auto.
Qed.

(** [spec.linear[i]] of an attention block of the given arity. *)
Lemma decides_linear_item variables (self_attention : bool) (i : Z) (k : nat) scope :
  Eff.py_index (if self_attention then 2 else 3) i = Some k ->
  k < (if self_attention then 2 else 3) ->
  decides (attention_arity self_attention)
    (Eff.zoom MultiHeadAttentionSpec.linear MultiHeadAttentionSpec.set_linear
       (Eff.zoom_item i (set_linear variables scope None true)))
    (has variables (scope +:+ "/kernel")) (fun _ => True).
Proof.
  intros Hi Hk.
  eapply (decides_zoom _ (fun l => length l = if self_attention then 2 else 3)).
  - eapply decides_zoom_item; [exact Hi|exact Hk|apply decides_set_linear].
  - intros s Hs. exact Hs.
  - intros t s Hs Ht. exact Ht.
Qed.

Lemma decides_set_multi_head_attention variables scope self_attention :
  decides (attention_arity self_attention)
    (set_multi_head_attention variables scope self_attention)
    (has_attention variables scope self_attention) (fun _ => True).
Proof.
  unfold set_multi_head_attention. cbv zeta.
  destruct self_attention; cbn [negb]; eapply decides_iff.
  - eapply decides_bind.
    { decides_trivial_zoom decides_set_layer_norm. }
    intros ? _. eapply decides_bind.
    { apply (decides_linear_item variables true 0 0); [reflexivity|simpl; lia]. }
    intros ? _. eapply decides_bind.
    { apply (decides_linear_item variables true 1 1); [reflexivity|simpl; lia]. }
    intros ? _. apply (decides_ret _ tt (fun _ => True)). exact I.
  - unfold has_attention. rewrite !append_assoc. intuition discriminate.
  - auto.
  - eapply decides_bind.
    { decides_trivial_zoom decides_set_layer_norm. }
    intros ? _. eapply decides_bind.
    { apply (decides_linear_item variables false 0 0); [reflexivity|simpl; lia]. }
    intros ? _. eapply decides_bind.
    { apply (decides_linear_item variables false 1 1); [reflexivity|simpl; lia]. }
    intros ? _. apply (decides_linear_item variables false 2 2); [reflexivity|simpl; lia].
  - unfold has_attention. rewrite !append_assoc. intuition.
  - auto.
Qed.

Lemma decides_set_transformer_encoder_layer variables scope :
  decides encoder_layer_arity (set_transformer_encoder_layer variables scope)
    (has_ffn variables (scope +:+ "/ffn") /\
     has_attention variables (scope +:+ "/multi_head") true) (fun _ => True).
Proof.
  unfold set_transformer_encoder_layer. eapply decides_bind.
  { decides_trivial_zoom decides_set_ffn. }
  intros ? _. eapply decides_zoom; [apply decides_set_multi_head_attention| |].
  - intros s Hs. exact Hs.
  - intros t s _ Ht. exact Ht.
Qed.

Lemma decides_set_transformer_decoder_layer variables scope :
  decides decoder_layer_arity (set_transformer_decoder_layer variables scope)
    (has_ffn variables (scope +:+ "/ffn") /\
     has_attention variables (scope +:+ "/masked_multi_head") true /\
     has_attention variables (scope +:+ "/multi_head") false) (fun _ => True).
Proof.
  unfold set_transformer_decoder_layer. eapply decides_bind.
  { decides_trivial_zoom decides_set_ffn. }
  intros ? _. eapply decides_bind.
  { eapply decides_zoom; [apply decides_set_multi_head_attention| |].
    - intros s [Hs _]. exact Hs.
    - intros t s [_ Hs] Ht. split; assumption. }
  intros ? _. eapply decides_zoom; [apply decides_set_multi_head_attention| |].
  - intros s [_ Hs]. exact Hs.
  - intros t s [Hs _] Ht. split; assumption.
Qed.

Lemma decides_set_transformer_encoder variables n :
  decides (encoder_template n) (set_transformer_encoder variables)
    (has_layer_norm variables "transformer/encoder/LayerNorm" /\
     (has variables "transformer/encoder/w_embs" \/
      has variables "transformer/shared_embeddings/w_embs") /\
     forall i, i < n -> has_encoder_layer variables i) (fun _ => True).
Proof.
  unfold set_transformer_encoder. cbv zeta. eapply decides_iff.
  - eapply decides_bind.
    { decides_trivial_zoom decides_set_layer_norm. }
    intros ? _. eapply decides_bind.
    { eapply decides_try; decides_trivial_zoom decides_set_embeddings. }
    intros ? _.
    eapply (decides_zoom _ (fun l => length l = n /\ Forall encoder_layer_arity l)).
    + apply decides_for_enumerate. intros j.
      apply decides_set_transformer_encoder_layer.
    + intros s Hs. exact Hs.
    + intros t s _ Ht. exact Ht.
  - unfold has_encoder_layer. cbv zeta. cbn [Nat.add]. tauto.
  - auto.
Qed.

Lemma decides_set_transformer_decoder variables n :
  decides (decoder_template n) (set_transformer_decoder variables)
    ((has variables "transformer/decoder/w_embs" \/
      has variables "transformer/shared_embeddings/w_embs") /\
     has_layer_norm variables "transformer/decoder/LayerNorm" /\
     forall i, i < n -> has_decoder_layer variables i) (fun _ => True).
Proof.
  unfold set_transformer_decoder. cbv zeta. eapply decides_iff.
  - eapply decides_bind.
    { eapply decides_try; decides_trivial_zoom decides_set_embeddings. }
    intros name Hname. eapply decides_bind.
    { eapply (decides_iff _ _ _ True).
      - eapply decides_try; decides_trivial_zoom decides_set_linear.
      - split; [auto|]. intros _. right. exact Hname.
      - intros a Ha. exact Ha. }
    intros ? _. eapply decides_bind.
    { decides_trivial_zoom decides_set_layer_norm. }
    intros ? _.
    eapply (decides_zoom _ (fun l => length l = n /\ Forall decoder_layer_arity l)).
    + apply decides_for_enumerate. intros j.
      apply decides_set_transformer_decoder_layer.
    + intros s Hs. exact Hs.
    + intros t s _ Ht. exact Ht.
  - unfold has_decoder_layer. cbv zeta. cbn [Nat.add]. tauto.
  - auto.
Qed.

Lemma decides_set_transformer_spec variables n_enc n_dec :
  decides (absolute_template n_enc n_dec) (set_transformer_spec variables)
    (complete_v1 variables n_enc n_dec) (fun _ => True).
Proof.
  unfold set_transformer_spec. eapply decides_iff.
  - eapply decides_bind.
    { apply (decides_gets _ _ (fun r => r = false)). intros s [H _]. exact H. }
    intros relative ->. cbv iota. eapply decides_bind.
    { eapply decides_zoom; [apply (decides_set_transformer_encoder variables n_enc)| |].
      - intros s (_ & H & _). exact H.
      - intros t s (Hr & _ & Hd) Ht. split_and!; assumption. }
    intros ? _.
    eapply decides_zoom; [apply (decides_set_transformer_decoder variables n_dec)| |].
    + intros s (_ & _ & H). exact H.
    + intros t s (Hr & He & _) Ht. split_and!; assumption.
  - unfold complete_v1. tauto.
  - auto.
Qed.

(** X13: for a specification without relative position whose attention
    blocks have the arity of their constructors, the generation-1 pipeline
    returns exactly when the checkpoint has the two layer norms, the
    embeddings of each side under the per-side or the shared scope, and the
    tensors of every layer of the specification; when it does not return,
    it raises a [KeyError] naming a variable the checkpoint lacks.  No output
    projection is required. *)
Theorem generation_1_success_criterion (variables : variables_t) spec :
  template_arity spec ->
  TransformerSpec.with_relative_position spec = false ->
  let n_enc := length (TransformerEncoderSpec.layer (TransformerSpec.encoder spec)) in
  let n_dec := length (TransformerDecoderSpec.layer (TransformerSpec.decoder spec)) in
  ((exists spec', set_transformer_spec variables spec = (inr tt, spec')) <->
   complete_v1 variables n_enc n_dec) /\
  (forall e spec', set_transformer_spec variables spec = (inl e, spec') ->
     exists k, e = KeyError k /\ variables !! k = None).
Proof.
  intros [Henc Hdec] Hrel n_enc n_dec.
  assert (absolute_template n_enc n_dec spec) as Hs.
  { split_and!; [assumption|split; [reflexivity|assumption]|split; [reflexivity|assumption]]. }
  destruct (decides_set_transformer_spec variables n_enc n_dec spec Hs) as [Hsucc Hpost].
  split.
  - rewrite <- Hsucc. unfold succeeds. split.
    + intros [spec' H]. eauto.
    + intros ([] & spec' & H). eauto.
  - intros e spec' Hrun. destruct (Hpost _ _ Hrun) as (_ & He & _).
    destruct (He e eq_refl) as [k ->]. exists k. split; [reflexivity|].
    eapply ks_set_transformer_spec. exact Hrun.
Qed.

Lemma template_arity_empty (n : nat) (relative : bool) :
  template_arity (TransformerSpec.empty n relative).
Proof.
  split; cbn; apply Forall_forall; intros l Hl; apply list_elem_of_In, repeat_spec in Hl;
    subst l; repeat split.
Qed.

(** A checkpoint with blocks 0, 1, 2 and 4 is complete for three layers and
    not for five. *)
Lemma generation_1_success_criterion_witness :
  let variables := Fixtures.checkpoint_v1 [0; 1; 2; 4] in
  complete_v1 variables 3 3 /\ ~ complete_v1 variables 5 5.
Proof.
  intros variables. split.
  - destruct (generation_1_success_criterion variables (TransformerSpec.empty 3 false)
                (template_arity_empty 3 false) eq_refl) as [H _].
    apply H. exists (set_transformer_spec variables (TransformerSpec.empty 3 false)).2.
    assert ((set_transformer_spec variables (TransformerSpec.empty 3 false)).1 = inr tt) as Hr
      by (vm_compute; reflexivity).
    rewrite <- Hr. destruct (set_transformer_spec _ _); reflexivity.
  - destruct (generation_1_success_criterion variables (TransformerSpec.empty 5 false)
                (template_arity_empty 5 false) eq_refl) as [H _].
    intros Hc. apply H in Hc as [spec' Hrun].
    assert ((set_transformer_spec variables (TransformerSpec.empty 5 false)).1
            = inl (KeyError "transformer/encoder/layer_3/ffn/LayerNorm/gamma")) as Hr
      by (vm_compute; reflexivity).
    rewrite Hrun in Hr. discriminate Hr.
Defined.

(** ** What a generation-1 conversion returns *)

Lemma set_layer_norm_populated variables scope s s' :
  set_layer_norm variables scope s = (inr tt, s') -> populated_layer_norm s'.
Proof.
  rewrite set_layer_norm_run.
  destruct (variables !! (scope +:+ "/gamma")); [|discriminate].
  destruct (variables !! (scope +:+ "/beta")); [|discriminate].
  intros [= <-]. split; cbn; eauto.
Qed.

Lemma set_linear_populated variables scope weight_name transpose_ s s' :
  set_linear variables scope weight_name transpose_ s = (inr tt, s') -> populated_linear s'.
Proof.
  rewrite set_linear_run. destruct (variables !! _); [|discriminate].
  intros [= <-]. unfold populated_linear. cbn. eauto.
Qed.

Lemma set_ffn_populated variables scope s s' :
  set_ffn variables scope s = (inr tt, s') -> populated_ffn s'.
Proof.
  unfold set_ffn. intros H.
  apply bind_ok in H as ([] & s1 & H1 & H). apply bind_ok in H as ([] & s2 & H2 & H).
  apply zoom_run in H1 as (ln & H1 & ->). apply zoom_run in H2 as (l0 & H2 & ->).
  apply zoom_run in H as (l1 & H & ->).
  apply set_layer_norm_populated in H1. apply set_linear_populated in H2.
  apply set_linear_populated in H. split_and!; assumption.
Qed.

Lemma set_multi_head_attention_populated variables scope self_attention s s' :
  attention_arity self_attention s ->
  set_multi_head_attention variables scope self_attention s = (inr tt, s') ->
  populated_attention s' /\ attention_arity self_attention s'.
Proof.
  intros Harity H.
  assert (populated_layer_norm (MultiHeadAttentionSpec.layer_norm s')) as Hln.
  { pose proof H as H'. unfold set_multi_head_attention in H'. cbv zeta in H'.
    apply bind_ok in H' as ([] & s1 & H1 & H').
    apply (keeps_run MultiHeadAttentionSpec.layer_norm) in H';
      [|destruct self_attention; keeps_solve].
    rewrite H'. apply zoom_run in H1 as (ln & H1 & ->).
    apply set_layer_norm_populated in H1. exact H1. }
  unfold populated_attention, attention_arity in *. destruct self_attention.
  - apply set_multi_head_attention_self in H as (w0 & w1 & l0 & l1 & _ & _ & -> & H0 & H1);
      [|exact Harity].
    split; [split; [exact Hln|]|reflexivity].
    repeat first [apply Forall_cons_2 | apply Forall_nil_2]; unfold populated_linear; eauto.
  - apply set_multi_head_attention_cross in H
      as (w0 & w1 & w2 & l0 & l1 & l2 & _ & _ & _ & -> & H0 & H1 & H2); [|exact Harity].
    split; [split; [exact Hln|]|reflexivity].
    repeat first [apply Forall_cons_2 | apply Forall_nil_2]; unfold populated_linear; eauto.
Qed.

Lemma set_transformer_encoder_layer_populated variables scope s s' :
  encoder_layer_arity s ->
  set_transformer_encoder_layer variables scope s = (inr tt, s') ->
  populated_encoder_layer s' /\ encoder_layer_arity s'.
Proof.
  unfold set_transformer_encoder_layer. intros Harity H.
  apply bind_ok in H as ([] & s1 & H1 & H).
  apply zoom_run in H1 as (f & H1 & ->). apply zoom_run in H as (a & H & ->).
  apply set_ffn_populated in H1.
  apply set_multi_head_attention_populated in H as [H Ha]; [|exact Harity].
  split; [split; assumption|exact Ha].
Qed.

Lemma set_transformer_decoder_layer_populated variables scope s s' :
  decoder_layer_arity s ->
  set_transformer_decoder_layer variables scope s = (inr tt, s') ->
  populated_decoder_layer s' /\ decoder_layer_arity s'.
Proof.
  unfold set_transformer_decoder_layer. intros [Hself Hcross] H.
  apply bind_ok in H as ([] & s1 & H1 & H). apply bind_ok in H as ([] & s2 & H2 & H).
  apply zoom_run in H1 as (f & H1 & ->). apply zoom_run in H2 as (a & H2 & ->).
  apply zoom_run in H as (c & H & ->).
  apply set_ffn_populated in H1.
  apply set_multi_head_attention_populated in H2 as [H2 Ha]; [|exact Hself].
  apply set_multi_head_attention_populated in H as [H Hc]; [|exact Hcross].
  split; [split_and!; assumption|split; assumption].
Qed.

(** What holds of every element after a loop that returned. *)
Lemma for_enumerate_Forall {T} (J Q : T -> Prop) (body : nat -> M T unit) (l : list T) :
  (forall j x x', J x -> body j x = (inr tt, x') -> Q x') ->
  forall i l', Eff.for_enumerate body i l = (inr tt, l') -> Forall J l -> Forall Q l'.
Proof.
  intros Hbody. induction l as [|x xs IH]; intros i l' H HJ.
  - cbn [Eff.for_enumerate] in H. injection H as <-. apply Forall_nil_2.
  - cbn [Eff.for_enumerate] in H. apply Forall_cons in HJ as [Hx Hxs].
    destruct (body i x) as [[e|[]] x'] eqn:Hrun; [discriminate|].
    destruct (Eff.for_enumerate body (S i) xs) as [r xs'] eqn:Hrest.
    injection H as -> <-. apply Forall_cons_2.
    + eapply Hbody; eassumption.
    + eapply IH; eassumption.
Qed.

Lemma set_transformer_encoder_populated variables s s' :
  Forall encoder_layer_arity (TransformerEncoderSpec.layer s) ->
  set_transformer_encoder variables s = (inr tt, s') ->
  is_Some (EmbeddingsSpec.weight (TransformerEncoderSpec.embeddings s')) /\
  populated_layer_norm (TransformerEncoderSpec.layer_norm s') /\
  Forall populated_encoder_layer (TransformerEncoderSpec.layer s') /\
  Forall encoder_layer_arity (TransformerEncoderSpec.layer s').
Proof.
  intros Harity Hrun.
  destruct (set_transformer_encoder_node _ _ _ Hrun) as [w Hw].
  unfold set_transformer_encoder in Hrun.
  apply bind_ok in Hrun as ([] & s1 & H1 & H). apply bind_ok in H as (name & s2 & H2 & H).
  assert (TransformerEncoderSpec.layer s2 = TransformerEncoderSpec.layer s) as Hlayer.
  { apply (keeps_run TransformerEncoderSpec.layer) in H1; [|keeps_solve].
    apply (keeps_run TransformerEncoderSpec.layer) in H2; [|keeps_solve]. congruence. }
  assert (populated_layer_norm (TransformerEncoderSpec.layer_norm s')) as Hln.
  { apply (keeps_run TransformerEncoderSpec.layer_norm) in H; [|keeps_solve].
    apply (keeps_run TransformerEncoderSpec.layer_norm) in H2; [|keeps_solve].
    rewrite H, H2. apply zoom_run in H1 as (ln & H1 & ->).
    apply set_layer_norm_populated in H1. exact H1. }
  apply zoom_run in H as (l' & H & ->). rewrite Hlayer in H.
  split_and!.
  - rewrite Hw. cbn. eauto.
  - exact Hln.
  - eapply (for_enumerate_Forall encoder_layer_arity); [|exact H|exact Harity].
    intros j x x' Hx Hbody.
    apply (set_transformer_encoder_layer_populated _ _ _ _ Hx Hbody).
  - eapply (for_enumerate_Forall encoder_layer_arity); [|exact H|exact Harity].
    intros j x x' Hx Hbody.
    apply (set_transformer_encoder_layer_populated _ _ _ _ Hx Hbody).
Qed.

Lemma set_transformer_decoder_populated variables s s' :
  Forall decoder_layer_arity (TransformerDecoderSpec.layer s) ->
  set_transformer_decoder variables s = (inr tt, s') ->
  is_Some (EmbeddingsSpec.weight (TransformerDecoderSpec.embeddings s')) /\
  populated_layer_norm (TransformerDecoderSpec.layer_norm s') /\
  populated_linear (TransformerDecoderSpec.projection s') /\
  Forall populated_decoder_layer (TransformerDecoderSpec.layer s') /\
  Forall decoder_layer_arity (TransformerDecoderSpec.layer s').
Proof.
  intros Harity Hrun.
  destruct (set_transformer_decoder_node _ _ _ Hrun) as [w Hw].
  pose proof (set_transformer_decoder_projection _ _ _ Hrun) as Hproj.
  unfold set_transformer_decoder in Hrun.
  apply bind_ok in Hrun as (name & s1 & H1 & H). apply bind_ok in H as ([] & s2 & H2 & H).
  apply bind_ok in H as ([] & s3 & H3 & H).
  assert (TransformerDecoderSpec.layer s3 = TransformerDecoderSpec.layer s) as Hlayer.
  { apply (keeps_run TransformerDecoderSpec.layer) in H1; [|keeps_solve].
    apply (keeps_run TransformerDecoderSpec.layer) in H2; [|keeps_solve].
    apply (keeps_run TransformerDecoderSpec.layer) in H3; [|keeps_solve]. congruence. }
  assert (populated_layer_norm (TransformerDecoderSpec.layer_norm s')) as Hln.
  { apply (keeps_run TransformerDecoderSpec.layer_norm) in H; [|keeps_solve].
    rewrite H. apply zoom_run in H3 as (ln & H3 & ->).
    apply set_layer_norm_populated in H3. exact H3. }
  apply zoom_run in H as (l' & H & ->). rewrite Hlayer in H.
  split_and!.
  - rewrite Hw. cbn. eauto.
  - exact Hln.
  - unfold populated_linear. rewrite Hproj, Hw.
    destruct (variables !! "transformer/decoder/dense/kernel"); cbn; eauto.
  - eapply (for_enumerate_Forall decoder_layer_arity); [|exact H|exact Harity].
    intros j x x' Hx Hbody.
    apply (set_transformer_decoder_layer_populated _ _ _ _ Hx Hbody).
  - eapply (for_enumerate_Forall decoder_layer_arity); [|exact H|exact Harity].
    intros j x x' Hx Hbody.
    apply (set_transformer_decoder_layer_populated _ _ _ _ Hx Hbody).
Qed.

(** X14: the tree a generation-1 conversion returns for a specification of
    constructor arity is fully populated: both embeddings have a weight,
    every layer norm has its gamma and its beta, and every linear node (the
    output projection, the two of each feed-forward block and every entry
    of every attention block) has a weight.  The attention blocks keep
    their arity. *)
Theorem generation_1_result_is_populated (variables : variables_t) spec spec' :
  template_arity spec ->
  set_transformer_spec variables spec = (inr tt, spec') ->
  populated spec' /\ template_arity spec'.
Proof.
  intros [Henc Hdec] H. unfold set_transformer_spec in H.
  apply bind_ok in H as (relative & s0 & [= <- <-] & H).
  destruct (TransformerSpec.with_relative_position spec); [discriminate|].
  apply bind_ok in H as ([] & s1 & H1 & H).
  apply zoom_run in H1 as (e' & H1 & ->). apply zoom_run in H as (d' & H & ->).
  apply set_transformer_encoder_populated in H1 as (He1 & He2 & He3 & He4); [|exact Henc].
  apply set_transformer_decoder_populated in H as (Hd1 & Hd2 & Hd3 & Hd4 & Hd5);
    [|exact Hdec].
  split; [split; split_and!; assumption|split; assumption].
Qed.

Lemma generation_1_result_is_populated_witness :
  let r := set_transformer_spec (Fixtures.checkpoint_v1_shared [0; 1])
             (TransformerSpec.empty 2 false) in
  r.1 = inr tt /\ populated r.2.
Proof.
  intros r.
  assert (r.1 = inr tt) as Hr by (vm_compute; reflexivity). split; [exact Hr|].
  apply (generation_1_result_is_populated (Fixtures.checkpoint_v1_shared [0; 1])
           (TransformerSpec.empty 2 false) r.2 (template_arity_empty 2 false)).
  fold r. rewrite <- Hr. destruct r; reflexivity.
Defined.

(** ** Variables outside the model scope *)

Section Same.

Context {St : Type}.

Lemma same_refl {A} (m : M St A) : same m m.
Proof. intros s. reflexivity. Qed.

Lemma same_bind {A B} (m m' : M St A) (k k' : A -> M St B) :
  same m m' -> (forall a, same (k a) (k' a)) -> same (Eff.bind m k) (Eff.bind m' k').
Proof.
  intros Hm Hk s. unfold Eff.bind. rewrite <- (Hm s).
  destruct (m s) as [[e|a] s1]; [reflexivity|]. apply Hk.
Qed.

(** The continuation need only agree on values the first part can return. *)
Lemma same_bind_post {A B} (R : A -> Prop) (m m' : M St A) (k k' : A -> M St B) :
  same m m' -> (forall s a s', m s = (inr a, s') -> R a) ->
  (forall a, R a -> same (k a) (k' a)) -> same (Eff.bind m k) (Eff.bind m' k').
Proof.
  intros Hm HR Hk s. unfold Eff.bind. rewrite <- (Hm s).
  destruct (m s) as [[e|a] s1] eqn:Hrun; [reflexivity|]. apply Hk. eapply HR. exact Hrun.
Qed.

Lemma same_try {A} (m m' h h' : M St A) :
  same m m' -> same h h' ->
  same (Eff.try_except_KeyError m h) (Eff.try_except_KeyError m' h').
Proof.
  intros Hm Hh s. unfold Eff.try_except_KeyError. rewrite <- (Hm s).
  destruct (m s) as [[[]|a] s1]; try reflexivity. apply Hh.
Qed.

Lemma same_zoom {T A} (get : St -> T) (put : T -> St -> St) (m m' : M T A) :
  same m m' -> same (Eff.zoom get put m) (Eff.zoom get put m').
Proof. intros Hm s. unfold Eff.zoom. rewrite (Hm (get s)). reflexivity. Qed.

Lemma same_on_fresh {T A} (init : T) (m m' : M T A) :
  same m m' -> same (@Eff.on_fresh St T A init m) (Eff.on_fresh init m').
Proof. intros Hm s. unfold Eff.on_fresh. rewrite (Hm init). reflexivity. Qed.

Lemma same_if {A} (b : bool) (m1 m1' m2 m2' : M St A) :
  same m1 m1' -> same m2 m2' -> same (if b then m1 else m2) (if b then m1' else m2').
Proof. destruct b; auto. Qed.

Lemma same_zoom_item {A} (i : Z) (m m' : M St A) :
  same m m' -> same (Eff.zoom_item i m) (Eff.zoom_item i m').
Proof.
  intros Hm l. unfold Eff.zoom_item. destruct (Eff.py_index (length l) i) as [n|]; [|reflexivity].
  destruct (l !! n) as [x|]; [|reflexivity]. rewrite (Hm x). reflexivity.
Qed.

Lemma same_for_enumerate (body body' : nat -> M St unit) :
  (forall j, same (body j) (body' j)) ->
  forall i, same (Eff.for_enumerate body i) (Eff.for_enumerate body' i).
Proof.
  intros Hb i l. revert i. induction l as [|x xs IH]; intros i; [reflexivity|].
  cbn [Eff.for_enumerate]. rewrite (Hb i x).
  destruct (body' i x) as [[e|[]] x']; [reflexivity|]. rewrite (IH (S i)). reflexivity.
Qed.

Lemma same_getitem (v1 v2 : variables_t) name :
  v1 !! name = v2 !! name -> same (@getitem St v1 name) (getitem v2 name).
Proof. intros H s. unfold getitem. rewrite H. reflexivity. Qed.

End Same.

Lemma prefix_append (root scope suffix : string) :
  String.prefix root scope = true -> String.prefix root (scope +:+ suffix) = true.
Proof.
  revert scope. induction root as [|a r IH]; intros scope H.
  - destruct (scope +:+ suffix); reflexivity.
  - destruct scope as [|b s]; [discriminate H|]. rewrite append_cons.
    cbn [String.prefix] in *. destruct (ascii_dec a b); [|discriminate H]. apply IH. exact H.
Qed.

Section ReadsUnder.

Context (root : string) (v1 v2 : variables_t) (Hagree : agree_under root v1 v2).

Lemma same_set_layer_norm scope :
  String.prefix root scope = true ->
  same (set_layer_norm v1 scope) (set_layer_norm v2 scope).
Proof.
  intros Hs s. rewrite !set_layer_norm_run.
  rewrite !(Hagree _ (prefix_append root scope _ Hs)). reflexivity.
Qed.

Lemma same_set_linear scope weight_name transpose_ :
  String.prefix root scope = true ->
  (forall name, weight_name = Some name -> String.prefix root name = true) ->
  same (set_linear v1 scope weight_name transpose_) (set_linear v2 scope weight_name transpose_).
Proof.
  intros Hs Hw s. rewrite !set_linear_run.
  rewrite (Hagree (scope +:+ "/bias") (prefix_append root scope _ Hs)).
  assert (v1 !! default (scope +:+ "/kernel") weight_name
          = v2 !! default (scope +:+ "/kernel") weight_name) as ->; [|reflexivity].
  apply Hagree. destruct weight_name as [name|]; cbv [default from_option id].
  - apply Hw. reflexivity.
  - apply prefix_append. exact Hs.
Qed.

(** The same, for a scope that is only a prefix of the names read. *)
Lemma same_set_linear_names scope weight_name transpose_ :
  String.prefix root (scope +:+ "/bias") = true ->
  String.prefix root (default (scope +:+ "/kernel") weight_name) = true ->
  same (set_linear v1 scope weight_name transpose_) (set_linear v2 scope weight_name transpose_).
Proof.
  intros Hb Hw s. rewrite !set_linear_run.
  rewrite (Hagree _ Hb), (Hagree _ Hw). reflexivity.
Qed.

Lemma same_set_embeddings scope version :
  String.prefix root scope = true ->
  same (set_embeddings v1 scope version) (set_embeddings v2 scope version).
Proof.
  intros Hs s. pose proof (set_embeddings_run v1 scope version s) as H1.
  pose proof (set_embeddings_run v2 scope version s) as H2. cbv zeta in H1, H2.
  rewrite H1, H2. rewrite (Hagree _ (prefix_append root scope _ Hs)). reflexivity.
Qed.

(** The name [set_embeddings] returns is under the scope it was given. *)
Lemma set_embeddings_name (variables : variables_t) scope version s name s' :
  String.prefix root scope = true ->
  set_embeddings variables scope version s = (inr name, s') ->
  String.prefix root name = true.
Proof.
  intros Hs. pose proof (set_embeddings_run variables scope version s) as H. cbv zeta in H.
  rewrite H. destruct (variables !! _); [|discriminate].
  intros [= <- _]. apply prefix_append. exact Hs.
Qed.

End ReadsUnder.

Ltac solve_prefix :=
  first [ reflexivity | assumption | apply prefix_append; solve_prefix ].

Lemma fallback_name {S} root (lifted : M EmbeddingsSpec.t string -> M S string)
    (get : S -> EmbeddingsSpec.t) (put : EmbeddingsSpec.t -> S -> S)
    (variables : variables_t) scope1 scope2 version s name s' :
  (forall m s, lifted m s = Eff.zoom get put m s) ->
  (forall t s, get (put t s) = t) ->
  String.prefix root scope1 = true -> String.prefix root scope2 = true ->
  Eff.try_except_KeyError
    (lifted (set_embeddings variables scope1 version))
    (lifted (set_embeddings variables scope2 version)) s = (inr name, s') ->
  String.prefix root name = true.
Proof.
  intros Hl Hgp H1 H2 Hrun.
  apply (embeddings_fallback_run lifted get put) in Hrun; [|assumption|assumption].
  destruct (variables !! _).
  - destruct Hrun as [-> _]. apply prefix_append. exact H1.
  - destruct Hrun as (-> & _). apply prefix_append. exact H2.
Qed.

Ltac same_step root v1 v2 Hagree :=
  first
    [ apply same_refl
    | apply (same_set_layer_norm root v1 v2 Hagree); solve_prefix
    | apply (same_set_embeddings root v1 v2 Hagree); solve_prefix
    | apply (same_set_linear root v1 v2 Hagree);
        [ solve_prefix
        | let H := fresh in intros ? H; first [discriminate H | injection H as <-; assumption] ]
    | apply (same_set_linear_names root v1 v2 Hagree);
        [ reflexivity | cbv [default from_option id]; assumption ]
    | apply same_getitem; apply Hagree; solve_prefix
    | apply same_bind; [|intros ?]
    | apply same_try
    | apply same_zoom
    | apply same_zoom_item
    | apply same_on_fresh
    | apply same_for_enumerate; intros ?
    | apply same_if ].

Lemma same_set_transformer_encoder (v1 v2 : variables_t) :
  agree_under "transformer/" v1 v2 ->
  same (set_transformer_encoder v1) (set_transformer_encoder v2).
Proof.
  intros Hagree.
  unfold set_transformer_encoder, set_transformer_encoder_layer, set_ffn,
    set_multi_head_attention. cbv zeta.
  repeat same_step "transformer/" v1 v2 Hagree.
Qed.

Lemma same_set_transformer_decoder (v1 v2 : variables_t) :
  agree_under "transformer/" v1 v2 ->
  same (set_transformer_decoder v1) (set_transformer_decoder v2).
Proof.
  intros Hagree.
  unfold set_transformer_decoder, set_transformer_decoder_layer, set_ffn,
    set_multi_head_attention. cbv zeta.
  apply (same_bind_post (fun name => String.prefix "transformer/" name = true)).
  - repeat same_step "transformer/" v1 v2 Hagree.
  - intros s name s' Hrun.
    apply (fallback_name "transformer/" (Eff.zoom _ _) TransformerDecoderSpec.embeddings
             TransformerDecoderSpec.set_embeddings) in Hrun;
      [exact Hrun|reflexivity|reflexivity|reflexivity|reflexivity].
  - intros name Hname. repeat same_step "transformer/" v1 v2 Hagree.
Qed.

Lemma same_set_transformer_spec (v1 v2 : variables_t) :
  agree_under "transformer/" v1 v2 ->
  same (set_transformer_spec v1) (set_transformer_spec v2).
Proof.
  intros Hagree. unfold set_transformer_spec.
  apply same_bind; [apply same_refl|]. intros relative. apply same_if; [apply same_refl|].
  apply same_bind; [|intros ?]; apply same_zoom.
  - apply same_set_transformer_encoder. exact Hagree.
  - apply same_set_transformer_decoder. exact Hagree.
Qed.

Lemma same_set_transformer_spec_v2 (v1 v2 : variables_t) :
  agree_under "model/" v1 v2 ->
  same (set_transformer_spec_v2 v1) (set_transformer_spec_v2 v2).
Proof.
  intros Hagree.
  unfold set_transformer_spec_v2. cbv zeta.
  apply same_bind; [repeat same_step "model/" v1 v2 Hagree|]. intros _.
  apply (same_bind_post (fun name => String.prefix "model/" name = true)).
  - repeat same_step "model/" v1 v2 Hagree.
  - intros s name s' Hrun.
    apply (fallback_name "model/"
             (fun m => Eff.zoom TransformerSpec.decoder TransformerSpec.set_decoder
                         (Eff.zoom TransformerDecoderSpec.embeddings
                            TransformerDecoderSpec.set_embeddings m))
             (fun s => TransformerDecoderSpec.embeddings (TransformerSpec.decoder s))
             (fun u s => TransformerSpec.set_decoder
                           (TransformerDecoderSpec.set_embeddings u (TransformerSpec.decoder s)) s))
      in Hrun; [exact Hrun|intros; apply zoom_zoom|reflexivity|reflexivity|reflexivity].
  - intros name Hname.
    unfold set_transformer_encoder_v2, set_transformer_decoder_v2,
      set_transformer_encoder_layer_v2, set_transformer_decoder_layer_v2, set_ffn_v2,
      set_multi_head_attention_v2. cbv zeta.
    repeat same_step "model/" v1 v2 Hagree.
Qed.

Lemma agree_under_insert root (variables : variables_t) name x :
  String.prefix root name = false -> agree_under root (<[name := x]> variables) variables.
Proof.
  intros Hname k Hk. apply lookup_insert_ne. intros ->. congruence.
Qed.

Lemma agree_under_delete root (variables : variables_t) name :
  String.prefix root name = false -> agree_under root (delete name variables) variables.
Proof.
  intros Hname k Hk. apply lookup_delete_ne. intros ->. congruence.
Qed.

Lemma agree_under_symmetric root (v1 v2 : variables_t) :
  agree_under root v1 v2 -> agree_under root v2 v1.
Proof. intros H name Hname. symmetry. apply H. exact Hname. Qed.

(** X15: the generation-1 pipeline reads no variable whose name does not
    start with [transformer/]: on two checkpoints that agree on the names
    under that scope it returns the same outcome and the same tree, so
    adding, changing or removing any other variable (training state, a
    step counter) changes nothing. *)
Theorem generation_1_reads_transformer_scope (v1 v2 : variables_t) spec :
  (agree_under "transformer/" v1 v2 ->
   set_transformer_spec v1 spec = set_transformer_spec v2 spec) /\
  (forall name x, String.prefix "transformer/" name = false ->
     set_transformer_spec (<[name := x]> v1) spec = set_transformer_spec v1 spec /\
     set_transformer_spec (delete name v1) spec = set_transformer_spec v1 spec).
Proof.
  split.
  - intros Hagree. apply same_set_transformer_spec. exact Hagree.
  - intros name x Hname. split; apply same_set_transformer_spec.
    + apply agree_under_insert. exact Hname.
    + apply agree_under_delete. exact Hname.
Qed.

Lemma generation_1_reads_transformer_scope_witness :
  let variables := Fixtures.checkpoint_v1 [0] in
  let spec := TransformerSpec.empty 1 false in
  set_transformer_spec (<["global_step" := Fixtures.vec 1 7%Z]> variables) spec
  = set_transformer_spec variables spec.
Proof.
  intros variables spec.
  destruct (generation_1_reads_transformer_scope variables variables spec) as [_ H].
  apply (H "global_step" (Fixtures.vec 1 7%Z)). reflexivity.
Defined.

(** X16: the generation-2 pipeline reads no variable whose name does not
    start with [model/]: on two checkpoints that agree on the names under
    that scope it returns the same outcome and the same tree, so adding,
    changing or removing any other variable (optimizer slots, the save
    counter) changes nothing. *)
Theorem generation_2_reads_model_scope (v1 v2 : variables_t) spec :
  (agree_under "model/" v1 v2 ->
   set_transformer_spec_v2 v1 spec = set_transformer_spec_v2 v2 spec) /\
  (forall name x, String.prefix "model/" name = false ->
     set_transformer_spec_v2 (<[name := x]> v1) spec = set_transformer_spec_v2 v1 spec /\
     set_transformer_spec_v2 (delete name v1) spec = set_transformer_spec_v2 v1 spec).
Proof.
  split.
  - intros Hagree. apply same_set_transformer_spec_v2. exact Hagree.
  - intros name x Hname. split; apply same_set_transformer_spec_v2.
    + apply agree_under_insert. exact Hname.
    + apply agree_under_delete. exact Hname.
Qed.

Lemma generation_2_reads_model_scope_witness :
  let variables := Fixtures.checkpoint_v2 [0] in
  let spec := TransformerSpec.empty 1 false in
  set_transformer_spec_v2 (<["optimizer/iter" := Fixtures.vec 1 7%Z]> variables) spec
  = set_transformer_spec_v2 variables spec.
Proof.
  intros variables spec.
  destruct (generation_2_reads_model_scope variables variables spec) as [_ H].
  apply (H "optimizer/iter" (Fixtures.vec 1 7%Z)). reflexivity.
Defined.

(** ** The vocabularies during the setters *)

Lemma with_variables_keeps_vocabulary variables version :
  keeps TransformerSpec.vocabulary
    (if Nat.leb 2 version
     then OpenNMTTFConverter.with_variables variables set_transformer_spec_v2
     else OpenNMTTFConverter.with_variables variables set_transformer_spec).
Proof.
  destruct (Nat.leb 2 version), variables as [[d|]|]; cbn;
    unfold set_transformer_spec_v2, set_transformer_spec; keeps_solve.
Qed.

(** ** A loop that raised *)

Lemma for_enumerate_failure {T} (body : nat -> M T unit) (l : list T) :
  forall i e l', Eff.for_enumerate body i l = (inl e, l') ->
  stopped_at (fun j => body (i + j)) l l' e.
Proof.
  induction l as [|x xs IH]; intros i e l' H; [discriminate H|].
  cbn [Eff.for_enumerate] in H. destruct (body i x) as [[e0|[]] x'] eqn:Hx.
  - injection H as <- <-. exists 0, x, x'. rewrite Nat.add_0_r.
    split_and!; try reflexivity; [exact Hx|]. intros k y Hk. lia.
  - destruct (Eff.for_enumerate body (S i) xs) as [r xs'] eqn:Hrest.
    injection H as -> <-.
    destruct (IH (S i) e xs' Hrest) as (j & y & y' & Hj & Hbody & Hj' & Hdrop & Hbefore).
    exists (S j), y, y'. split_and!.
    + exact Hj.
    + replace (i + S j) with (S i + j) by lia. exact Hbody.
    + exact Hj'.
    + exact Hdrop.
    + intros k z Hk Hz. destruct k as [|k].
      * injection Hz as <-. rewrite Nat.add_0_r. eauto.
      * replace (i + S k) with (S i + k) by lia. apply (Hbefore k z); [lia|exact Hz].
Qed.

Lemma layer_loop_failure {S T} (get : S -> list T) (put : list T -> S -> S)
    (body : nat -> M T unit) (s s' : S) e :
  (forall t s, get (put t s) = t) ->
  Eff.zoom get put (Eff.for_enumerate body 0) s = (inl e, s') ->
  stopped_at body (get s) (get s') e.
Proof.
  intros Hgp H. apply zoom_run in H as (l' & H & ->). rewrite Hgp.
  apply (for_enumerate_failure body (get s) 0 e l' H).
Qed.

(** ** What a generation-2 conversion needs *)

Lemma decides_set_ffn_v2 variables scope :
  decides (fun _ => True) (set_ffn_v2 variables scope) (has_ffn_v2 variables scope)
    (fun _ => True).
Proof.
  unfold set_ffn_v2. eapply decides_iff.
  - eapply decides_bind.
    { decides_trivial_zoom decides_set_layer_norm. }
    intros ? _. eapply decides_bind.
    { decides_trivial_zoom decides_set_linear. }
    intros ? _. decides_trivial_zoom decides_set_linear.
  - unfold has_ffn_v2. cbv [default from_option id]. rewrite !append_assoc. tauto.
  - auto.
Qed.

Lemma decides_linear_item_v2 {A} (self_attention : bool) (i : Z) (k : nat)
    (m : M LinearSpec.t A) (P : Prop) (R : A -> Prop) :
  Eff.py_index (if self_attention then 2 else 3) i = Some k ->
  k < (if self_attention then 2 else 3) ->
  decides (fun _ => True) m P R ->
  decides (attention_arity self_attention)
    (Eff.zoom MultiHeadAttentionSpec.linear MultiHeadAttentionSpec.set_linear
       (Eff.zoom_item i m)) P R.
Proof.
  intros Hi Hk Hm.
  eapply (decides_zoom _ (fun l => length l = if self_attention then 2 else 3)).
  - eapply decides_zoom_item; [exact Hi|exact Hk|exact Hm].
  - intros s Hs. exact Hs.
  - intros t s Hs Ht. exact Ht.
Qed.

Lemma decides_fuse_linear layers :
  decides (fun _ => True) (fuse_linear layers) True (fun _ => True).
Proof. unfold fuse_linear. apply decides_modify. auto. Qed.

Lemma decides_split_layer variables scope (self_attention : bool) :
  decides (attention_arity self_attention)
    (Eff.on_fresh LinearSpec.empty (set_linear variables scope None true))
    (has variables (scope +:+ "/kernel")) (fun _ => True).
Proof.
  eapply (decides_on_fresh _ (fun _ => True)); [apply decides_set_linear|exact I].
Qed.

Lemma decides_set_multi_head_attention_v2 variables scope self_attention relative :
  decides (attention_arity self_attention)
    (set_multi_head_attention_v2 variables scope self_attention relative)
    (has_attention_v2 variables scope self_attention relative) (fun _ => True).
Proof.
  unfold set_multi_head_attention_v2. cbv zeta.
  destruct self_attention; [destruct relative|]; eapply decides_iff.
  - eapply decides_bind.
    { decides_trivial_zoom decides_set_layer_norm. }
    intros ? _. eapply decides_bind.
    { eapply decides_bind. { apply decides_split_layer. }
      intros q _. eapply decides_bind. { apply decides_split_layer. }
      intros k _. eapply decides_bind. { apply decides_split_layer. }
      intros v _. eapply decides_bind.
      { apply (decides_linear_item_v2 true 0 0); [reflexivity|simpl; lia|].
        apply decides_fuse_linear. }
      intros ? _. eapply decides_bind. { apply decides_getitem. }
      intros rk _. eapply decides_bind.
      { apply decides_modify. intros s Hs. exact Hs. }
      intros ? _. eapply decides_bind. { apply decides_getitem. }
      intros rv _. apply decides_modify. intros s Hs. exact Hs. }
    intros ? _. apply (decides_linear_item_v2 true (-1) 1); [reflexivity|simpl; lia|].
    apply decides_set_linear.
  - unfold has_attention_v2. cbv [default from_option id]. rewrite !append_assoc.
    intuition.
  - auto.
  - eapply decides_bind.
    { decides_trivial_zoom decides_set_layer_norm. }
    intros ? _. eapply decides_bind.
    { eapply decides_bind. { apply decides_split_layer. }
      intros q _. eapply decides_bind. { apply decides_split_layer. }
      intros k _. eapply decides_bind. { apply decides_split_layer. }
      intros v _. eapply decides_bind.
      { apply (decides_linear_item_v2 true 0 0); [reflexivity|simpl; lia|].
        apply decides_fuse_linear. }
      intros ? _. apply (decides_ret _ tt (fun _ => True)). exact I. }
    intros ? _. apply (decides_linear_item_v2 true (-1) 1); [reflexivity|simpl; lia|].
    apply decides_set_linear.
  - unfold has_attention_v2. cbv [default from_option id]. rewrite !append_assoc.
    intuition discriminate.
  - auto.
  - eapply decides_bind.
    { decides_trivial_zoom decides_set_layer_norm. }
    intros ? _. eapply decides_bind.
    { eapply decides_bind.
      { apply (decides_linear_item_v2 false 0 0); [reflexivity|simpl; lia|].
        apply decides_set_linear. }
      intros ? _. eapply decides_bind. { apply decides_split_layer. }
      intros k _. eapply decides_bind. { apply decides_split_layer. }
      intros v _. apply (decides_linear_item_v2 false 1 1); [reflexivity|simpl; lia|].
      apply decides_fuse_linear. }
    intros ? _. apply (decides_linear_item_v2 false (-1) 2); [reflexivity|simpl; lia|].
    apply decides_set_linear.
  - unfold has_attention_v2. cbv [default from_option id]. rewrite !append_assoc.
    intuition discriminate.
  - auto.
Qed.

Lemma decides_set_transformer_encoder_layer_v2 variables scope relative :
  decides encoder_layer_arity (set_transformer_encoder_layer_v2 variables scope relative)
    (has_ffn_v2 variables (scope +:+ "/ffn") /\
     has_attention_v2 variables (scope +:+ "/self_attention") true relative) (fun _ => True).
Proof.
  unfold set_transformer_encoder_layer_v2. eapply decides_bind.
  { decides_trivial_zoom decides_set_ffn_v2. }
  intros ? _. eapply decides_zoom; [apply decides_set_multi_head_attention_v2| |].
  - intros s Hs. exact Hs.
  - intros t s _ Ht. exact Ht.
Qed.

Lemma decides_set_transformer_decoder_layer_v2 variables scope relative :
  decides decoder_layer_arity (set_transformer_decoder_layer_v2 variables scope relative)
    (has_ffn_v2 variables (scope +:+ "/ffn") /\
     has_attention_v2 variables (scope +:+ "/self_attention") true relative /\
     has_attention_v2 variables (scope +:+ "/attention/0") false relative) (fun _ => True).
Proof.
  unfold set_transformer_decoder_layer_v2. eapply decides_bind.
  { decides_trivial_zoom decides_set_ffn_v2. }
  intros ? _. eapply decides_bind.
  { eapply decides_zoom; [apply decides_set_multi_head_attention_v2| |].
    - intros s [Hs _]. exact Hs.
    - intros t s [_ Hs] Ht. split; assumption. }
  intros ? _. eapply decides_zoom; [apply decides_set_multi_head_attention_v2| |].
  - intros s [_ Hs]. exact Hs.
  - intros t s [Hs _] Ht. split; assumption.
Qed.

Lemma decides_set_transformer_encoder_v2 variables relative n :
  decides (encoder_template n) (set_transformer_encoder_v2 variables "model/encoder" relative)
    (has_layer_norm variables "model/encoder/layer_norm" /\
     forall i, i < n -> has_encoder_layer_v2 variables relative i) (fun _ => True).
Proof.
  unfold set_transformer_encoder_v2. eapply decides_iff.
  - eapply decides_bind.
    { decides_trivial_zoom decides_set_layer_norm. }
    intros ? _.
    eapply (decides_zoom _ (fun l => length l = n /\ Forall encoder_layer_arity l)).
    + apply decides_for_enumerate. intros j.
      apply decides_set_transformer_encoder_layer_v2.
    + intros s Hs. exact Hs.
    + intros t s _ Ht. exact Ht.
  - unfold has_encoder_layer_v2. cbv zeta. cbn [Nat.add]. tauto.
  - auto.
Qed.

Lemma decides_set_transformer_decoder_v2 variables name relative n :
  has variables name ->
  decides (decoder_template n)
    (set_transformer_decoder_v2 variables "model/decoder" name relative)
    (has_layer_norm variables "model/decoder/layer_norm" /\
     forall i, i < n -> has_decoder_layer_v2 variables relative i) (fun _ => True).
Proof.
  intros Hname. unfold set_transformer_decoder_v2. cbv zeta. eapply decides_iff.
  - eapply decides_bind.
    { eapply (decides_iff _ _ _ True _ (fun _ => True)).
      - eapply decides_try.
        + eapply decides_bind.
          { decides_trivial_zoom decides_set_linear. }
          intros ? _. eapply decides_bind.
          { apply (decides_gets _ _ (fun _ => True)). auto. }
          intros tied _. destruct (negb tied).
          * eapply decides_zoom;
              [apply (decides_modify (fun _ => True)); auto|intros; exact I|].
            intros t s Hs _. exact Hs.
          * apply (decides_ret _ tt (fun _ => True)). exact I.
        + decides_trivial_zoom decides_set_linear.
      - split; [auto|]. intros _. right. exact Hname.
      - auto. }
    intros ? _. eapply decides_bind.
    { decides_trivial_zoom decides_set_layer_norm. }
    intros ? _.
    eapply (decides_zoom _ (fun l => length l = n /\ Forall decoder_layer_arity l)).
    + apply decides_for_enumerate. intros j.
      apply decides_set_transformer_decoder_layer_v2.
    + intros s Hs. exact Hs.
    + intros t s _ Ht. exact Ht.
  - unfold has_decoder_layer_v2. cbv zeta. cbn [Nat.add]. tauto.
  - auto.
Qed.

Lemma decides_set_transformer_spec_v2 variables relative n_enc n_dec :
  decides (template_of relative n_enc n_dec) (set_transformer_spec_v2 variables)
    (complete_v2 variables relative n_enc n_dec) (fun _ => True).
Proof.
  assert (forall scope,
    decides (template_of relative n_enc n_dec)
      (Eff.zoom TransformerSpec.decoder TransformerSpec.set_decoder
         (Eff.zoom TransformerDecoderSpec.embeddings TransformerDecoderSpec.set_embeddings
            (set_embeddings variables scope 2)))
      (has variables (scope +:+ "/embedding")) (has variables)) as Hdec.
  { intros scope. eapply (decides_zoom _ (decoder_template n_dec)).
    - eapply decides_zoom;
        [apply decides_set_embeddings|intros; exact I|intros t s Hs _; exact Hs].
    - intros s (_ & _ & H). exact H.
    - intros t s (Hr & He & _) Ht. split; [exact Hr|split; [exact He|exact Ht]]. }
  unfold set_transformer_spec_v2. cbv zeta. eapply decides_iff.
  - eapply decides_bind.
    { eapply (decides_zoom _ (encoder_template n_enc)).
      - eapply decides_zoom;
          [apply decides_set_embeddings|intros; exact I|intros t s Hs _; exact Hs].
      - intros s (_ & H & _). exact H.
      - intros t s (Hr & _ & Hd) Ht. split; [exact Hr|split; [exact Ht|exact Hd]]. }
    intros ? _. eapply decides_bind.
    { eapply decides_try; apply Hdec. }
    intros name Hname. eapply decides_bind.
    { apply (decides_gets _ _ (fun r => r = relative)). intros s [H _]. exact H. }
    intros rel1 ->. eapply decides_bind.
    { eapply decides_zoom;
        [apply (decides_set_transformer_encoder_v2 variables relative n_enc)| |].
      - intros s (_ & H & _). exact H.
      - intros t s (Hr & _ & Hd) Ht. split; [exact Hr|split; [exact Ht|exact Hd]]. }
    intros ? _. eapply decides_bind.
    { apply (decides_gets _ _ (fun r => r = relative)). intros s [H _]. exact H. }
    intros rel2 ->.
    eapply decides_zoom;
      [apply (decides_set_transformer_decoder_v2 variables name relative n_dec Hname)| |].
    + intros s (_ & _ & H). exact H.
    + intros t s (Hr & He & _) Ht. split; [exact Hr|split; [exact He|exact Ht]].
  - unfold complete_v2. cbv [String.append Nat.eqb]. tauto.
  - auto.
Qed.

(** ** Variables a generation-2 conversion does not need *)

Lemma has_delete (k : string) (variables : variables_t) (name : string) :
  name <> k -> has variables name -> has (delete k variables) name.
Proof. intros Hne H. unfold has. rewrite lookup_delete_ne by congruence. exact H. Qed.

Lemma avoids_append (scope x k : string) : avoids scope k -> avoids (scope +:+ x) k.
Proof. intros H suffix. rewrite append_assoc. apply H. Qed.

Lemma has_avoids (k : string) (variables : variables_t) (scope suffix : string) :
  avoids scope k -> has variables (scope +:+ suffix) ->
  has (delete k variables) (scope +:+ suffix).
Proof. intros Ha H. apply has_delete; [apply Ha|exact H]. Qed.

Lemma has_layer_norm_delete k variables scope :
  avoids scope k -> has_layer_norm variables scope ->
  has_layer_norm (delete k variables) scope.
Proof. intros Ha [Hg Hb]. split; apply has_avoids; assumption. Qed.

Lemma has_ffn_v2_delete k variables scope :
  avoids scope k -> has_ffn_v2 variables scope -> has_ffn_v2 (delete k variables) scope.
Proof.
  intros Ha (Hln & H0 & H1). split_and!.
  - apply has_layer_norm_delete; [apply avoids_append; exact Ha|exact Hln].
  - apply has_avoids; assumption.
  - apply has_avoids; assumption.
Qed.

Lemma has_attention_v2_delete k variables scope self_attention relative :
  avoids scope k -> has_attention_v2 variables scope self_attention relative ->
  has_attention_v2 (delete k variables) scope self_attention relative.
Proof.
  intros Ha (Hln & Hq & Hk & Hv & Ho & Hrel). unfold has_attention_v2. split_and!.
  - apply has_layer_norm_delete; [apply avoids_append; exact Ha|exact Hln].
  - apply has_avoids; assumption.
  - apply has_avoids; assumption.
  - apply has_avoids; assumption.
  - apply has_avoids; assumption.
  - intros Hs Hr. destruct (Hrel Hs Hr) as [Hrk Hrv]. split; apply has_avoids; assumption.
Qed.

Lemma complete_v2_delete k variables relative n_enc n_dec :
  avoids "model/encoder/" k -> avoids "model/decoder/layer" k ->
  k <> "model/examples_inputter/features_inputter/embedding" ->
  complete_v2 variables relative n_enc n_dec ->
  complete_v2 (delete k variables) relative n_enc n_dec.
Proof.
  intros Henc Hdec Hfeatures (Hf & (Hln & Hlayers) & (Hln' & Hlayers')).
  unfold complete_v2. split_and!.
  - apply has_delete; [congruence|exact Hf].
  - apply has_layer_norm_delete; [|exact Hln].
    apply (avoids_append "model/encoder/" "layer_norm"). exact Henc.
  - intros i Hi. destruct (Hlayers i Hi) as [Hffn Hatt].
    assert (avoids ("model/encoder/layers/" +:+ fmt_d i) k) as Ha.
    { apply (avoids_append "model/encoder/" ("layers/" +:+ fmt_d i)). exact Henc. }
    split.
    + apply has_ffn_v2_delete; [apply avoids_append; exact Ha|exact Hffn].
    + apply has_attention_v2_delete; [apply avoids_append; exact Ha|exact Hatt].
  - apply has_layer_norm_delete; [|exact Hln'].
    apply (avoids_append "model/decoder/layer" "_norm"). exact Hdec.
  - intros i Hi. destruct (Hlayers' i Hi) as (Hffn & Hself & Hcross).
    assert (avoids ("model/decoder/layers/" +:+ fmt_d i) k) as Ha.
    { apply (avoids_append "model/decoder/layer" ("s/" +:+ fmt_d i)). exact Hdec. }
    split_and!.
    + apply has_ffn_v2_delete; [apply avoids_append; exact Ha|exact Hffn].
    + apply has_attention_v2_delete; [apply avoids_append; exact Ha|exact Hself].
    + apply has_attention_v2_delete; [apply avoids_append; exact Ha|exact Hcross].
Qed.

(** X19: for a specification whose attention blocks have the arity of their
    constructors, the generation-2 pipeline returns only if the checkpoint
    has the features embedding, both final layer norms and, for every layer
    of the specification, the layer norms, the inner and outer kernels and
    the query, key, value and output kernels of each attention block,
    together with the relative position keys and values of every
    self-attention block when the specification uses relative position.
    The labels embedding and the output-layer kernel are not needed: on a
    checkpoint on which the pipeline returns, it still returns when both
    have been deleted. *)
Theorem generation_2_needs (variables : variables_t) spec :
  template_arity spec ->
  let returns variables :=
    exists spec', set_transformer_spec_v2 variables spec = (inr tt, spec') in
  (returns variables ->
   complete_v2 variables (TransformerSpec.with_relative_position spec)
     (length (TransformerEncoderSpec.layer (TransformerSpec.encoder spec)))
     (length (TransformerDecoderSpec.layer (TransformerSpec.decoder spec)))) /\
  (returns variables ->
   returns (delete "model/examples_inputter/labels_inputter/embedding"
              (delete "model/decoder/output_layer/kernel" variables))).
Proof.
  intros [Henc Hdec] returns.
  assert (template_of (TransformerSpec.with_relative_position spec)
            (length (TransformerEncoderSpec.layer (TransformerSpec.encoder spec)))
            (length (TransformerDecoderSpec.layer (TransformerSpec.decoder spec))) spec) as Hs.
  { split_and!; [reflexivity|split; [reflexivity|assumption]|split; [reflexivity|assumption]]. }
  assert (forall v, returns v <->
            complete_v2 v (TransformerSpec.with_relative_position spec)
              (length (TransformerEncoderSpec.layer (TransformerSpec.encoder spec)))
              (length (TransformerDecoderSpec.layer (TransformerSpec.decoder spec)))) as Hiff.
  { intros v. destruct (decides_set_transformer_spec_v2 v _ _ _ spec Hs) as [Hsucc _].
    rewrite <- Hsucc. unfold returns, succeeds. split.
    - intros [spec' H]. eauto.
    - intros ([] & spec' & H). eauto. }
  split.
  - apply Hiff.
  - intros H. apply Hiff. apply Hiff in H.
    apply complete_v2_delete;
      [intros suffix Heq; cbv [String.append] in Heq; discriminate Heq
      |intros suffix Heq; cbv [String.append] in Heq; discriminate Heq
      |discriminate|].
    apply complete_v2_delete;
      [intros suffix Heq; cbv [String.append] in Heq; discriminate Heq
      |intros suffix Heq; cbv [String.append] in Heq; discriminate Heq
      |discriminate|].
    exact H.
Qed.

(** A checkpoint for a specification with relative position: the tensors
    of layer 0 are there, the relative position tensors of both
    self-attention blocks included; and the conversion returns on it with
    and without a labels embedding and an output layer. *)
Lemma generation_2_needs_witness :
  let spec := TransformerSpec.empty 1 true in
  complete_v2 checkpoint_v2_relative_full true 1 1 /\
  has checkpoint_v2_relative_full
    "model/decoder/layers/0/self_attention/layer/relative_position_keys" /\
  (set_transformer_spec_v2 checkpoint_v2_relative_full spec).1 = inr tt /\
  exists spec',
    set_transformer_spec_v2
      (delete "model/examples_inputter/labels_inputter/embedding"
         (delete "model/decoder/output_layer/kernel" checkpoint_v2_relative_full)) spec
    = (inr tt, spec').
Proof.
  intros spec.
  assert ((set_transformer_spec_v2 checkpoint_v2_relative_full spec).1 = inr tt) as Hr
    by (vm_compute; reflexivity).
  assert (exists spec',
            set_transformer_spec_v2 checkpoint_v2_relative_full spec = (inr tt, spec'))
    as Hreturns.
  { exists (set_transformer_spec_v2 checkpoint_v2_relative_full spec).2.
    rewrite <- Hr. destruct (set_transformer_spec_v2 _ _); reflexivity. }
  destruct (generation_2_needs checkpoint_v2_relative_full spec (template_arity_empty 1 true))
    as [Hneeds Hdelete].
  pose proof (Hneeds Hreturns) as Hcomplete.
  split_and!.
  - exact Hcomplete.
  - destruct Hcomplete as (_ & _ & _ & Hdec).
    destruct (Hdec 0 Nat.lt_0_1) as (_ & (_ & _ & _ & _ & _ & Hrel) & _).
    destruct (Hrel eq_refl eq_refl) as [Hkeys _]. exact Hkeys.
  - exact Hr.
  - exact (Hdelete Hreturns).
Defined.

(** * The layer loop *)

(** ** What each layer holds after the loop *)

Lemma for_enumerate_written {T} (body : nat -> M T unit) (l : list T) :
  forall i l', Eff.for_enumerate body i l = (inr tt, l') ->
  forall j x, l !! j = Some x ->
    exists x', body (i + j) x = (inr tt, x') /\ l' !! j = Some x'.
Proof.
  induction l as [|y ys IH]; intros i l' Hrun j x Hj; [discriminate Hj|].
  cbn [Eff.for_enumerate] in Hrun.
  destruct (body i y) as [[e|[]] y'] eqn:Hy; [discriminate|].
  destruct (Eff.for_enumerate body (S i) ys) as [r ys'] eqn:Hys.
  injection Hrun as -> <-.
  destruct j as [|j]; simpl in Hj.
  - injection Hj as <-. rewrite Nat.add_0_r. exists y'. split; [exact Hy|reflexivity].
  - replace (i + S j) with (S i + j) by lia.
    destruct (IH (S i) ys' Hys j x Hj) as (x' & Hx' & Hl'). exists x'.
    split; [exact Hx'|exact Hl'].
Qed.

Lemma layer_loop_written {S T} (get : S -> list T) (put : list T -> S -> S)
    (body : nat -> M T unit) (s s' : S) :
  (forall t s, get (put t s) = t) ->
  Eff.zoom get put (Eff.for_enumerate body 0) s = (inr tt, s') ->
  forall i, i < length (get s) ->
    exists x x', body i x = (inr tt, x') /\ get s' !! i = Some x'.
Proof.
  intros Hgp H i Hi. apply zoom_run in H as (l' & H & ->). rewrite Hgp.
  destruct (lookup_lt_is_Some_2 (get s) i Hi) as [x Hx].
  destruct (for_enumerate_written body (get s) 0 l' H i x Hx) as (x' & Hx' & Hl').
  exists x, x'. split; [exact Hx'|exact Hl'].
Qed.

Lemma set_ffn_gamma variables scope (s s' : FeedForwardSpec.t) :
  set_ffn variables scope s = (inr tt, s') ->
  exists g, variables !! (scope +:+ "/LayerNorm/gamma") = Some g /\
            LayerNormSpec.gamma (FeedForwardSpec.layer_norm s') = Some g.
Proof.
  unfold set_ffn. intros H. apply bind_ok in H as ([] & s1 & H1 & H).
  apply (keeps_run FeedForwardSpec.layer_norm) in H; [|keeps_solve]. rewrite H.
  apply zoom_run in H1 as (t & H1 & ->). rewrite set_layer_norm_run in H1.
  destruct (variables !! ((scope +:+ "/LayerNorm") +:+ "/gamma")) as [g|] eqn:Hg;
    [|discriminate].
  destruct (variables !! ((scope +:+ "/LayerNorm") +:+ "/beta")); [|discriminate].
  injection H1 as <-. exists g. rewrite append_assoc in Hg. split; [exact Hg|reflexivity].
Qed.

Lemma set_ffn_v2_gamma variables scope (s s' : FeedForwardSpec.t) :
  set_ffn_v2 variables scope s = (inr tt, s') ->
  exists g, variables !! (scope +:+ "/input_layer_norm/gamma") = Some g /\
            LayerNormSpec.gamma (FeedForwardSpec.layer_norm s') = Some g.
Proof.
  unfold set_ffn_v2. intros H. apply bind_ok in H as ([] & s1 & H1 & H).
  apply (keeps_run FeedForwardSpec.layer_norm) in H; [|keeps_solve]. rewrite H.
  apply zoom_run in H1 as (t & H1 & ->). rewrite set_layer_norm_run in H1.
  destruct (variables !! ((scope +:+ "/input_layer_norm") +:+ "/gamma")) as [g|] eqn:Hg;
    [|discriminate].
  destruct (variables !! ((scope +:+ "/input_layer_norm") +:+ "/beta")); [|discriminate].
  injection H1 as <-. exists g. rewrite append_assoc in Hg. split; [exact Hg|reflexivity].
Qed.

Lemma set_transformer_encoder_layer_gamma variables scope s s' :
  set_transformer_encoder_layer variables scope s = (inr tt, s') ->
  exists g, variables !! (scope +:+ "/ffn/LayerNorm/gamma") = Some g /\
            encoder_layer_gamma s' = Some g.
Proof.
  unfold set_transformer_encoder_layer, encoder_layer_gamma. intros H.
  apply bind_ok in H as ([] & s1 & H1 & H).
  apply (keeps_run TransformerEncoderLayerSpec.ffn) in H; [|keeps_solve]. rewrite H.
  apply zoom_run in H1 as (t & H1 & ->). apply set_ffn_gamma in H1 as (g & Hg & Ht).
  exists g. rewrite append_assoc in Hg. split; [exact Hg|exact Ht].
Qed.

Lemma set_transformer_decoder_layer_gamma variables scope s s' :
  set_transformer_decoder_layer variables scope s = (inr tt, s') ->
  exists g, variables !! (scope +:+ "/ffn/LayerNorm/gamma") = Some g /\
            decoder_layer_gamma s' = Some g.
Proof.
  unfold set_transformer_decoder_layer, decoder_layer_gamma. intros H.
  apply bind_ok in H as ([] & s1 & H1 & H).
  apply (keeps_run TransformerDecoderLayerSpec.ffn) in H; [|keeps_solve]. rewrite H.
  apply zoom_run in H1 as (t & H1 & ->). apply set_ffn_gamma in H1 as (g & Hg & Ht).
  exists g. rewrite append_assoc in Hg. split; [exact Hg|exact Ht].
Qed.

Lemma set_transformer_encoder_layer_v2_gamma variables scope relative s s' :
  set_transformer_encoder_layer_v2 variables scope relative s = (inr tt, s') ->
  exists g, variables !! (scope +:+ "/ffn/input_layer_norm/gamma") = Some g /\
            encoder_layer_gamma s' = Some g.
Proof.
  unfold set_transformer_encoder_layer_v2, encoder_layer_gamma. intros H.
  apply bind_ok in H as ([] & s1 & H1 & H).
  apply (keeps_run TransformerEncoderLayerSpec.ffn) in H; [|keeps_solve]. rewrite H.
  apply zoom_run in H1 as (t & H1 & ->). apply set_ffn_v2_gamma in H1 as (g & Hg & Ht).
  exists g. rewrite append_assoc in Hg. split; [exact Hg|exact Ht].
Qed.

Lemma set_transformer_decoder_layer_v2_gamma variables scope relative s s' :
  set_transformer_decoder_layer_v2 variables scope relative s = (inr tt, s') ->
  exists g, variables !! (scope +:+ "/ffn/input_layer_norm/gamma") = Some g /\
            decoder_layer_gamma s' = Some g.
Proof.
  unfold set_transformer_decoder_layer_v2, decoder_layer_gamma. intros H.
  apply bind_ok in H as ([] & s1 & H1 & H).
  apply (keeps_run TransformerDecoderLayerSpec.ffn) in H; [|keeps_solve]. rewrite H.
  apply zoom_run in H1 as (t & H1 & ->). apply set_ffn_v2_gamma in H1 as (g & Hg & Ht).
  exists g. rewrite append_assoc in Hg. split; [exact Hg|exact Ht].
Qed.

(** Layer [i] of a converted encoder or decoder holds block [i] of the
    checkpoint. *)
Lemma set_transformer_encoder_blocks variables s s' :
  set_transformer_encoder variables s = (inr tt, s') ->
  forall i, i < length (TransformerEncoderSpec.layer s) ->
    holds_block variables
      (fun i => "transformer/encoder/layer_" +:+ fmt_d i +:+ "/ffn/LayerNorm/gamma")
      encoder_layer_gamma (TransformerEncoderSpec.layer s') i.
Proof.
  unfold set_transformer_encoder. intros H i Hi.
  apply bind_ok in H as ([] & s1 & H1 & H). apply bind_ok in H as (? & s2 & H2 & H).
  apply (keeps_run TransformerEncoderSpec.layer) in H1; [|keeps_solve].
  apply (keeps_run TransformerEncoderSpec.layer) in H2; [|keeps_solve].
  rewrite <- H1, <- H2 in Hi.
  destruct (layer_loop_written _ _ _ _ _ (fun _ _ => eq_refl) H i Hi)
    as (y & y' & Hx & Hl).
  apply set_transformer_encoder_layer_gamma in Hx as (g & Hg & Hx).
  exists y', g. rewrite append_assoc in Hg. split_and!; assumption.
Qed.

Lemma set_transformer_decoder_blocks variables s s' :
  set_transformer_decoder variables s = (inr tt, s') ->
  forall i, i < length (TransformerDecoderSpec.layer s) ->
    holds_block variables
      (fun i => "transformer/decoder/layer_" +:+ fmt_d i +:+ "/ffn/LayerNorm/gamma")
      decoder_layer_gamma (TransformerDecoderSpec.layer s') i.
Proof.
  unfold set_transformer_decoder. intros H i Hi.
  apply bind_ok in H as (name & s1 & H1 & H). apply bind_ok in H as ([] & s2 & H2 & H).
  apply bind_ok in H as ([] & s3 & H3 & H).
  apply (keeps_run TransformerDecoderSpec.layer) in H1; [|keeps_solve].
  apply (keeps_run TransformerDecoderSpec.layer) in H2; [|keeps_solve].
  apply (keeps_run TransformerDecoderSpec.layer) in H3; [|keeps_solve].
  rewrite <- H1, <- H2, <- H3 in Hi.
  destruct (layer_loop_written _ _ _ _ _ (fun _ _ => eq_refl) H i Hi)
    as (y & y' & Hx & Hl).
  apply set_transformer_decoder_layer_gamma in Hx as (g & Hg & Hx).
  exists y', g. rewrite append_assoc in Hg. split_and!; assumption.
Qed.

Lemma set_transformer_encoder_v2_blocks variables scope relative s s' :
  set_transformer_encoder_v2 variables scope relative s = (inr tt, s') ->
  forall i, i < length (TransformerEncoderSpec.layer s) ->
    holds_block variables
      (fun i => scope +:+ "/layers/" +:+ fmt_d i +:+ "/ffn/input_layer_norm/gamma")
      encoder_layer_gamma (TransformerEncoderSpec.layer s') i.
Proof.
  unfold set_transformer_encoder_v2. intros H i Hi.
  apply bind_ok in H as ([] & s1 & H1 & H).
  apply (keeps_run TransformerEncoderSpec.layer) in H1; [|keeps_solve].
  rewrite <- H1 in Hi.
  destruct (layer_loop_written _ _ _ _ _ (fun _ _ => eq_refl) H i Hi)
    as (y & y' & Hx & Hl).
  apply set_transformer_encoder_layer_v2_gamma in Hx as (g & Hg & Hx).
  exists y', g. rewrite !append_assoc in Hg. split_and!; assumption.
Qed.

Lemma set_transformer_decoder_v2_blocks variables scope name relative s s' :
  set_transformer_decoder_v2 variables scope name relative s = (inr tt, s') ->
  forall i, i < length (TransformerDecoderSpec.layer s) ->
    holds_block variables
      (fun i => scope +:+ "/layers/" +:+ fmt_d i +:+ "/ffn/input_layer_norm/gamma")
      decoder_layer_gamma (TransformerDecoderSpec.layer s') i.
Proof.
  unfold set_transformer_decoder_v2. intros H i Hi.
  apply bind_ok in H as ([] & s1 & H1 & H). apply bind_ok in H as ([] & s2 & H2 & H).
  apply (keeps_run TransformerDecoderSpec.layer) in H1; [|keeps_solve].
  apply (keeps_run TransformerDecoderSpec.layer) in H2; [|keeps_solve].
  rewrite <- H1, <- H2 in Hi.
  destruct (layer_loop_written _ _ _ _ _ (fun _ _ => eq_refl) H i Hi)
    as (y & y' & Hx & Hl).
  apply set_transformer_decoder_layer_v2_gamma in Hx as (g & Hg & Hx).
  exists y', g. rewrite !append_assoc in Hg. split_and!; assumption.
Qed.

Lemma ks_set_transformer_encoder variables :
  key_sound variables (set_transformer_encoder variables).
Proof.
  unfold set_transformer_encoder, set_transformer_encoder_layer, set_ffn,
    set_multi_head_attention.
  ks_setters.
Qed.

Lemma ks_set_transformer_decoder variables :
  key_sound variables (set_transformer_decoder variables).
Proof.
  unfold set_transformer_decoder, set_transformer_decoder_layer, set_ffn,
    set_multi_head_attention.
  ks_setters.
Qed.

Lemma ks_set_transformer_encoder_v2 variables scope relative :
  key_sound variables (set_transformer_encoder_v2 variables scope relative).
Proof.
  unfold set_transformer_encoder_v2, set_transformer_encoder_layer_v2, set_ffn_v2,
    set_multi_head_attention_v2.
  ks_setters.
Qed.

Lemma ks_set_transformer_decoder_v2 variables scope name relative :
  key_sound variables (set_transformer_decoder_v2 variables scope name relative).
Proof.
  unfold set_transformer_decoder_v2, set_transformer_decoder_layer_v2, set_ffn_v2,
    set_multi_head_attention_v2.
  ks_setters.
Qed.

(** A setter that [decides] on the nodes it is run on: a run that returned,
    and a run on a node for which the condition fails. *)
Lemma decides_returned {S A} (I : S -> Prop) (m : M S A) (P : Prop) (R : A -> Prop) s a s' :
  decides I m P R -> I s -> m s = (inr a, s') -> P.
Proof. intros Hm Hs Hrun. apply (Hm s Hs). exists a, s'. exact Hrun. Qed.

Lemma decides_raises {S A} (I : S -> Prop) (m : M S A) (P : Prop) (R : A -> Prop) s :
  decides I m P R -> I s -> ~ P -> exists k, (m s).1 = inl (KeyError k).
Proof.
  intros Hm Hs HP. destruct (Hm s Hs) as [Hsucc Hpost].
  destruct (m s) as [[e|a] s'] eqn:Hrun.
  - destruct (Hpost _ _ eq_refl) as (_ & He & _). destruct (He e eq_refl) as [k ->].
    exists k. reflexivity.
  - exfalso. apply HP, Hsucc. exists a, s'. exact Hrun.
Qed.

(** ** The number of layers, their content and a missing block *)

(** C1, as the code has it: the encoder and decoder setters of both
    generations loop over the layers of the specification they are given,
    in index order from 0.  Whatever the checkpoint holds, and whether the
    setter returns or raises, the number of layers afterwards is the number
    of layers of the template.  For a template whose attention blocks have
    the arity of their constructors, a setter returns only when the
    checkpoint has every tensor the setters read for every layer index
    below that number; layer [i] of the result then holds a tensor of block
    [i] of the checkpoint, the gamma of its feed-forward layer norm, and in
    generation 1 every array of every layer is assigned.  A block with a
    tensor missing makes the setter raise: in generation 1 the error is a
    [KeyError] whose key is a name absent from the checkpoint; in
    generation 2 the setter does not return, and a [KeyError] it raises
    carries a name absent from the checkpoint. *)
Theorem layer_count_from_template (variables : variables_t) :
  (forall spec,
     length (TransformerEncoderSpec.layer (set_transformer_encoder variables spec).2)
     = length (TransformerEncoderSpec.layer spec)) /\
  (forall spec,
     length (TransformerDecoderSpec.layer (set_transformer_decoder variables spec).2)
     = length (TransformerDecoderSpec.layer spec)) /\
  (forall scope relative spec,
     length (TransformerEncoderSpec.layer
               (set_transformer_encoder_v2 variables scope relative spec).2)
     = length (TransformerEncoderSpec.layer spec)) /\
  (forall scope name relative spec,
     length (TransformerDecoderSpec.layer
               (set_transformer_decoder_v2 variables scope name relative spec).2)
     = length (TransformerDecoderSpec.layer spec)) /\
  (forall spec n,
     encoder_template n spec ->
     let r := set_transformer_encoder variables spec in
     (r.1 = inr tt ->
      Forall populated_encoder_layer (TransformerEncoderSpec.layer r.2) /\
      forall i, i < n ->
        has_encoder_layer variables i /\
        holds_block variables
          (fun i => "transformer/encoder/layer_" +:+ fmt_d i +:+ "/ffn/LayerNorm/gamma")
          encoder_layer_gamma (TransformerEncoderSpec.layer r.2) i) /\
     (forall i, i < n -> ~ has_encoder_layer variables i ->
        exists k, r.1 = inl (KeyError k) /\ variables !! k = None)) /\
  (forall spec n,
     decoder_template n spec ->
     let r := set_transformer_decoder variables spec in
     (r.1 = inr tt ->
      Forall populated_decoder_layer (TransformerDecoderSpec.layer r.2) /\
      forall i, i < n ->
        has_decoder_layer variables i /\
        holds_block variables
          (fun i => "transformer/decoder/layer_" +:+ fmt_d i +:+ "/ffn/LayerNorm/gamma")
          decoder_layer_gamma (TransformerDecoderSpec.layer r.2) i) /\
     (forall i, i < n -> ~ has_decoder_layer variables i ->
        exists k, r.1 = inl (KeyError k) /\ variables !! k = None)) /\
  (forall relative spec n,
     encoder_template n spec ->
     let r := set_transformer_encoder_v2 variables "model/encoder" relative spec in
     (r.1 = inr tt ->
      forall i, i < n ->
        has_encoder_layer_v2 variables relative i /\
        holds_block variables
          (fun i => "model/encoder/layers/" +:+ fmt_d i +:+ "/ffn/input_layer_norm/gamma")
          encoder_layer_gamma (TransformerEncoderSpec.layer r.2) i) /\
     (forall i, i < n -> ~ has_encoder_layer_v2 variables relative i -> r.1 <> inr tt) /\
     (forall k, r.1 = inl (KeyError k) -> variables !! k = None)) /\
  (forall name relative spec n,
     decoder_template n spec ->
     has variables name ->
     let r := set_transformer_decoder_v2 variables "model/decoder" name relative spec in
     (r.1 = inr tt ->
      forall i, i < n ->
        has_decoder_layer_v2 variables relative i /\
        holds_block variables
          (fun i => "model/decoder/layers/" +:+ fmt_d i +:+ "/ffn/input_layer_norm/gamma")
          decoder_layer_gamma (TransformerDecoderSpec.layer r.2) i) /\
     (forall i, i < n -> ~ has_decoder_layer_v2 variables relative i -> r.1 <> inr tt) /\
     (forall k, r.1 = inl (KeyError k) -> variables !! k = None)).
Proof.
  split_and!.
  - intros spec. apply (set_transformer_encoder_keeps_length variables spec).
  - intros spec. apply (set_transformer_decoder_keeps_length variables spec).
  - intros scope relative spec.
    apply (set_transformer_encoder_v2_keeps_length variables scope relative spec).
  - intros scope name relative spec.
    apply (set_transformer_decoder_v2_keeps_length variables scope name relative spec).
  - intros spec n Hs r. pose proof (decides_set_transformer_encoder variables n) as Hd.
    split.
    + intros Hr. subst r.
      destruct (set_transformer_encoder variables spec) as [r0 spec'] eqn:Hrun.
      cbn [fst snd] in *. subst r0. split.
      { destruct (set_transformer_encoder_populated _ _ _ (proj2 Hs) Hrun)
          as (_ & _ & Hpopulated & _).
        exact Hpopulated. }
      intros i Hi. split.
      * apply (decides_returned _ _ _ _ _ _ _ Hd Hs Hrun). exact Hi.
      * apply (set_transformer_encoder_blocks _ _ _ Hrun). destruct Hs as [-> _]. exact Hi.
    + intros i Hi Hmissing.
      destruct (decides_raises _ _ _ _ spec Hd Hs) as [k Hk].
      { intros (_ & _ & Hall). apply Hmissing, Hall, Hi. }
      exists k. split; [exact Hk|].
      subst r. destruct (set_transformer_encoder variables spec) as [r0 spec'] eqn:Hrun.
      cbn [fst] in Hk. subst r0. exact (ks_set_transformer_encoder _ _ _ _ Hrun).
  - intros spec n Hs r. pose proof (decides_set_transformer_decoder variables n) as Hd.
    split.
    + intros Hr. subst r.
      destruct (set_transformer_decoder variables spec) as [r0 spec'] eqn:Hrun.
      cbn [fst snd] in *. subst r0. split.
      { destruct (set_transformer_decoder_populated _ _ _ (proj2 Hs) Hrun)
          as (_ & _ & _ & Hpopulated & _).
        exact Hpopulated. }
      intros i Hi. split.
      * apply (decides_returned _ _ _ _ _ _ _ Hd Hs Hrun). exact Hi.
      * apply (set_transformer_decoder_blocks _ _ _ Hrun). destruct Hs as [-> _]. exact Hi.
    + intros i Hi Hmissing.
      destruct (decides_raises _ _ _ _ spec Hd Hs) as [k Hk].
      { intros (_ & _ & Hall). apply Hmissing, Hall, Hi. }
      exists k. split; [exact Hk|].
      subst r. destruct (set_transformer_decoder variables spec) as [r0 spec'] eqn:Hrun.
      cbn [fst] in Hk. subst r0. exact (ks_set_transformer_decoder _ _ _ _ Hrun).
  - intros relative spec n Hs r.
    pose proof (decides_set_transformer_encoder_v2 variables relative n) as Hd.
    assert (r.1 = inr tt -> forall i, i < n -> has_encoder_layer_v2 variables relative i)
      as Hneeds.
    { intros Hr i Hi. subst r.
      destruct (set_transformer_encoder_v2 variables "model/encoder" relative spec)
        as [r0 spec'] eqn:Hrun.
      cbn [fst] in Hr. subst r0.
      apply (decides_returned _ _ _ _ _ _ _ Hd Hs Hrun). exact Hi. }
    split_and!.
    + intros Hr i Hi. split; [exact (Hneeds Hr i Hi)|]. subst r.
      destruct (set_transformer_encoder_v2 variables "model/encoder" relative spec)
        as [r0 spec'] eqn:Hrun.
      cbn [fst snd] in *. subst r0.
      apply (set_transformer_encoder_v2_blocks _ _ _ _ _ Hrun). destruct Hs as [-> _].
      exact Hi.
    + intros i Hi Hmissing Hr. exact (Hmissing (Hneeds Hr i Hi)).
    + intros k Hk. subst r.
      destruct (set_transformer_encoder_v2 variables "model/encoder" relative spec)
        as [r0 spec'] eqn:Hrun.
      cbn [fst] in Hk. subst r0. exact (ks_set_transformer_encoder_v2 _ _ _ _ _ _ Hrun).
  - intros name relative spec n Hs Hname r.
    pose proof (decides_set_transformer_decoder_v2 variables name relative n Hname) as Hd.
    assert (r.1 = inr tt -> forall i, i < n -> has_decoder_layer_v2 variables relative i)
      as Hneeds.
    { intros Hr i Hi. subst r.
      destruct (set_transformer_decoder_v2 variables "model/decoder" name relative spec)
        as [r0 spec'] eqn:Hrun.
      cbn [fst] in Hr. subst r0.
      apply (decides_returned _ _ _ _ _ _ _ Hd Hs Hrun). exact Hi. }
    split_and!.
    + intros Hr i Hi. split; [exact (Hneeds Hr i Hi)|]. subst r.
      destruct (set_transformer_decoder_v2 variables "model/decoder" name relative spec)
        as [r0 spec'] eqn:Hrun.
      cbn [fst snd] in *. subst r0.
      apply (set_transformer_decoder_v2_blocks _ _ _ _ _ _ Hrun). destruct Hs as [-> _].
      exact Hi.
    + intros i Hi Hmissing Hr. exact (Hmissing (Hneeds Hr i Hi)).
    + intros k Hk. subst r.
      destruct (set_transformer_decoder_v2 variables "model/decoder" name relative spec)
        as [r0 spec'] eqn:Hrun.
      cbn [fst] in Hk. subst r0.
      exact (ks_set_transformer_decoder_v2 _ _ _ _ _ _ _ Hrun).
Qed.

Lemma encoder_template_empty (n : nat) : encoder_template n (TransformerEncoderSpec.empty n).
Proof.
  split; cbn; [apply repeat_length|].
  apply Forall_forall; intros l Hl; apply list_elem_of_In, repeat_spec in Hl; subst l.
  reflexivity.
Qed.

Lemma decoder_template_empty (n : nat) : decoder_template n (TransformerDecoderSpec.empty n).
Proof.
  split; cbn; [apply repeat_length|].
  apply Forall_forall; intros l Hl; apply list_elem_of_In, repeat_spec in Hl; subst l.
  split; reflexivity.
Qed.

(** Checkpoints with blocks 0, 1, 2 and 4.  With templates of three layers
    the four setters return, block 2 had to be complete and layer 2 holds
    it; with a template of five layers the generation-1 encoder setter
    raises a [KeyError] for a name the checkpoint lacks, and the tree still
    has five layers. *)
Lemma layer_count_from_template_witness :
  let v1 := Fixtures.checkpoint_v1 [0; 1; 2; 4] in
  let v2 := Fixtures.checkpoint_v2 [0; 1; 2; 4] in
  (let r := set_transformer_encoder v1 (TransformerEncoderSpec.empty 3) in
   r.1 = inr tt /\ length (TransformerEncoderSpec.layer r.2) = 3 /\
   Forall populated_encoder_layer (TransformerEncoderSpec.layer r.2) /\
   has_encoder_layer v1 2 /\
   holds_block v1
     (fun i => "transformer/encoder/layer_" +:+ fmt_d i +:+ "/ffn/LayerNorm/gamma")
     encoder_layer_gamma (TransformerEncoderSpec.layer r.2) 2) /\
  (let r := set_transformer_encoder v1 (TransformerEncoderSpec.empty 5) in
   length (TransformerEncoderSpec.layer r.2) = 5 /\
   exists k, r.1 = inl (KeyError k) /\ v1 !! k = None) /\
  (let r := set_transformer_decoder v1 (TransformerDecoderSpec.empty 3) in
   r.1 = inr tt /\ has_decoder_layer v1 2 /\
   holds_block v1
     (fun i => "transformer/decoder/layer_" +:+ fmt_d i +:+ "/ffn/LayerNorm/gamma")
     decoder_layer_gamma (TransformerDecoderSpec.layer r.2) 2) /\
  (let r := set_transformer_encoder_v2 v2 "model/encoder" false
              (TransformerEncoderSpec.empty 3) in
   r.1 = inr tt /\ has_encoder_layer_v2 v2 false 2 /\
   holds_block v2
     (fun i => "model/encoder/layers/" +:+ fmt_d i +:+ "/ffn/input_layer_norm/gamma")
     encoder_layer_gamma (TransformerEncoderSpec.layer r.2) 2) /\
  (let r := set_transformer_decoder_v2 v2 "model/decoder"
              "model/examples_inputter/labels_inputter/embedding" false
              (TransformerDecoderSpec.empty 3) in
   r.1 = inr tt /\ has_decoder_layer_v2 v2 false 2 /\
   holds_block v2
     (fun i => "model/decoder/layers/" +:+ fmt_d i +:+ "/ffn/input_layer_norm/gamma")
     decoder_layer_gamma (TransformerDecoderSpec.layer r.2) 2).
Proof.
  intros v1 v2.
  destruct (layer_count_from_template v1) as (Hlen & _ & _ & _ & Henc & Hdec & _).
  destruct (layer_count_from_template v2) as (_ & _ & _ & _ & _ & _ & Henc2 & Hdec2).
  split_and!.
  - intros r. assert (r.1 = inr tt) as Hr by (vm_compute; reflexivity).
    destruct (Henc (TransformerEncoderSpec.empty 3) 3 (encoder_template_empty 3)) as [H _].
    destruct (H Hr) as [Hpopulated Hlayers].
    destruct (Hlayers 2 ltac:(lia)) as [Hhas Hblock].
    split; [exact Hr|]. split; [unfold r; rewrite Hlen; reflexivity|].
    split; [exact Hpopulated|]. split; [exact Hhas|exact Hblock].
  - intros r. split; [unfold r; rewrite Hlen; reflexivity|].
    destruct (Henc (TransformerEncoderSpec.empty 5) 5 (encoder_template_empty 5)) as [_ H].
    apply (H 3); [lia|]. intros [[[Hg _] _] _]. destruct Hg as [g Hg].
    vm_compute in Hg. discriminate Hg.
  - intros r. assert (r.1 = inr tt) as Hr by (vm_compute; reflexivity).
    destruct (Hdec (TransformerDecoderSpec.empty 3) 3 (decoder_template_empty 3)) as [H _].
    destruct (H Hr) as [_ Hlayers].
    destruct (Hlayers 2 ltac:(lia)) as [Hhas Hblock].
    split_and!; [exact Hr|exact Hhas|exact Hblock].
  - intros r. assert (r.1 = inr tt) as Hr by (vm_compute; reflexivity).
    destruct (Henc2 false (TransformerEncoderSpec.empty 3) 3 (encoder_template_empty 3))
      as [H _].
    destruct (H Hr 2 ltac:(lia)) as [Hhas Hblock].
    split_and!; [exact Hr|exact Hhas|exact Hblock].
  - intros r. assert (r.1 = inr tt) as Hr by (vm_compute; reflexivity).
    destruct (Hdec2 "model/examples_inputter/labels_inputter/embedding" false
                (TransformerDecoderSpec.empty 3) 3 (decoder_template_empty 3)) as [H _].
    { unfold has. apply (bool_decide_unpack _). vm_compute. exact I. }
    destruct (H Hr 2 ltac:(lia)) as [Hhas Hblock].
    split_and!; [exact Hr|exact Hhas|exact Hblock].
Defined.

(** * The linear entries of an attention block *)



(** * [_load], statement by statement *)

(** [_load] once the generation and the variables are resolved: the setter
    pipeline of that generation, then the source vocabulary, then the
    target vocabulary; the first statement that raises ends it. *)
Lemma _load_run tf vocab_from_file self spec version variables :
  OpenNMTTFConverter.resolve tf self = inr (version, variables) ->
  OpenNMTTFConverter._load tf vocab_from_file self spec =
  match (if Nat.leb 2 version
         then OpenNMTTFConverter.with_variables variables set_transformer_spec_v2
         else OpenNMTTFConverter.with_variables variables set_transformer_spec) spec with
  | (inl e, spec1) => (inl e, spec1)
  | (inr _, spec1) =>
      match _load_vocab vocab_from_file (OpenNMTTFConverter._src_vocab self) "<unk>" with
      | inl e => (inl e, spec1)
      | inr src =>
          match _load_vocab vocab_from_file (OpenNMTTFConverter._tgt_vocab self) "<unk>" with
          | inl e => (inl e, TransformerSpec.register_vocabulary "source" src spec1)
          | inr tgt =>
              (inr tt,
               TransformerSpec.register_vocabulary "target" tgt
                 (TransformerSpec.register_vocabulary "source" src spec1))
          end
      end
  end.
Proof.
  intros Hres. unfold OpenNMTTFConverter._load. rewrite Hres.
  unfold Eff.bind at 1. cbn [OpenNMTTFConverter.lift Eff.ret fst snd].
  unfold Eff.bind at 1.
  destruct ((if Nat.leb 2 version
             then OpenNMTTFConverter.with_variables variables set_transformer_spec_v2
             else OpenNMTTFConverter.with_variables variables set_transformer_spec) spec)
    as [[e|[]] spec1]; [reflexivity|].
  unfold Eff.bind at 1.
  destruct (_load_vocab vocab_from_file (OpenNMTTFConverter._src_vocab self) "<unk>")
    as [e|src]; [reflexivity|].
  cbn [OpenNMTTFConverter.lift Eff.ret]. unfold Eff.bind at 1. cbn [Eff.modify].
  unfold Eff.bind at 1.
  destruct (_load_vocab vocab_from_file (OpenNMTTFConverter._tgt_vocab self) "<unk>")
    as [e|tgt]; reflexivity.
Qed.

Lemma _load_resolve_error tf vocab_from_file self spec e :
  OpenNMTTFConverter.resolve tf self = inl e ->
  OpenNMTTFConverter._load tf vocab_from_file self spec = (inl e, spec).
Proof. intros Hres. unfold OpenNMTTFConverter._load. rewrite Hres. reflexivity. Qed.

(** ** Variables passed in memory *)

(** C10: a converter constructed with a dict of variables and no path
    loads them as generation 2, whatever names they carry and whatever is
    on disk.  Its [_load] runs the generation-2 pipeline on the dict, then
    loads and registers the two vocabularies, and does nothing else: an
    error of the pipeline is the error of [_load], and when the pipeline
    returns the tree is the one it built.  It is the [_load] of a
    generation-2 checkpoint holding the same variables, and it does not
    depend on the file system.  No name outside the generation-2 scope
    [model/] is consulted: a dict that agrees with it under that scope,
    whatever it holds under generation-1 names, gives the same outcome and
    the same tree; and a dict without the generation-2 source embedding (as
    a dict of generation-1 names is) makes [_load] raise the [KeyError] for
    that generation-2 name. *)
Theorem in_memory_variables_are_generation_2 tf vocab_from_file src_vocab tgt_vocab
    (d : variables_t) :
  exists self,
    OpenNMTTFConverter.__init__ src_vocab tgt_vocab None (Some (VarDict d)) = inr self /\
    OpenNMTTFConverter.resolve tf self = inr (2, Some (VarDict d)) /\
    (forall spec,
       OpenNMTTFConverter._load tf vocab_from_file self spec =
       match set_transformer_spec_v2 d spec with
       | (inl e, spec1) => (inl e, spec1)
       | (inr _, spec1) =>
           match _load_vocab vocab_from_file src_vocab "<unk>" with
           | inl e => (inl e, spec1)
           | inr src =>
               match _load_vocab vocab_from_file tgt_vocab "<unk>" with
               | inl e => (inl e, TransformerSpec.register_vocabulary "source" src spec1)
               | inr tgt =>
                   (inr tt,
                    TransformerSpec.register_vocabulary "target" tgt
                      (TransformerSpec.register_vocabulary "source" src spec1))
               end
           end
       end) /\
    (forall tf' spec,
       OpenNMTTFConverter._load tf' vocab_from_file self spec
       = OpenNMTTFConverter._load tf vocab_from_file self spec) /\
    (forall tf' path spec,
       load_model tf' path = inr (2, d) ->
       OpenNMTTFConverter._load tf vocab_from_file self spec
       = OpenNMTTFConverter._load tf' vocab_from_file
           (OpenNMTTFConverter.mk src_vocab tgt_vocab (Some path) None) spec) /\
    (forall d' spec,
       agree_under "model/" d d' ->
       OpenNMTTFConverter._load tf vocab_from_file
         (OpenNMTTFConverter.mk src_vocab tgt_vocab None (Some (VarDict d'))) spec
       = OpenNMTTFConverter._load tf vocab_from_file self spec) /\
    (d !! "model/examples_inputter/features_inputter/embedding" = None ->
     forall spec,
       (OpenNMTTFConverter._load tf vocab_from_file self spec).1
       = inl (KeyError "model/examples_inputter/features_inputter/embedding")).
Proof.
  exists (OpenNMTTFConverter.mk src_vocab tgt_vocab None (Some (VarDict d))).
  assert (forall tf0 d0 spec,
            OpenNMTTFConverter._load tf0 vocab_from_file
              (OpenNMTTFConverter.mk src_vocab tgt_vocab None (Some (VarDict d0))) spec =
            match set_transformer_spec_v2 d0 spec with
            | (inl e, spec1) => (inl e, spec1)
            | (inr _, spec1) =>
                match _load_vocab vocab_from_file src_vocab "<unk>" with
                | inl e => (inl e, spec1)
                | inr src =>
                    match _load_vocab vocab_from_file tgt_vocab "<unk>" with
                    | inl e => (inl e, TransformerSpec.register_vocabulary "source" src spec1)
                    | inr tgt =>
                        (inr tt,
                         TransformerSpec.register_vocabulary "target" tgt
                           (TransformerSpec.register_vocabulary "source" src spec1))
                    end
                end
            end) as Hrun.
  { intros tf0 d0 spec.
    apply (_load_run tf0 vocab_from_file
             (OpenNMTTFConverter.mk src_vocab tgt_vocab None (Some (VarDict d0))) spec 2
             (Some (VarDict d0))).
    reflexivity. }
  split_and!.
  - reflexivity.
  - reflexivity.
  - intros spec. apply Hrun.
  - intros tf' spec. rewrite !Hrun. reflexivity.
  - intros tf' path spec Hload.
    unfold OpenNMTTFConverter._load, OpenNMTTFConverter.resolve.
    cbn [OpenNMTTFConverter._model_path OpenNMTTFConverter._variables]. rewrite Hload.
    reflexivity.
  - intros d' spec Hagree. rewrite !Hrun.
    rewrite (same_set_transformer_spec_v2 d d' Hagree spec). reflexivity.
  - intros Hd spec. rewrite Hrun.
    pose proof (set_transformer_spec_v2_no_source_embedding d spec Hd) as H.
    destruct (set_transformer_spec_v2 d spec) as [r s1]. simpl in H. subst r. reflexivity.
Qed.

(** The generation-2 example checkpoint with a generation-1 name added,
    passed in memory: the conversion returns, the source embeddings are
    those of the generation-2 name and both vocabularies are registered;
    the result is that of the checkpoint without the generation-1 name.  A
    dict of generation-1 names alone raises. *)
Lemma in_memory_variables_are_generation_2_witness :
  let d := <["transformer/encoder/w_embs" := Fixtures.shared_embedding]>
             (Fixtures.checkpoint_v2 [0]) in
  let self d :=
    OpenNMTTFConverter.mk (VocabList ["a"]) (VocabList ["b"]) None (Some (VarDict d)) in
  let load d :=
    OpenNMTTFConverter._load (Fixtures.tf_of []) Fixtures.no_vocab_file (self d)
      (TransformerSpec.empty 1 false) in
  (load d).1 = inr tt /\
  EmbeddingsSpec.weight
    (TransformerEncoderSpec.embeddings (TransformerSpec.encoder (load d).2))
  = Some Fixtures.src_embedding /\
  TransformerSpec.vocabulary (load d).2
  = <["target" := ["b"; "<unk>"]]> (<["source" := ["a"; "<unk>"]]> ∅) /\
  load d = load (Fixtures.checkpoint_v2 [0]) /\
  (load (Fixtures.checkpoint_v1 [0])).1
  = inl (KeyError "model/examples_inputter/features_inputter/embedding").
Proof.
  intros d self load.
  destruct (in_memory_variables_are_generation_2 (Fixtures.tf_of []) Fixtures.no_vocab_file
              (VocabList ["a"]) (VocabList ["b"]) d)
    as (self' & Hinit & _ & Hrun & _ & _ & _ & _).
  injection Hinit as <-.
  destruct (in_memory_variables_are_generation_2 (Fixtures.tf_of []) Fixtures.no_vocab_file
              (VocabList ["a"]) (VocabList ["b"]) (Fixtures.checkpoint_v2 [0]))
    as (self2 & Hinit2 & _ & _ & _ & _ & Hsame & _).
  injection Hinit2 as <-.
  destruct (in_memory_variables_are_generation_2 (Fixtures.tf_of []) Fixtures.no_vocab_file
              (VocabList ["a"]) (VocabList ["b"]) (Fixtures.checkpoint_v1 [0]))
    as (self1 & Hinit1 & _ & _ & _ & _ & _ & Hmissing).
  injection Hinit1 as <-.
  split_and!.
  - unfold load, self. rewrite Hrun. vm_compute. reflexivity.
  - unfold load, self. rewrite Hrun. vm_compute. reflexivity.
  - unfold load, self. rewrite Hrun. vm_compute. reflexivity.
  - unfold load, self. apply Hsame. apply agree_under_symmetric, agree_under_insert.
    reflexivity.
  - unfold load, self. apply Hmissing. vm_compute. reflexivity.
Defined.

(** ** A failed [_load] *)

(** X17: where a [_load] that raises stops, and what it leaves.  An error
    of reading the checkpoint leaves the specification as it was.  After
    that the setter pipeline of the resolved generation runs; it never
    touches the vocabularies, and its error is the error of [_load], with
    the tree as the pipeline left it.  When the pipeline has returned, an
    error of loading the source vocabulary is the error of [_load] and no
    vocabulary is registered; when the source vocabulary has been loaded,
    an error of loading the target vocabulary is the error of [_load], and
    the source vocabulary, and only it, has been registered.  A [_load] that
    raises never registers the target vocabulary. *)
Theorem _load_failure_vocabularies tf vocab_from_file self spec :
  let load := OpenNMTTFConverter._load tf vocab_from_file self spec in
  (forall e, OpenNMTTFConverter.resolve tf self = inl e -> load = (inl e, spec)) /\
  (forall version variables r1 spec1,
     OpenNMTTFConverter.resolve tf self = inr (version, variables) ->
     (if Nat.leb 2 version
      then OpenNMTTFConverter.with_variables variables set_transformer_spec_v2
      else OpenNMTTFConverter.with_variables variables set_transformer_spec) spec
     = (r1, spec1) ->
     TransformerSpec.vocabulary spec1 = TransformerSpec.vocabulary spec /\
     (forall e, r1 = inl e -> load = (inl e, spec1)) /\
     (r1 = inr tt ->
      forall e,
        _load_vocab vocab_from_file (OpenNMTTFConverter._src_vocab self) "<unk>" = inl e ->
        load = (inl e, spec1)) /\
     (r1 = inr tt ->
      forall src e,
        _load_vocab vocab_from_file (OpenNMTTFConverter._src_vocab self) "<unk>" = inr src ->
        _load_vocab vocab_from_file (OpenNMTTFConverter._tgt_vocab self) "<unk>" = inl e ->
        load = (inl e, TransformerSpec.register_vocabulary "source" src spec1) /\
        TransformerSpec.vocabulary load.2
        = <["source" := src]> (TransformerSpec.vocabulary spec))) /\
  (forall e, load.1 = inl e ->
     TransformerSpec.vocabulary load.2 !! "target"
     = TransformerSpec.vocabulary spec !! "target").
Proof.
  intros load.
  assert (forall version variables r1 spec1,
            OpenNMTTFConverter.resolve tf self = inr (version, variables) ->
            (if Nat.leb 2 version
             then OpenNMTTFConverter.with_variables variables set_transformer_spec_v2
             else OpenNMTTFConverter.with_variables variables set_transformer_spec) spec
            = (r1, spec1) ->
            TransformerSpec.vocabulary spec1 = TransformerSpec.vocabulary spec) as Hkeeps.
  { intros version variables r1 spec1 _ Hrun.
    apply (keeps_run TransformerSpec.vocabulary) in Hrun; [exact Hrun|].
    apply with_variables_keeps_vocabulary. }
  split_and!.
  - intros e Hres. apply _load_resolve_error. exact Hres.
  - intros version variables r1 spec1 Hres Hrun.
    pose proof (Hkeeps _ _ _ _ Hres Hrun) as Hvoc.
    pose proof (_load_run tf vocab_from_file self spec version variables Hres) as Hload.
    fold load in Hload. rewrite Hrun in Hload. split_and!.
    + exact Hvoc.
    + intros e ->. exact Hload.
    + intros -> e Hsrc. rewrite Hsrc in Hload. exact Hload.
    + intros -> src e Hsrc Htgt. rewrite Hsrc, Htgt in Hload. split; [exact Hload|].
      rewrite Hload. cbn. rewrite Hvoc. reflexivity.
  - intros e He.
    destruct (OpenNMTTFConverter.resolve tf self) as [e0|[version variables]] eqn:Hres.
    + unfold load. rewrite (_load_resolve_error _ _ _ _ _ Hres). reflexivity.
    + pose proof (_load_run tf vocab_from_file self spec version variables Hres) as Hload.
      fold load in Hload.
      destruct ((if Nat.leb 2 version
                 then OpenNMTTFConverter.with_variables variables set_transformer_spec_v2
                 else OpenNMTTFConverter.with_variables variables set_transformer_spec) spec)
        as [r1 spec1] eqn:Hrun.
      pose proof (Hkeeps _ _ _ _ eq_refl Hrun) as Hvoc.
      destruct r1 as [e1|[]]; [rewrite Hload; cbn; rewrite Hvoc; reflexivity|].
      destruct (_load_vocab vocab_from_file (OpenNMTTFConverter._src_vocab self) "<unk>")
        as [e1|src]; [rewrite Hload; cbn; rewrite Hvoc; reflexivity|].
      destruct (_load_vocab vocab_from_file (OpenNMTTFConverter._tgt_vocab self) "<unk>")
        as [e1|tgt].
      * rewrite Hload. cbn. rewrite lookup_insert_ne by discriminate. rewrite Hvoc.
        reflexivity.
      * rewrite Hload in He. discriminate He.
Qed.

(** A target vocabulary of the wrong type, a source vocabulary of the wrong
    type, and a checkpoint that cannot be read. *)
Lemma _load_failure_vocabularies_witness :
  let load tf src tgt path variables :=
    OpenNMTTFConverter._load tf Fixtures.no_vocab_file
      (OpenNMTTFConverter.mk src tgt path variables) (TransformerSpec.empty 1 false) in
  let in_memory := Some (VarDict (Fixtures.checkpoint_v2 [0])) in
  (let r := load (Fixtures.tf_of []) (VocabList ["a"]) VocabOther None in_memory in
   r.1 = inl (TypeError "Invalid vocabulary type") /\
   TransformerSpec.vocabulary r.2 = <["source" := ["a"; "<unk>"]]> ∅) /\
  (let r := load (Fixtures.tf_of []) VocabOther (VocabList ["b"]) None in_memory in
   r.1 = inl (TypeError "Invalid vocabulary type") /\
   TransformerSpec.vocabulary r.2 = ∅) /\
  load Examples.tf_unreadable (VocabList ["a"]) (VocabList ["b"]) (Some "ckpt-1") None
  = (inl (OpError "Unable to open table file"), TransformerSpec.empty 1 false).
Proof.
  intros load in_memory. split_and!.
  - intros r.
    destruct (_load_failure_vocabularies (Fixtures.tf_of []) Fixtures.no_vocab_file
                (OpenNMTTFConverter.mk (VocabList ["a"]) VocabOther None in_memory)
                (TransformerSpec.empty 1 false)) as (_ & H & _).
    destruct (H 2 in_memory (inr tt)
                (set_transformer_spec_v2 (Fixtures.checkpoint_v2 [0])
                   (TransformerSpec.empty 1 false)).2) as (_ & _ & _ & Htgt).
    + reflexivity.
    + assert ((set_transformer_spec_v2 (Fixtures.checkpoint_v2 [0])
                 (TransformerSpec.empty 1 false)).1 = inr tt) as Hr
        by (vm_compute; reflexivity).
      cbn [Nat.leb OpenNMTTFConverter.with_variables in_memory]. rewrite <- Hr.
      destruct (set_transformer_spec_v2 _ _); reflexivity.
    + destruct (Htgt eq_refl ["a"; "<unk>"] (TypeError "Invalid vocabulary type"))
        as [Hload Hvoc]; [vm_compute; reflexivity|reflexivity|].
      split; [unfold r, load; rewrite Hload; reflexivity|exact Hvoc].
  - intros r.
    destruct (_load_failure_vocabularies (Fixtures.tf_of []) Fixtures.no_vocab_file
                (OpenNMTTFConverter.mk VocabOther (VocabList ["b"]) None in_memory)
                (TransformerSpec.empty 1 false)) as (_ & H & _).
    destruct (H 2 in_memory (inr tt)
                (set_transformer_spec_v2 (Fixtures.checkpoint_v2 [0])
                   (TransformerSpec.empty 1 false)).2) as (Hvoc & _ & Hsrc & _).
    + reflexivity.
    + assert ((set_transformer_spec_v2 (Fixtures.checkpoint_v2 [0])
                 (TransformerSpec.empty 1 false)).1 = inr tt) as Hr
        by (vm_compute; reflexivity).
      cbn [Nat.leb OpenNMTTFConverter.with_variables in_memory]. rewrite <- Hr.
      destruct (set_transformer_spec_v2 _ _); reflexivity.
    + unfold r, load.
      rewrite (Hsrc eq_refl (TypeError "Invalid vocabulary type") eq_refl).
      split; [reflexivity|exact Hvoc].
  - destruct (_load_failure_vocabularies Examples.tf_unreadable Fixtures.no_vocab_file
                (OpenNMTTFConverter.mk (VocabList ["a"]) (VocabList ["b"]) (Some "ckpt-1")
                   None)
                (TransformerSpec.empty 1 false)) as (H & _).
    apply H. reflexivity.
Defined.

(** ** A layer that cannot be converted *)

Lemma bind_assoc {S A B C} (m : M S A) (k : A -> M S B) (h : B -> M S C) (s : S) :
  Eff.bind m (fun a => Eff.bind (k a) h) s = Eff.bind (Eff.bind m k) h s.
Proof. unfold Eff.bind. destruct (m s) as [[e|a] s1]; reflexivity. Qed.

(** The statements before a layer loop, then the loop: when they return, an
    error is one of the loop; when they raise, no layer has been touched. *)
Lemma prefix_then_loop {S T A} (pre : M S A) (get : S -> list T) (put : list T -> S -> S)
    (body : nat -> M T unit) (P : Prop) (R : A -> Prop) (s : S) :
  decides (fun _ => True) pre P R ->
  keeps get pre ->
  (forall t s, get (put t s) = t) ->
  let r := Eff.bind pre (fun _ => Eff.zoom get put (Eff.for_enumerate body 0)) s in
  (P -> forall e, r.1 = inl e -> stopped_at body (get s) (get r.2) e) /\
  (~ P -> get r.2 = get s /\ exists k, r.1 = inl (KeyError k)).
Proof.
  intros Hd Hkeep Hgp. cbv zeta. destruct (Hd s I) as [Hsucc Hpost].
  unfold succeeds in Hsucc. unfold Eff.bind.
  pose proof (Hkeep s) as Hget. destruct (pre s) as [[e0|a] s1] eqn:Hpre.
  - cbn [fst snd] in *. split.
    + intros HP. apply Hsucc in HP as (? & ? & [=]).
    + intros _. split; [exact Hget|].
      destruct (Hpost _ _ eq_refl) as (_ & He & _). destruct (He e0 eq_refl) as [k ->].
      exists k. reflexivity.
  - cbn [snd] in Hget. split.
    + intros _ e He.
      destruct (Eff.zoom get put (Eff.for_enumerate body 0) s1) as [r s'] eqn:Hloop.
      cbn [fst snd] in *. subst r. rewrite <- Hget.
      exact (layer_loop_failure get put body s1 s' e Hgp Hloop).
    + intros HnP. exfalso. apply HnP, Hsucc. eauto.
Qed.

(** X18: when an encoder or decoder setter of either generation raises.
    If the checkpoint has what the statements before the layer loop read
    (the final layer norm and, where they are read, the embeddings), the
    loop stopped at the first layer whose setter raised: the error is that
    layer's, the layers before it are as their setter left them on
    returning, and the layers after it are untouched.  If it has not, the
    setter raises a [KeyError] before the loop and every layer is as it
    was. *)
Theorem layer_loop_stops_at_first_failure (variables : variables_t) :
  (forall s,
     let r := set_transformer_encoder variables s in
     let ready :=
       has_layer_norm variables "transformer/encoder/LayerNorm" /\
       (has variables "transformer/encoder/w_embs" \/
        has variables "transformer/shared_embeddings/w_embs") in
     (ready -> forall e, r.1 = inl e ->
        stopped_at
          (fun j => set_transformer_encoder_layer variables
                      ("transformer/encoder/layer_" +:+ fmt_d j))
          (TransformerEncoderSpec.layer s) (TransformerEncoderSpec.layer r.2) e) /\
     (~ ready ->
        TransformerEncoderSpec.layer r.2 = TransformerEncoderSpec.layer s /\
        exists k, r.1 = inl (KeyError k))) /\
  (forall s,
     let r := set_transformer_decoder variables s in
     let ready :=
       (has variables "transformer/decoder/w_embs" \/
        has variables "transformer/shared_embeddings/w_embs") /\
       has_layer_norm variables "transformer/decoder/LayerNorm" in
     (ready -> forall e, r.1 = inl e ->
        stopped_at
          (fun j => set_transformer_decoder_layer variables
                      ("transformer/decoder/layer_" +:+ fmt_d j))
          (TransformerDecoderSpec.layer s) (TransformerDecoderSpec.layer r.2) e) /\
     (~ ready ->
        TransformerDecoderSpec.layer r.2 = TransformerDecoderSpec.layer s /\
        exists k, r.1 = inl (KeyError k))) /\
  (forall scope relative s,
     let r := set_transformer_encoder_v2 variables scope relative s in
     let ready := has_layer_norm variables (scope +:+ "/layer_norm") in
     (ready -> forall e, r.1 = inl e ->
        stopped_at
          (fun j => set_transformer_encoder_layer_v2 variables
                      (scope +:+ "/layers/" +:+ fmt_d j) relative)
          (TransformerEncoderSpec.layer s) (TransformerEncoderSpec.layer r.2) e) /\
     (~ ready ->
        TransformerEncoderSpec.layer r.2 = TransformerEncoderSpec.layer s /\
        exists k, r.1 = inl (KeyError k))) /\
  (forall scope name relative s,
     let r := set_transformer_decoder_v2 variables scope name relative s in
     let ready :=
       (has variables (scope +:+ "/output_layer/kernel") \/ has variables name) /\
       has_layer_norm variables (scope +:+ "/layer_norm") in
     (ready -> forall e, r.1 = inl e ->
        stopped_at
          (fun j => set_transformer_decoder_layer_v2 variables
                      (scope +:+ "/layers/" +:+ fmt_d j) relative)
          (TransformerDecoderSpec.layer s) (TransformerDecoderSpec.layer r.2) e) /\
     (~ ready ->
        TransformerDecoderSpec.layer r.2 = TransformerDecoderSpec.layer s /\
        exists k, r.1 = inl (KeyError k))).
Proof.
  split_and!.
  - intros s r ready. subst r ready. unfold set_transformer_encoder. cbv zeta.
    rewrite bind_assoc.
    eapply (prefix_then_loop _ TransformerEncoderSpec.layer TransformerEncoderSpec.set_layer);
      [|keeps_solve|reflexivity].
    eapply decides_bind.
    { decides_trivial_zoom decides_set_layer_norm. }
    intros ? _. eapply decides_try; decides_trivial_zoom decides_set_embeddings.
  - intros s r ready. subst r ready. unfold set_transformer_decoder. cbv zeta.
    rewrite !bind_assoc.
    eapply (prefix_then_loop _ TransformerDecoderSpec.layer TransformerDecoderSpec.set_layer);
      [|keeps_solve|reflexivity].
    eapply decides_iff.
    + eapply decides_bind.
      { eapply decides_bind.
        { eapply decides_try; decides_trivial_zoom decides_set_embeddings. }
        intros name Hname. eapply (decides_iff _ _ _ True _ (fun _ => True)).
        - eapply decides_try; decides_trivial_zoom decides_set_linear.
        - split; [auto|]. intros _. right. exact Hname.
        - auto. }
      intros ? _. decides_trivial_zoom decides_set_layer_norm.
    + cbv [String.append Nat.eqb]. tauto.
    + intros a Ha. exact Ha.
  - intros scope relative s r ready. subst r ready. unfold set_transformer_encoder_v2.
    eapply (prefix_then_loop _ TransformerEncoderSpec.layer TransformerEncoderSpec.set_layer);
      [|keeps_solve|reflexivity].
    decides_trivial_zoom decides_set_layer_norm.
  - intros scope name relative s r ready. subst r ready. unfold set_transformer_decoder_v2.
    cbv zeta. rewrite bind_assoc.
    eapply (prefix_then_loop _ TransformerDecoderSpec.layer TransformerDecoderSpec.set_layer);
      [|keeps_solve|reflexivity].
    eapply decides_iff.
    + eapply decides_bind.
      { eapply decides_try.
        - eapply decides_bind.
          { decides_trivial_zoom decides_set_linear. }
          intros ? _. eapply decides_bind.
          { apply (decides_gets _ _ (fun _ => True)). auto. }
          intros tied _. destruct (negb tied).
          + eapply decides_zoom;
              [apply (decides_modify (fun _ => True)); auto|intros; exact I|].
            intros t s0 Hs _. exact Hs.
          + apply (decides_ret _ tt (fun _ => True)). exact I.
        - decides_trivial_zoom decides_set_linear. }
      intros ? _. decides_trivial_zoom decides_set_layer_norm.
    + cbv [default from_option id]. rewrite !append_assoc.
      change ("/output_layer" +:+ "/kernel") with "/output_layer/kernel". tauto.
    + intros a Ha. exact Ha.
Qed.

(** Block 1 is missing from the checkpoint: the loop stops at layer 1.
    Without the gamma of the final layer norm the setter raises before the
    loop and the layers are untouched. *)
Lemma layer_loop_stops_at_first_failure_witness :
  (let variables := Fixtures.checkpoint_v1 [0; 2] in
   let s := TransformerEncoderSpec.empty 3 in
   let r := set_transformer_encoder variables s in
   r.1 = inl (KeyError "transformer/encoder/layer_1/ffn/LayerNorm/gamma") /\
   stopped_at
     (fun j => set_transformer_encoder_layer variables
                 ("transformer/encoder/layer_" +:+ fmt_d j))
     (TransformerEncoderSpec.layer s) (TransformerEncoderSpec.layer r.2)
     (KeyError "transformer/encoder/layer_1/ffn/LayerNorm/gamma")) /\
  (let variables := delete "transformer/encoder/LayerNorm/gamma" (Fixtures.checkpoint_v1 [0]) in
   let s := TransformerEncoderSpec.empty 1 in
   let r := set_transformer_encoder variables s in
   TransformerEncoderSpec.layer r.2 = TransformerEncoderSpec.layer s /\
   exists k, r.1 = inl (KeyError k)).
Proof.
  split.
  - intros variables s r.
    assert (r.1 = inl (KeyError "transformer/encoder/layer_1/ffn/LayerNorm/gamma")) as Hr
      by (vm_compute; reflexivity).
    split; [exact Hr|].
    destruct (layer_loop_stops_at_first_failure variables) as (H & _).
    destruct (H s) as [Hready _]. apply Hready; [|exact Hr].
    unfold has_layer_norm, has.
    split; [split|left]; apply (bool_decide_unpack _); vm_compute; exact I.
  - intros variables s r.
    destruct (layer_loop_stops_at_first_failure variables) as (H & _).
    destruct (H s) as [_ Hnot]. apply Hnot.
    intros [[[g Hg] _] _]. vm_compute in Hg. discriminate Hg.
Defined.
